(** * Blender MCP server: validated tool registry and stdout filter

    A shallow embedding of
    - [src/models.py]      the pydantic input models,
    - [src/operations.py]  the handlers that drive Blender through [bpy],
    - [src/tools.py]       the MCP tools wrapping model construction and handler,
    - [blender_mcp_filter.py]  the filter that forwards only JSON from
                               Blender's stdout,
    followed by the properties established for them. *)

From Stdlib Require Import List NArith ZArith QArith Bool Lia Lqa String Ascii.
Import ListNotations.

Set Implicit Arguments.

(* ===================================================================== *)
(** * Python values *)
(* ===================================================================== *)

(** A Python [str] is a sequence of Unicode code points; [len] counts code
    points.  A [bytes]/[bytearray] object is a sequence of octets. *)
Definition str := list N.
Definition bytes := list N.

(** [lit "abc"] is the Python literal ['abc'] (ASCII text only). *)
Definition lit (s : string) : str := map N_of_ascii (list_ascii_of_string s).

(** The double quote cannot be written inside a literal here. *)
Definition dquote : N := 34%N.
Definition backslash : N := 92%N.
Definition LF : N := 10%N.
Definition plus_minus : N := 177%N.   (* U+00B1 *)

(** [str.isspace] for one code point: the characters [str.strip()] removes. *)
Definition py_isspace (c : N) : bool :=
  (((9 <=? c) && (c <=? 13)) || ((28 <=? c) && (c <=? 32))
   || (c =? 133) || (c =? 160) || (c =? 5760)
   || ((8192 <=? c) && (c <=? 8202))
   || (c =? 8232) || (c =? 8233) || (c =? 8239) || (c =? 8287)
   || (c =? 12288))%N.

Fixpoint lstrip (s : str) : str :=
  match s with
  | c :: r => if py_isspace c then lstrip r else s
  | [] => []
  end.

Definition rstrip (s : str) : str := rev (lstrip (rev s)).

(** [s.strip()] *)
Definition strip (s : str) : str := rstrip (lstrip s).

(** [c in s] for a one-character string [c] *)
Definition contains (c : N) (s : str) : bool := existsb (N.eqb c) s.

(** [s.startswith(p)] *)
Fixpoint startswith (s p : str) {struct p} : bool :=
  match p, s with
  | [], _ => true
  | a :: p', b :: s' => (a =? b)%N && startswith s' p'
  | _ :: _, [] => false
  end.

(** [s.endswith(p)] *)
Definition endswith (s p : str) : bool := startswith (rev s) (rev p).

(** [s.find(c)] for a one-character string [c]; [None] is Python's [-1]. *)
Fixpoint find (c : N) (s : str) : option nat :=
  match s with
  | [] => None
  | a :: r => if (a =? c)%N then Some 0%nat
              else match find c r with Some i => Some (S i) | None => None end
  end.

(** [sep.join(parts)] *)
Fixpoint join (sep : str) (parts : list str) : str :=
  match parts with
  | [] => []
  | [p] => p
  | p :: ps => p ++ sep ++ join sep ps
  end.

(** [a == b] *)
Fixpoint str_eqb (a b : str) : bool :=
  match a, b with
  | [], [] => true
  | x :: a', y :: b' => (x =? y)%N && str_eqb a' b'
  | _, _ => false
  end.

(** [str(n)] for an [int]: its decimal digits.  A number has no more
    decimal digits than binary ones. *)
Fixpoint digits (fuel : nat) (n : N) (acc : str) : str :=
  match fuel with
  | O => acc
  | S f => let acc' := (48 + n mod 10)%N :: acc in
           if (n / 10 =? 0)%N then acc' else digits f (n / 10)%N acc'
  end.

Definition str_of_N (n : N) : str := digits (S (N.to_nat (N.log2 n))) n [].

Definition str_of_nat (n : nat) : str := str_of_N (N.of_nat n).

Definition str_of_Z (z : Z) : str :=
  match z with
  | Zneg p => lit "-" ++ str_of_N (Npos p)
  | _ => str_of_N (Z.to_N z)
  end.

(** ** Floats

    A Python [float] is an IEEE-754 double: a finite value is a rational
    number (every double is one), beside the two infinities and NaN.
    Comparison of doubles is exact, so it is the comparison of the
    rationals; every comparison with NaN is false. *)
Inductive float :=
| Finite (q : Q)
| PInf
| NInf
| NaN.

Definition float_compare (a b : float) : option comparison :=
  match a, b with
  | NaN, _ | _, NaN => None
  | Finite p, Finite q => Some (p ?= q)%Q
  | NInf, NInf | PInf, PInf => Some Eq
  | NInf, _ | _, PInf => Some Lt
  | PInf, _ | _, NInf => Some Gt
  end.

(** [a <= b], [a < b], [a >= b], [a > b] *)
Definition float_le (a b : float) : bool :=
  match float_compare a b with Some Lt | Some Eq => true | _ => false end.
Definition float_lt (a b : float) : bool :=
  match float_compare a b with Some Lt => true | _ => false end.
Definition float_ge (a b : float) : bool :=
  match float_compare a b with Some Gt | Some Eq => true | _ => false end.
Definition float_gt (a b : float) : bool :=
  match float_compare a b with Some Gt => true | _ => false end.

Definition float_neg (a : float) : float :=
  match a with
  | Finite q => Finite (- q)
  | PInf => NInf
  | NInf => PInf
  | NaN => NaN
  end.

Definition float_of_Z (z : Z) : float := Finite (inject_Z z).

(** The float literals of the source, with the exact value of the double
    each one denotes. *)
Definition f0_0 : float := Finite 0.
Definition f1_0 : float := Finite 1.
Definition f2_0 : float := Finite 2.
Definition q0_001 : Q := 1152921504606847 # 1152921504606846976.
Definition q6_28318 : Q := 3537115888337719 # 562949953421312.
Definition f0_001 : float := Finite q0_001.
Definition f1000_0 : float := Finite 1000.
Definition f10000_0 : float := Finite 10000.
Definition f6_28318 : float := Finite q6_28318.

Definition vec3 : Type := float * float * float.

(** [all(lo <= c <= hi for c in (x, y, z))] *)
Definition all_between (lo hi : float) (v : vec3) : bool :=
  let '(x, y, z) := v in
  forallb (fun c => float_le lo c && float_le c hi) [x; y; z].

(** What the interpreter and its text functions supply: [repr] of a float
    (used by f-strings) and the Unicode case mappings. *)
Class PyRuntime := {
  repr_float : float -> str;
  str_upper : str -> str;
  str_lower : str -> str
}.

(** [str(v)] for a 3-tuple of floats, as an f-string renders it *)
Definition str_vec3 `{PyRuntime} (v : vec3) : str :=
  let '(x, y, z) := v in
  lit "(" ++ join (lit ", ") (map repr_float [x; y; z]) ++ lit ")".

(* ===================================================================== *)
(** * pydantic: fields, constraints and validation errors *)
(* ===================================================================== *)

(** The error of one field: the built-in constraint that failed, or the
    [ValueError] raised by a [field_validator]. *)
Inductive error_type :=
| string_too_short (min_length : nat)
| string_too_long (max_length : nat)
| greater_than (gt : float)
| greater_than_equal (ge : float)
| less_than_equal (le : float)
| int_greater_than_equal (ge : Z)
| int_less_than_equal (le : Z)
| literal_error (expected : list str)
| value_error (msg : str).

Record line_error := { loc : str; err : error_type }.

(** Outcome of validating one field. *)
Definition fres (A : Type) : Type := error_type + A.

(** Outcome of validating a model: every failing field contributes its line
    error, in declaration order. *)
Definition V (A : Type) : Type := list line_error + A.

Definition pure {A} (a : A) : V A := inr a.

(** Validate the next declared field and add it to the model under
    construction; the error of a failing field is added after those of the
    fields before it. *)
Definition vap {A B} (vf : V (A -> B)) (f : str * fres A) : V B :=
  match vf, snd f with
  | inr g, inr a => inr (g a)
  | inr _, inl e => inl [{| loc := fst f; err := e |}]
  | inl es, inr _ => inl es
  | inl es, inl e => inl (es ++ [{| loc := fst f; err := e |}])
  end.

Notation "vf <*> f" := (vap vf f) (at level 61, left associativity).

(** A field's [field_validator] (mode "after") runs on the value that passed
    the [Field] constraints. *)
Definition after {A B} (r : fres A) (validator : A -> fres B) : fres B :=
  match r with
  | inl e => inl e
  | inr a => validator a
  end.

(** [raise ValueError(msg)] inside a validator *)
Definition ValueError {A} (msg : str) : fres A := inl (value_error msg).

(** One declared bound: absent, or checked before the remaining ones. *)
Definition bound {B A} (b : option B) (holds : B -> bool) (e : B -> error_type)
    (k : fres A) : fres A :=
  match b with
  | Some x => if holds x then k else inl (e x)
  | None => k
  end.

(** [Field(min_length=.., max_length=..)] on a [str] *)
Definition str_field (min_length max_length : option nat) (v : str) : fres str :=
  bound min_length (fun m => (m <=? List.length v)%nat) string_too_short
    (bound max_length (fun M => (List.length v <=? M)%nat) string_too_long
       (inr v)).

(** [Field(gt=.., ge=.., le=..)] on a [float]; a bound is violated when the
    comparison with it does not hold. *)
Definition float_field (gt ge le : option float) (v : float) : fres float :=
  bound le (float_le v) less_than_equal
    (bound ge (float_ge v) greater_than_equal
       (bound gt (float_gt v) greater_than
          (inr v))).

(** [Field(ge=.., le=..)] on an [int] *)
Definition int_field (ge le : Z) (v : Z) : fres Z :=
  if (v <=? le)%Z then
    if (ge <=? v)%Z then inr v else inl (int_greater_than_equal ge)
  else inl (int_less_than_equal le).

(** [Literal[...]] *)
Definition literal_field (expected : list str) (v : str) : fres str :=
  if existsb (str_eqb v) expected then inr v else inl (literal_error expected).

(** A field without constraints *)
Definition plain {A} (v : A) : fres A := inr v.

(** How pydantic words a [ValidationError]: the message of each built-in
    error type, and what it appends to a line (the bracketed type and input,
    and the line with the documentation link). *)
Class PydanticCore := {
  core_message : error_type -> str;
  line_context : line_error -> str
}.

Definition message `{PydanticCore} (e : error_type) : str :=
  match e with
  | value_error msg => lit "Value error, " ++ msg
  | _ => core_message e
  end.

Definition render_line `{PydanticCore} (e : line_error) : str :=
  [LF] ++ loc e ++ [LF] ++ lit "  " ++ message (err e) ++ line_context e.

(** [str(e)] for a [ValidationError] of the model [title] *)
Definition ValidationError_str `{PydanticCore} (title : str) (errors : list line_error) : str :=
  str_of_nat (List.length errors)
  ++ lit " validation error" ++ (if (List.length errors =? 1)%nat then [] else lit "s")
  ++ lit " for " ++ title
  ++ List.concat (map render_line errors).

(* ===================================================================== *)
(** * src/models.py *)
(* ===================================================================== *)

(** [invalid_chars]: slash, backslash, colon, asterisk, question mark,
    double quote, less-than, greater-than, vertical bar. *)
Definition invalid_chars : list N := [47; 92; 58; 42; 63; 34; 60; 62; 124]%N.

(** [f"Name cannot contain: {', '.join(invalid_chars)}"] *)
Definition name_message : str :=
  lit "Name cannot contain: " ++ join (lit ", ") (map (fun c => [c]) invalid_chars).

(** [all(p(c) for c in (x, y, z))] *)
Definition all3 (p : float -> bool) (v : vec3) : bool :=
  let '(x, y, z) := v in forallb p [x; y; z].

(** The f-string [{limit}] renders [10000.0] as [10000.0] and [6.28318] as
    [6.28318]. *)
Definition pm_10000 : str := [plus_minus] ++ lit "10000.0".
Definition pm_2pi : str := [plus_minus] ++ lit "6.28318".

Module CreateCubeInput.
Record t := { name : str; size : float; location : vec3 }.

Definition validate_location (v : vec3) : fres vec3 :=
  let limit := f10000_0 in
  if negb (all_between (float_neg limit) limit v)
  then ValueError (lit "Location coordinates must be within " ++ pm_10000)
  else inr v.

Definition validate_name (v : str) : fres str :=
  if existsb (fun char => contains char v) invalid_chars
  then ValueError name_message
  else inr (strip v).

(** [CreateCubeInput(name=name, size=size, location=location)] *)
Definition new (name : str) (size : float) (location : vec3) : V t :=
  pure Build_t
  <*> (lit "name", after (str_field (Some 1%nat) (Some 63%nat) name) validate_name)
  <*> (lit "size", float_field (Some f0_001) None (Some f1000_0) size)
  <*> (lit "location", after (plain location) validate_location).
End CreateCubeInput.

Module CreateSphereInput.
Record t := {
  name : str; segments : Z; ring_count : Z; radius : float;
  calc_uvs : bool; enter_editmode : bool; align : str;
  location : vec3; rotation : vec3; scale : vec3
}.

Definition validate_vector3 (v : vec3) : fres vec3 :=
  let limit := f10000_0 in
  if negb (all_between (float_neg limit) limit v)
  then ValueError (lit "Vector coordinates must be within " ++ pm_10000)
  else inr v.

Definition validate_scale (v : vec3) : fres vec3 :=
  if negb (all3 (fun coord => float_ge coord f0_0) v)
  then ValueError (lit "Scale values must be >= 0.0")
  else if negb (all3 (fun coord => float_le coord f1000_0) v)
  then ValueError (lit "Scale values must be <= 1000.0")
  else inr v.

Definition validate_name (v : str) : fres str :=
  if existsb (fun char => contains char v) invalid_chars
  then ValueError name_message
  else inr (strip v).

Definition new (name : str) (segments ring_count : Z) (radius : float)
    (calc_uvs enter_editmode : bool) (align : str)
    (location rotation scale : vec3) : V t :=
  pure Build_t
  <*> (lit "name", after (str_field (Some 1%nat) (Some 63%nat) name) validate_name)
  <*> (lit "segments", int_field 3 100000 segments)
  <*> (lit "ring_count", int_field 3 100000 ring_count)
  <*> (lit "radius", float_field None (Some f0_0) (Some f1000_0) radius)
  <*> (lit "calc_uvs", plain calc_uvs)
  <*> (lit "enter_editmode", plain enter_editmode)
  <*> (lit "align", literal_field [lit "WORLD"; lit "VIEW"; lit "CURSOR"] align)
  <*> (lit "location", after (plain location) validate_vector3)
  <*> (lit "rotation", after (plain rotation) validate_vector3)
  <*> (lit "scale", after (plain scale) validate_scale).
End CreateSphereInput.

Module MoveObjectInput.
Record t := { name : str; location : vec3 }.

Definition validate_location (v : vec3) : fres vec3 :=
  let limit := f10000_0 in
  if negb (all_between (float_neg limit) limit v)
  then ValueError (lit "Location coordinates must be within " ++ pm_10000)
  else inr v.

Definition new (name : str) (location : vec3) : V t :=
  pure Build_t
  <*> (lit "name", str_field (Some 1%nat) (Some 63%nat) name)
  <*> (lit "location", after (plain location) validate_location).
End MoveObjectInput.

Module DeleteObjectInput.
Record t := { name : str }.
Definition new (name : str) : V t :=
  pure Build_t <*> (lit "name", str_field (Some 1%nat) (Some 63%nat) name).
End DeleteObjectInput.

Module SelectObjectInput.
Record t := { name : str }.
Definition new (name : str) : V t :=
  pure Build_t <*> (lit "name", str_field (Some 1%nat) (Some 63%nat) name).
End SelectObjectInput.

Module CreateMaterialInput.
Record t := { name : str; color : vec3 }.

Definition validate_color (v : vec3) : fres vec3 :=
  if negb (all_between f0_0 f1_0 v)
  then ValueError (lit "Color values must be between 0.0 and 1.0")
  else inr v.

Definition new (name : str) (color : vec3) : V t :=
  pure Build_t
  <*> (lit "name", str_field (Some 1%nat) (Some 63%nat) name)
  <*> (lit "color", after (plain color) validate_color).
End CreateMaterialInput.

Module AssignMaterialInput.
Record t := { object_name : str; material_name : str }.
Definition new (object_name material_name : str) : V t :=
  pure Build_t
  <*> (lit "object_name", str_field (Some 1%nat) (Some 63%nat) object_name)
  <*> (lit "material_name", str_field (Some 1%nat) (Some 63%nat) material_name).
End AssignMaterialInput.

Module RotateObjectInput.
Record t := { name : str; rotation : vec3 }.

Definition validate_rotation (v : vec3) : fres vec3 :=
  let limit := f6_28318 in
  if negb (all_between (float_neg limit) limit v)
  then ValueError (lit "Rotation values should be within " ++ pm_2pi
                   ++ lit " radians (approximately " ++ [plus_minus]
                   ++ lit "360 degrees)")
  else inr v.

Definition new (name : str) (rotation : vec3) : V t :=
  pure Build_t
  <*> (lit "name", str_field (Some 1%nat) (Some 63%nat) name)
  <*> (lit "rotation", after (plain rotation) validate_rotation).
End RotateObjectInput.

Module ScaleObjectInput.
Record t := { name : str; scale : vec3 }.

Definition validate_scale (v : vec3) : fres vec3 :=
  if negb (all3 (fun val => float_gt val f0_0) v)
  then ValueError (lit "Scale values must be positive (greater than 0)")
  else if negb (all3 (fun val => float_le val f1000_0) v)
  then ValueError (lit "Scale values must be <= 1000.0")
  else inr v.

Definition new (name : str) (scale : vec3) : V t :=
  pure Build_t
  <*> (lit "name", str_field (Some 1%nat) (Some 63%nat) name)
  <*> (lit "scale", after (plain scale) validate_scale).
End ScaleObjectInput.

Module GetObjectInfoInput.
Record t := { name : str }.
Definition new (name : str) : V t :=
  pure Build_t <*> (lit "name", str_field (Some 1%nat) (Some 63%nat) name).
End GetObjectInfoInput.

Module CreateCameraInput.
Record t := { name : str; location : vec3; rotation : vec3 }.

Definition validate_location (v : vec3) : fres vec3 :=
  let limit := f10000_0 in
  if negb (all_between (float_neg limit) limit v)
  then ValueError (lit "Location coordinates must be within " ++ pm_10000)
  else inr v.

Definition validate_name (v : str) : fres str :=
  if existsb (fun char => contains char v) invalid_chars
  then ValueError name_message
  else inr (strip v).

Definition new (name : str) (location rotation : vec3) : V t :=
  pure Build_t
  <*> (lit "name", after (str_field (Some 1%nat) (Some 63%nat) name) validate_name)
  <*> (lit "location", after (plain location) validate_location)
  <*> (lit "rotation", plain rotation).
End CreateCameraInput.

Module CreateLightInput.
Record t := { name : str; light_type : str; location : vec3; energy : float }.

Definition valid_types : list str := [lit "SUN"; lit "POINT"; lit "SPOT"; lit "AREA"].

Definition validate_light_type `{PyRuntime} (v : str) : fres str :=
  if negb (existsb (str_eqb (str_upper v)) valid_types)
  then ValueError (lit "Light type must be one of: " ++ join (lit ", ") valid_types)
  else inr (str_upper v).

Definition validate_location (v : vec3) : fres vec3 :=
  let limit := f10000_0 in
  if negb (all_between (float_neg limit) limit v)
  then ValueError (lit "Location coordinates must be within " ++ pm_10000)
  else inr v.

Definition validate_name (v : str) : fres str :=
  if existsb (fun char => contains char v) invalid_chars
  then ValueError name_message
  else inr (strip v).

Definition new `{PyRuntime} (name light_type : str) (location : vec3)
    (energy : float) : V t :=
  pure Build_t
  <*> (lit "name", after (str_field (Some 1%nat) (Some 63%nat) name) validate_name)
  <*> (lit "light_type", after (plain light_type) validate_light_type)
  <*> (lit "location", after (plain location) validate_location)
  <*> (lit "energy", float_field None (Some f0_0) (Some f1000_0) energy).
End CreateLightInput.

Module RenderSceneInput.
Record t := { filepath : str; resolution_x : Z; resolution_y : Z }.

Definition valid_extensions : list str :=
  [lit ".png"; lit ".jpg"; lit ".jpeg"; lit ".bmp"; lit ".tiff"; lit ".exr"].

Definition validate_filepath `{PyRuntime} (v : str) : fres str :=
  if negb (existsb (fun ext => endswith (str_lower v) ext) valid_extensions)
  then ValueError (lit "Filepath must end with one of: "
                   ++ join (lit ", ") valid_extensions)
  else inr v.

Definition new `{PyRuntime} (filepath : str) (resolution_x resolution_y : Z) : V t :=
  pure Build_t
  <*> (lit "filepath", after (str_field (Some 1%nat) None filepath) validate_filepath)
  <*> (lit "resolution_x", int_field 1 10000 resolution_x)
  <*> (lit "resolution_y", int_field 1 10000 resolution_y).
End RenderSceneInput.

Module CreateCylinderInput.
Record t := {
  name : str; radius : float; depth : float; location : vec3; vertices : Z
}.

Definition validate_location (v : vec3) : fres vec3 :=
  let limit := f10000_0 in
  if negb (all_between (float_neg limit) limit v)
  then ValueError (lit "Location coordinates must be within " ++ pm_10000)
  else inr v.

Definition validate_name (v : str) : fres str :=
  if existsb (fun char => contains char v) invalid_chars
  then ValueError name_message
  else inr (strip v).

Definition new (name : str) (radius depth : float) (location : vec3)
    (vertices : Z) : V t :=
  pure Build_t
  <*> (lit "name", after (str_field (Some 1%nat) (Some 63%nat) name) validate_name)
  <*> (lit "radius", float_field (Some f0_001) None (Some f1000_0) radius)
  <*> (lit "depth", float_field (Some f0_001) None (Some f1000_0) depth)
  <*> (lit "location", after (plain location) validate_location)
  <*> (lit "vertices", int_field 3 256 vertices).
End CreateCylinderInput.

Module CreatePlaneInput.
Record t := { name : str; size : float; location : vec3 }.

Definition validate_location (v : vec3) : fres vec3 :=
  let limit := f10000_0 in
  if negb (all_between (float_neg limit) limit v)
  then ValueError (lit "Location coordinates must be within " ++ pm_10000)
  else inr v.

Definition validate_name (v : str) : fres str :=
  if existsb (fun char => contains char v) invalid_chars
  then ValueError name_message
  else inr (strip v).

Definition new (name : str) (size : float) (location : vec3) : V t :=
  pure Build_t
  <*> (lit "name", after (str_field (Some 1%nat) (Some 63%nat) name) validate_name)
  <*> (lit "size", float_field (Some f0_001) None (Some f1000_0) size)
  <*> (lit "location", after (plain location) validate_location).
End CreatePlaneInput.

Module DuplicateObjectInput.
Record t := { name : str; new_name : str; location : option vec3 }.

Definition validate_location (v : option vec3) : fres (option vec3) :=
  match v with
  | None => inr None
  | Some xyz =>
      let limit := f10000_0 in
      if negb (all_between (float_neg limit) limit xyz)
      then ValueError (lit "Location coordinates must be within " ++ pm_10000)
      else inr v
  end.

Definition validate_name (v : str) : fres str :=
  if existsb (fun char => contains char v) invalid_chars
  then ValueError name_message
  else inr (strip v).

Definition new (name new_name : str) (location : option vec3) : V t :=
  pure Build_t
  <*> (lit "name", str_field (Some 1%nat) (Some 63%nat) name)
  <*> (lit "new_name", after (str_field (Some 1%nat) (Some 63%nat) new_name) validate_name)
  <*> (lit "location", after (plain location) validate_location).
End DuplicateObjectInput.

Module SetActiveCameraInput.
Record t := { camera_name : str }.
Definition new (camera_name : str) : V t :=
  pure Build_t <*> (lit "camera_name", str_field (Some 1%nat) (Some 63%nat) camera_name).
End SetActiveCameraInput.

Module SaveFileInput.
Record t := { filepath : str }.

Definition validate_filepath `{PyRuntime} (v : str) : fres str :=
  if negb (endswith (str_lower v) (lit ".blend"))
  then ValueError (lit "Filepath must end with .blend extension")
  else inr (strip v).

Definition new `{PyRuntime} (filepath : str) : V t :=
  pure Build_t
  <*> (lit "filepath", after (str_field (Some 1%nat) None filepath) validate_filepath).
End SaveFileInput.

Module OpenFileInput.
Record t := { filepath : str }.

Definition validate_filepath `{PyRuntime} (v : str) : fres str :=
  if negb (endswith (str_lower v) (lit ".blend"))
  then ValueError (lit "Filepath must end with .blend extension")
  else inr (strip v).

Definition new `{PyRuntime} (filepath : str) : V t :=
  pure Build_t
  <*> (lit "filepath", after (str_field (Some 1%nat) None filepath) validate_filepath).
End OpenFileInput.

(* ===================================================================== *)
(** * Exceptions and effects *)
(* ===================================================================== *)

(** The exceptions a call can meet; all are instances of [Exception].
    [Exception msg] stands for any class other than the two named ones,
    with [msg] its [str()]. *)
Inductive exn :=
| ImportError (msg : str)
| ValidationError (title : str) (errors : list line_error)
| Exception (msg : str).

(** [str(e)] *)
Definition exn_str `{PydanticCore} (e : exn) : str :=
  match e with
  | ImportError msg => msg
  | ValidationError title errors => ValidationError_str title errors
  | Exception msg => msg
  end.

Definition is_ImportError (e : exn) : bool :=
  match e with ImportError _ => true | _ => false end.

Inductive outcome (A : Type) :=
| Return (a : A)
| Raise (e : exn).
Arguments Return {A} a.
Arguments Raise {A} e.

(** A computation over a state [W]: it returns or raises, and the state it
    leaves behind keeps whatever was changed before the exception. *)
Definition M (W A : Type) : Type := W -> outcome A * W.

Definition ret {W A} (a : A) : M W A := fun w => (Return a, w).

Definition raise {W A} (e : exn) : M W A := fun w => (Raise e, w).

Definition bind {W A B} (c : M W A) (k : A -> M W B) : M W B := fun w =>
  match c w with
  | (Return a, w') => k a w'
  | (Raise e, w') => (Raise e, w')
  end.

(** An access that only reads the state. *)
Definition read {W A} (f : W -> outcome A) : M W A := fun w => (f w, w).

Notation "x <- c ;; k" := (bind c (fun x => k))
  (at level 100, c at next level, right associativity).
Notation "c ;;; k" := (bind c (fun _ => k))
  (at level 100, right associativity).

(** [for x in xs: ...] collecting one result per element *)
Fixpoint mapM {W A B} (f : A -> M W B) (xs : list A) : M W (list B) :=
  match xs with
  | [] => ret []
  | x :: r => y <- f x ;; ys <- mapM f r ;; ret (y :: ys)
  end.

(** Constructing a model: [Model(...)] returns the instance or raises the
    [ValidationError] carrying every line error. *)
Definition construct {W A} (title : str) (v : V A) : M W A :=
  match v with
  | inr a => ret a
  | inl errors => raise (ValidationError title errors)
  end.

(* ===================================================================== *)
(** * The host: Blender's [bpy] and the file system *)
(* ===================================================================== *)

(** What the handlers reach of Blender, over a document state [H] with
    handles [Obj] (objects), [Mat] (materials) and [Node] (shader nodes).
    Every access may raise.  Attribute reads and lookups leave the state
    alone; assignments, operators and collection updates may change it. *)
Class Bpy (H Obj Mat Node : Type) := {
  (* import bpy *)
  import_bpy : H -> outcome unit;
  (* bpy.ops.mesh / bpy.ops.object operators *)
  primitive_cube_add : float -> vec3 -> M H unit;
  primitive_uv_sphere_add :
    Z -> Z -> float -> bool -> bool -> str -> vec3 -> vec3 -> vec3 -> M H unit;
  primitive_cylinder_add : float -> float -> vec3 -> Z -> M H unit;
  primitive_plane_add : float -> vec3 -> M H unit;
  camera_add : vec3 -> vec3 -> M H unit;
  light_add : str -> vec3 -> M H unit;
  select_all : str -> M H unit;
  object_delete : M H unit;
  object_duplicate : M H unit;
  (* bpy.context *)
  active_object : H -> outcome (option Obj);
  set_active : Obj -> M H unit;
  scene_camera : H -> outcome (option Obj);
  set_scene_camera : Obj -> M H unit;
  set_resolution_x : Z -> M H unit;
  set_resolution_y : Z -> M H unit;
  set_render_filepath : str -> M H unit;
  render : bool -> M H unit;
  (* bpy.data.objects *)
  objects : H -> outcome (list Obj);
  objects_get : str -> H -> outcome (option Obj);
  objects_remove : Obj -> M H unit;
  (* attributes of an object *)
  get_name : Obj -> H -> outcome str;
  get_type : Obj -> H -> outcome str;
  get_location : Obj -> H -> outcome vec3;
  get_rotation_euler : Obj -> H -> outcome vec3;
  get_scale : Obj -> H -> outcome vec3;
  has_data : Obj -> H -> outcome bool;
  vertices_len : Obj -> H -> outcome nat;
  polygons_len : Obj -> H -> outcome nat;
  set_name : Obj -> str -> M H unit;
  set_location : Obj -> vec3 -> M H unit;
  set_rotation_euler : Obj -> vec3 -> M H unit;
  set_scale : Obj -> vec3 -> M H unit;
  select_set : Obj -> bool -> M H unit;
  set_energy : Obj -> float -> M H unit;
  (* obj.data.materials *)
  slots_nonempty : Obj -> H -> outcome bool;
  slot_set_first : Obj -> Mat -> M H unit;
  slot_append : Obj -> Mat -> M H unit;
  (* bpy.data.materials *)
  materials_contains : str -> H -> outcome bool;
  materials_get : str -> H -> outcome (option Mat);
  materials_new : str -> M H Mat;
  has_node_tree : Mat -> H -> outcome bool;
  nodes_get : Mat -> str -> H -> outcome (option Node);
  set_base_color : Node -> float * float * float * float -> M H unit;
  (* bpy.data.filepath, bpy.ops.wm, os *)
  data_filepath : H -> outcome str;
  save_as_mainfile : str -> M H unit;
  open_mainfile : str -> M H unit;
  path_exists : str -> H -> outcome bool;
  makedirs : str -> M H unit
}.

(** [os.path.dirname] (posixpath) *)
Fixpoint rstrip_slash_rev (r : str) : str :=
  match r with
  | c :: r' => if (c =? 47)%N then rstrip_slash_rev r' else r
  | [] => []
  end.

Fixpoint drop_last_component_rev (r : str) : str :=
  match r with
  | c :: r' => if (c =? 47)%N then r else drop_last_component_rev r'
  | [] => []
  end.

Definition dirname (p : str) : str :=
  let head_rev := drop_last_component_rev (rev p) in
  if forallb (N.eqb 47) head_rev then rev head_rev
  else rev (rstrip_slash_rev head_rev).

(* ===================================================================== *)
(** * src/operations.py *)
(* ===================================================================== *)

Section Operations.
Context {H Obj Mat Node : Type}.
Context `{PyRuntime} `{PydanticCore} {bpy : Bpy H Obj Mat Node}.

Definition bpy_not_found : str :=
  lit "Error: bpy module not found. Tool must run in Blender environment.".

(** The frame every handler has:
    [try: body / except ImportError: return "Error: bpy module not found..."
     / except Exception as e: return f"Error [label]: {str(e)}"] *)
Definition try_bpy (label : str) (body : M H str) : M H str := fun h =>
  match body h with
  | (Return s, h') => (Return s, h')
  | (Raise e, h') =>
      if is_ImportError e then (Return bpy_not_found, h')
      else (Return (lit "Error [" ++ label ++ lit "]: " ++ exn_str e), h')
  end.

Definition not_found (kind name : str) : str :=
  lit "Error: " ++ kind ++ lit " '" ++ name ++ lit "' not found".

Definition create_cube (input : CreateCubeInput.t) : M H str :=
  try_bpy (lit "Create Cube") (
    read import_bpy ;;;
    primitive_cube_add (CreateCubeInput.size input) (CreateCubeInput.location input) ;;;
    cube <- read active_object ;;
    match cube with
    | Some cube =>
        set_name cube (CreateCubeInput.name input) ;;;
        ret (lit "Successfully created cube '" ++ CreateCubeInput.name input
             ++ lit "' with size " ++ repr_float (CreateCubeInput.size input)
             ++ lit " at location " ++ str_vec3 (CreateCubeInput.location input))
    | None => ret (lit "Error: Cube created but could not get reference to object")
    end).

Definition create_sphere (input : CreateSphereInput.t) : M H str :=
  try_bpy (lit "Create Sphere") (
    read import_bpy ;;;
    primitive_uv_sphere_add
      (CreateSphereInput.segments input) (CreateSphereInput.ring_count input)
      (CreateSphereInput.radius input) (CreateSphereInput.calc_uvs input)
      (CreateSphereInput.enter_editmode input) (CreateSphereInput.align input)
      (CreateSphereInput.location input) (CreateSphereInput.rotation input)
      (CreateSphereInput.scale input) ;;;
    sphere <- read active_object ;;
    match sphere with
    | Some sphere =>
        set_name sphere (CreateSphereInput.name input) ;;;
        ret (lit "Successfully created sphere '" ++ CreateSphereInput.name input
             ++ lit "' with radius " ++ repr_float (CreateSphereInput.radius input)
             ++ lit " (segments=" ++ str_of_Z (CreateSphereInput.segments input)
             ++ lit ", rings=" ++ str_of_Z (CreateSphereInput.ring_count input)
             ++ lit ") at location " ++ str_vec3 (CreateSphereInput.location input))
    | None => ret (lit "Error: Sphere created but could not get reference to object")
    end).

Definition move_object (input : MoveObjectInput.t) : M H str :=
  try_bpy (lit "Move Object") (
    read import_bpy ;;;
    obj <- read (objects_get (MoveObjectInput.name input)) ;;
    match obj with
    | None => ret (not_found (lit "Object") (MoveObjectInput.name input))
    | Some obj =>
        set_active obj ;;;
        select_set obj true ;;;
        set_location obj (MoveObjectInput.location input) ;;;
        ret (lit "Successfully moved object '" ++ MoveObjectInput.name input
             ++ lit "' to location " ++ str_vec3 (MoveObjectInput.location input))
    end).

Definition list_objects : M H str :=
  try_bpy (lit "List Objects") (
    read import_bpy ;;;
    objs <- read objects ;;
    if (List.length objs =? 0)%nat then ret (lit "Scene is empty - no objects found")
    else
      obj_list <- mapM (fun obj =>
          n <- read (get_name obj) ;;
          t <- read (get_type obj) ;;
          l <- read (get_location obj) ;;
          ret (lit "  - " ++ n ++ lit " (" ++ t ++ lit ") at location " ++ str_vec3 l))
        objs ;;
      ret (lit "Found " ++ str_of_nat (List.length objs) ++ lit " object(s):" ++ [LF]
           ++ join [LF] obj_list)).

Definition delete_object (input : DeleteObjectInput.t) : M H str :=
  try_bpy (lit "Delete Object") (
    read import_bpy ;;;
    obj <- read (objects_get (DeleteObjectInput.name input)) ;;
    match obj with
    | None => ret (not_found (lit "Object") (DeleteObjectInput.name input))
    | Some obj =>
        objects_remove obj ;;;
        ret (lit "Successfully deleted object '" ++ DeleteObjectInput.name input
             ++ lit "'")
    end).

Definition select_object (input : SelectObjectInput.t) : M H str :=
  try_bpy (lit "Select Object") (
    read import_bpy ;;;
    obj <- read (objects_get (SelectObjectInput.name input)) ;;
    match obj with
    | None => ret (not_found (lit "Object") (SelectObjectInput.name input))
    | Some obj =>
        select_all (lit "DESELECT") ;;;
        select_set obj true ;;;
        set_active obj ;;;
        ret (lit "Successfully selected object '" ++ SelectObjectInput.name input
             ++ lit "'")
    end).

Definition create_material (input : CreateMaterialInput.t) : M H str :=
  try_bpy (lit "Create Material") (
    read import_bpy ;;;
    present <- read (materials_contains (CreateMaterialInput.name input)) ;;
    if present
    then ret (lit "Error: Material '" ++ CreateMaterialInput.name input
              ++ lit "' already exists")
    else
      mat <- materials_new (CreateMaterialInput.name input) ;;
      tree <- read (has_node_tree mat) ;;
      (if tree then
         bsdf <- read (nodes_get mat (lit "Principled BSDF")) ;;
         match bsdf with
         | Some bsdf =>
             let '(r, g, b) := CreateMaterialInput.color input in
             set_base_color bsdf (r, g, b, f1_0)
         | None => ret tt
         end
       else ret tt) ;;;
      ret (lit "Successfully created material '" ++ CreateMaterialInput.name input
           ++ lit "' with color RGB" ++ str_vec3 (CreateMaterialInput.color input))).

Definition assign_material (input : AssignMaterialInput.t) : M H str :=
  try_bpy (lit "Assign Material") (
    read import_bpy ;;;
    obj <- read (objects_get (AssignMaterialInput.object_name input)) ;;
    match obj with
    | None => ret (not_found (lit "Object") (AssignMaterialInput.object_name input))
    | Some obj =>
        mat <- read (materials_get (AssignMaterialInput.material_name input)) ;;
        match mat with
        | None =>
            ret (not_found (lit "Material") (AssignMaterialInput.material_name input))
        | Some mat =>
            filled <- read (slots_nonempty obj) ;;
            (if filled then slot_set_first obj mat else slot_append obj mat) ;;;
            ret (lit "Successfully assigned material '"
                 ++ AssignMaterialInput.material_name input
                 ++ lit "' to object '" ++ AssignMaterialInput.object_name input
                 ++ lit "'")
        end
    end).

Definition rotate_object (input : RotateObjectInput.t) : M H str :=
  try_bpy (lit "Rotate Object") (
    read import_bpy ;;;
    obj <- read (objects_get (RotateObjectInput.name input)) ;;
    match obj with
    | None => ret (not_found (lit "Object") (RotateObjectInput.name input))
    | Some obj =>
        set_rotation_euler obj (RotateObjectInput.rotation input) ;;;
        ret (lit "Successfully rotated object '" ++ RotateObjectInput.name input
             ++ lit "' to rotation " ++ str_vec3 (RotateObjectInput.rotation input))
    end).

Definition scale_object (input : ScaleObjectInput.t) : M H str :=
  try_bpy (lit "Scale Object") (
    read import_bpy ;;;
    obj <- read (objects_get (ScaleObjectInput.name input)) ;;
    match obj with
    | None => ret (not_found (lit "Object") (ScaleObjectInput.name input))
    | Some obj =>
        set_scale obj (ScaleObjectInput.scale input) ;;;
        ret (lit "Successfully scaled object '" ++ ScaleObjectInput.name input
             ++ lit "' to scale " ++ str_vec3 (ScaleObjectInput.scale input))
    end).

Definition get_object_info (input : GetObjectInfoInput.t) : M H str :=
  try_bpy (lit "Get Object Info") (
    read import_bpy ;;;
    obj <- read (objects_get (GetObjectInfoInput.name input)) ;;
    match obj with
    | None => ret (not_found (lit "Object") (GetObjectInfoInput.name input))
    | Some obj =>
        n <- read (get_name obj) ;;
        t <- read (get_type obj) ;;
        l <- read (get_location obj) ;;
        r <- read (get_rotation_euler obj) ;;
        s <- read (get_scale obj) ;;
        let info_lines :=
          [lit "Object: " ++ n; lit "Type: " ++ t;
           lit "Location: " ++ str_vec3 l; lit "Rotation: " ++ str_vec3 r;
           lit "Scale: " ++ str_vec3 s] in
        t' <- read (get_type obj) ;;
        mesh <- (if str_eqb t' (lit "MESH") then read (has_data obj) else ret false) ;;
        if mesh then
          nv <- read (vertices_len obj) ;;
          nf <- read (polygons_len obj) ;;
          ret (join [LF] (info_lines ++ [lit "Vertices: " ++ str_of_nat nv;
                                          lit "Faces: " ++ str_of_nat nf]))
        else ret (join [LF] info_lines)
    end).

Definition create_camera (input : CreateCameraInput.t) : M H str :=
  try_bpy (lit "Create Camera") (
    read import_bpy ;;;
    camera_add (CreateCameraInput.location input) (CreateCameraInput.rotation input) ;;;
    camera <- read active_object ;;
    match camera with
    | None => ret (lit "Error: Camera created but could not get reference to object")
    | Some camera =>
        set_name camera (CreateCameraInput.name input) ;;;
        ret (lit "Successfully created camera '" ++ CreateCameraInput.name input
             ++ lit "' at location " ++ str_vec3 (CreateCameraInput.location input)
             ++ lit " with rotation " ++ str_vec3 (CreateCameraInput.rotation input))
    end).

Definition create_light (input : CreateLightInput.t) : M H str :=
  try_bpy (lit "Create Light") (
    read import_bpy ;;;
    (let ty := CreateLightInput.light_type input in
     let at_ := CreateLightInput.location input in
     if str_eqb ty (lit "SUN") then light_add (lit "SUN") at_
     else if str_eqb ty (lit "POINT") then light_add (lit "POINT") at_
     else if str_eqb ty (lit "SPOT") then light_add (lit "SPOT") at_
     else if str_eqb ty (lit "AREA") then light_add (lit "AREA") at_
     else ret tt) ;;;
    light <- read active_object ;;
    match light with
    | None => ret (lit "Error: Light created but could not get reference to object")
    | Some light =>
        set_name light (CreateLightInput.name input) ;;;
        d <- read (has_data light) ;;
        (if d then set_energy light (CreateLightInput.energy input) else ret tt) ;;;
        ret (lit "Successfully created " ++ CreateLightInput.light_type input
             ++ lit " light '" ++ CreateLightInput.name input
             ++ lit "' at location " ++ str_vec3 (CreateLightInput.location input)
             ++ lit " with energy " ++ repr_float (CreateLightInput.energy input))
    end).

Definition render_scene (input : RenderSceneInput.t) : M H str :=
  try_bpy (lit "Render Scene") (
    read import_bpy ;;;
    cam <- read scene_camera ;;
    match cam with
    | None => ret (lit "Error [Render Scene]: No active camera found. Create a camera before rendering.")
    | Some _ =>
        set_resolution_x (RenderSceneInput.resolution_x input) ;;;
        set_resolution_y (RenderSceneInput.resolution_y input) ;;;
        set_render_filepath (RenderSceneInput.filepath input) ;;;
        render true ;;;
        ret (lit "Successfully rendered scene to '" ++ RenderSceneInput.filepath input
             ++ lit "' at resolution " ++ str_of_Z (RenderSceneInput.resolution_x input)
             ++ lit "x" ++ str_of_Z (RenderSceneInput.resolution_y input))
    end).

Definition save_file (input : SaveFileInput.t) : M H str :=
  try_bpy (lit "Save File") (
    read import_bpy ;;;
    let directory := dirname (SaveFileInput.filepath input) in
    (match directory with
     | [] => ret tt
     | _ => present <- read (path_exists directory) ;;
            if present then ret tt else makedirs directory
     end) ;;;
    save_as_mainfile (SaveFileInput.filepath input) ;;;
    ret (lit "Successfully saved Blender file to '" ++ SaveFileInput.filepath input
         ++ lit "'")).

Definition open_file (input : OpenFileInput.t) : M H str :=
  try_bpy (lit "Open File") (
    read import_bpy ;;;
    present <- read (path_exists (OpenFileInput.filepath input)) ;;
    if negb present
    then ret (lit "Error [Open File]: File not found: '" ++ OpenFileInput.filepath input
              ++ lit "'")
    else
      open_mainfile (OpenFileInput.filepath input) ;;;
      ret (lit "Successfully opened Blender file '" ++ OpenFileInput.filepath input
           ++ lit "'")).

Definition get_scene_filepath : M H str :=
  try_bpy (lit "Get Scene Filepath") (
    read import_bpy ;;;
    filepath <- read data_filepath ;;
    match filepath with
    | [] => ret (lit "File not saved yet (unsaved file)")
    | _ => ret (lit "Current Blender file: " ++ filepath)
    end).

Definition clear_scene : M H str :=
  try_bpy (lit "Clear Scene") (
    read import_bpy ;;;
    objs <- read objects ;;
    let count := List.length objs in
    if (count =? 0)%nat then ret (lit "Scene was already empty")
    else
      select_all (lit "SELECT") ;;;
      object_delete ;;;
      ret (lit "Successfully cleared scene - removed " ++ str_of_nat count
           ++ lit " object(s)")).

Definition duplicate_object (input : DuplicateObjectInput.t) : M H str :=
  try_bpy (lit "Duplicate Object") (
    read import_bpy ;;;
    obj <- read (objects_get (DuplicateObjectInput.name input)) ;;
    match obj with
    | None => ret (not_found (lit "Object") (DuplicateObjectInput.name input))
    | Some obj =>
        select_all (lit "DESELECT") ;;;
        select_set obj true ;;;
        set_active obj ;;;
        object_duplicate ;;;
        duplicate <- read active_object ;;
        match duplicate with
        | None => ret (lit "Error: Object duplicated but could not get reference")
        | Some duplicate =>
            set_name duplicate (DuplicateObjectInput.new_name input) ;;;
            (match DuplicateObjectInput.location input with
             | Some l => set_location duplicate l
             | None => ret tt
             end) ;;;
            ret (lit "Successfully duplicated object '" ++ DuplicateObjectInput.name input
                 ++ lit "' as '" ++ DuplicateObjectInput.new_name input ++ lit "'")
        end
    end).

Definition set_active_camera (input : SetActiveCameraInput.t) : M H str :=
  try_bpy (lit "Set Active Camera") (
    read import_bpy ;;;
    camera_obj <- read (objects_get (SetActiveCameraInput.camera_name input)) ;;
    match camera_obj with
    | None => ret (not_found (lit "Camera") (SetActiveCameraInput.camera_name input))
    | Some camera_obj =>
        t <- read (get_type camera_obj) ;;
        if negb (str_eqb t (lit "CAMERA"))
        then
          t' <- read (get_type camera_obj) ;;
          ret (lit "Error: Object '" ++ SetActiveCameraInput.camera_name input
               ++ lit "' is not a camera (type: " ++ t' ++ lit ")")
        else
          set_scene_camera camera_obj ;;;
          ret (lit "Successfully set '" ++ SetActiveCameraInput.camera_name input
               ++ lit "' as active camera")
    end).

Definition create_cylinder (input : CreateCylinderInput.t) : M H str :=
  try_bpy (lit "Create Cylinder") (
    read import_bpy ;;;
    primitive_cylinder_add
      (CreateCylinderInput.radius input) (CreateCylinderInput.depth input)
      (CreateCylinderInput.location input) (CreateCylinderInput.vertices input) ;;;
    cylinder <- read active_object ;;
    match cylinder with
    | None => ret (lit "Error: Cylinder created but could not get reference to object")
    | Some cylinder =>
        set_name cylinder (CreateCylinderInput.name input) ;;;
        ret (lit "Successfully created cylinder '" ++ CreateCylinderInput.name input
             ++ lit "' with radius " ++ repr_float (CreateCylinderInput.radius input)
             ++ lit " and depth " ++ repr_float (CreateCylinderInput.depth input)
             ++ lit " at location " ++ str_vec3 (CreateCylinderInput.location input))
    end).

Definition create_plane (input : CreatePlaneInput.t) : M H str :=
  try_bpy (lit "Create Plane") (
    read import_bpy ;;;
    primitive_plane_add (CreatePlaneInput.size input) (CreatePlaneInput.location input) ;;;
    plane <- read active_object ;;
    match plane with
    | None => ret (lit "Error: Plane created but could not get reference to object")
    | Some plane =>
        set_name plane (CreatePlaneInput.name input) ;;;
        ret (lit "Successfully created plane '" ++ CreatePlaneInput.name input
             ++ lit "' with size " ++ repr_float (CreatePlaneInput.size input)
             ++ lit " at location " ++ str_vec3 (CreatePlaneInput.location input))
    end).
End Operations.

(* ===================================================================== *)
(** * src/tools.py *)
(* ===================================================================== *)

(** The handlers a tool module is linked with: [tools.py] imports them by
    name from [operations], so a test can bind other functions (such as
    counting ones) to the same names. *)
Record handlers (W : Type) := {
  h_create_cube : CreateCubeInput.t -> M W str;
  h_create_sphere : CreateSphereInput.t -> M W str;
  h_move_object : MoveObjectInput.t -> M W str;
  h_list_objects : M W str;
  h_delete_object : DeleteObjectInput.t -> M W str;
  h_select_object : SelectObjectInput.t -> M W str;
  h_create_material : CreateMaterialInput.t -> M W str;
  h_assign_material : AssignMaterialInput.t -> M W str;
  h_rotate_object : RotateObjectInput.t -> M W str;
  h_scale_object : ScaleObjectInput.t -> M W str;
  h_get_object_info : GetObjectInfoInput.t -> M W str;
  h_create_camera : CreateCameraInput.t -> M W str;
  h_create_light : CreateLightInput.t -> M W str;
  h_render_scene : RenderSceneInput.t -> M W str;
  h_clear_scene : M W str;
  h_duplicate_object : DuplicateObjectInput.t -> M W str;
  h_set_active_camera : SetActiveCameraInput.t -> M W str;
  h_create_cylinder : CreateCylinderInput.t -> M W str;
  h_create_plane : CreatePlaneInput.t -> M W str;
  h_get_scene_filepath : M W str;
  h_save_file : SaveFileInput.t -> M W str;
  h_open_file : OpenFileInput.t -> M W str
}.

(** The handlers of [operations.py]. *)
Definition operations {H Obj Mat Node : Type} `{PyRuntime} `{PydanticCore}
    {bpy : Bpy H Obj Mat Node} : handlers H :=
  {| h_create_cube := create_cube;
     h_create_sphere := create_sphere;
     h_move_object := move_object;
     h_list_objects := list_objects;
     h_delete_object := delete_object;
     h_select_object := select_object;
     h_create_material := create_material;
     h_assign_material := assign_material;
     h_rotate_object := rotate_object;
     h_scale_object := scale_object;
     h_get_object_info := get_object_info;
     h_create_camera := create_camera;
     h_create_light := create_light;
     h_render_scene := render_scene;
     h_clear_scene := clear_scene;
     h_duplicate_object := duplicate_object;
     h_set_active_camera := set_active_camera;
     h_create_cylinder := create_cylinder;
     h_create_plane := create_plane;
     h_get_scene_filepath := get_scene_filepath;
     h_save_file := save_file;
     h_open_file := open_file |}.

Section Tools.
Context {W : Type} `{PyRuntime} `{PydanticCore}.
Variable ops : handlers W.

(** [try: body / except Exception as e: return f"Error: {str(e)}"] *)
Definition try_tool (body : M W str) : M W str := fun w =>
  match body w with
  | (Return s, w') => (Return s, w')
  | (Raise e, w') => (Return (lit "Error: " ++ exn_str e), w')
  end.

Definition create_cube_tool (name : str) (size : float) (location : vec3) : M W str :=
  try_tool (
    input_model <- construct (lit "CreateCubeInput")
                     (CreateCubeInput.new name size location) ;;
    h_create_cube ops input_model).

Definition create_sphere_tool (name : str) (segments ring_count : Z)
    (radius : float) (calc_uvs enter_editmode : bool) (align : str)
    (location rotation scale : vec3) : M W str :=
  try_tool (
    input_model <- construct (lit "CreateSphereInput")
                     (CreateSphereInput.new name segments ring_count radius calc_uvs
                        enter_editmode align location rotation scale) ;;
    h_create_sphere ops input_model).

Definition move_object_tool (name : str) (location : vec3) : M W str :=
  try_tool (
    input_model <- construct (lit "MoveObjectInput")
                     (MoveObjectInput.new name location) ;;
    h_move_object ops input_model).

Definition list_objects_tool : M W str :=
  try_tool (h_list_objects ops).

Definition delete_object_tool (name : str) : M W str :=
  try_tool (
    input_model <- construct (lit "DeleteObjectInput") (DeleteObjectInput.new name) ;;
    h_delete_object ops input_model).

Definition select_object_tool (name : str) : M W str :=
  try_tool (
    input_model <- construct (lit "SelectObjectInput") (SelectObjectInput.new name) ;;
    h_select_object ops input_model).

Definition create_material_tool (name : str) (color : vec3) : M W str :=
  try_tool (
    input_model <- construct (lit "CreateMaterialInput")
                     (CreateMaterialInput.new name color) ;;
    h_create_material ops input_model).

Definition assign_material_tool (object_name material_name : str) : M W str :=
  try_tool (
    input_model <- construct (lit "AssignMaterialInput")
                     (AssignMaterialInput.new object_name material_name) ;;
    h_assign_material ops input_model).

Definition rotate_object_tool (name : str) (rotation : vec3) : M W str :=
  try_tool (
    input_model <- construct (lit "RotateObjectInput")
                     (RotateObjectInput.new name rotation) ;;
    h_rotate_object ops input_model).

Definition scale_object_tool (name : str) (scale : vec3) : M W str :=
  try_tool (
    input_model <- construct (lit "ScaleObjectInput")
                     (ScaleObjectInput.new name scale) ;;
    h_scale_object ops input_model).

Definition get_object_info_tool (name : str) : M W str :=
  try_tool (
    input_model <- construct (lit "GetObjectInfoInput") (GetObjectInfoInput.new name) ;;
    h_get_object_info ops input_model).

Definition create_camera_tool (name : str) (location rotation : vec3) : M W str :=
  try_tool (
    input_model <- construct (lit "CreateCameraInput")
                     (CreateCameraInput.new name location rotation) ;;
    h_create_camera ops input_model).

Definition create_light_tool (name light_type : str) (location : vec3)
    (energy : float) : M W str :=
  try_tool (
    input_model <- construct (lit "CreateLightInput")
                     (CreateLightInput.new name light_type location energy) ;;
    h_create_light ops input_model).

Definition render_scene_tool (filepath : str) (resolution_x resolution_y : Z)
    : M W str :=
  try_tool (
    input_model <- construct (lit "RenderSceneInput")
                     (RenderSceneInput.new filepath resolution_x resolution_y) ;;
    h_render_scene ops input_model).

Definition clear_scene_tool : M W str :=
  try_tool (h_clear_scene ops).

Definition duplicate_object_tool (name new_name : str) (location : option vec3)
    : M W str :=
  try_tool (
    input_model <- construct (lit "DuplicateObjectInput")
                     (DuplicateObjectInput.new name new_name location) ;;
    h_duplicate_object ops input_model).

Definition set_active_camera_tool (camera_name : str) : M W str :=
  try_tool (
    input_model <- construct (lit "SetActiveCameraInput")
                     (SetActiveCameraInput.new camera_name) ;;
    h_set_active_camera ops input_model).

Definition create_cylinder_tool (name : str) (radius depth : float)
    (location : vec3) (vertices : Z) : M W str :=
  try_tool (
    input_model <- construct (lit "CreateCylinderInput")
                     (CreateCylinderInput.new name radius depth location vertices) ;;
    h_create_cylinder ops input_model).

Definition create_plane_tool (name : str) (size : float) (location : vec3) : M W str :=
  try_tool (
    input_model <- construct (lit "CreatePlaneInput")
                     (CreatePlaneInput.new name size location) ;;
    h_create_plane ops input_model).

(** No [try] around this one in the source. *)
Definition get_scene_filepath_tool : M W str :=
  h_get_scene_filepath ops.

Definition save_file_tool (filepath : str) : M W str :=
  try_tool (
    input_model <- construct (lit "SaveFileInput") (SaveFileInput.new filepath) ;;
    h_save_file ops input_model).

Definition open_file_tool (filepath : str) : M W str :=
  try_tool (
    input_model <- construct (lit "OpenFileInput") (OpenFileInput.new filepath) ;;
    h_open_file ops input_model).

(** A call arriving from the transport: a registered tool with the
    arguments bound to its parameters. *)
Inductive tool_call :=
| CreateCube (name : str) (size : float) (location : vec3)
| CreateSphere (name : str) (segments ring_count : Z) (radius : float)
    (calc_uvs enter_editmode : bool) (align : str) (location rotation scale : vec3)
| MoveObject (name : str) (location : vec3)
| ListObjects
| DeleteObject (name : str)
| SelectObject (name : str)
| CreateMaterial (name : str) (color : vec3)
| AssignMaterial (object_name material_name : str)
| RotateObject (name : str) (rotation : vec3)
| ScaleObject (name : str) (scale : vec3)
| GetObjectInfo (name : str)
| CreateCamera (name : str) (location rotation : vec3)
| CreateLight (name light_type : str) (location : vec3) (energy : float)
| RenderScene (filepath : str) (resolution_x resolution_y : Z)
| ClearScene
| DuplicateObject (name new_name : str) (location : option vec3)
| SetActiveCamera (camera_name : str)
| CreateCylinder (name : str) (radius depth : float) (location : vec3) (vertices : Z)
| CreatePlane (name : str) (size : float) (location : vec3)
| GetSceneFilepath
| SaveFile (filepath : str)
| OpenFile (filepath : str).

Definition invoke (c : tool_call) : M W str :=
  match c with
  | CreateCube n s l => create_cube_tool n s l
  | CreateSphere n sg rc r cu ee al l ro sc =>
      create_sphere_tool n sg rc r cu ee al l ro sc
  | MoveObject n l => move_object_tool n l
  | ListObjects => list_objects_tool
  | DeleteObject n => delete_object_tool n
  | SelectObject n => select_object_tool n
  | CreateMaterial n c => create_material_tool n c
  | AssignMaterial o m => assign_material_tool o m
  | RotateObject n r => rotate_object_tool n r
  | ScaleObject n s => scale_object_tool n s
  | GetObjectInfo n => get_object_info_tool n
  | CreateCamera n l r => create_camera_tool n l r
  | CreateLight n t l e => create_light_tool n t l e
  | RenderScene f x y => render_scene_tool f x y
  | ClearScene => clear_scene_tool
  | DuplicateObject n nn l => duplicate_object_tool n nn l
  | SetActiveCamera n => set_active_camera_tool n
  | CreateCylinder n r d l v => create_cylinder_tool n r d l v
  | CreatePlane n s l => create_plane_tool n s l
  | GetSceneFilepath => get_scene_filepath_tool
  | SaveFile f => save_file_tool f
  | OpenFile f => open_file_tool f
  end.
End Tools.

(* ===================================================================== *)
(** * Text codecs and JSON, as the filter uses them *)
(* ===================================================================== *)

Definition is_cont (b : N) : bool := ((128 <=? b) && (b <=? 191))%N.

(** Admissible second byte after the lead byte of a 3-byte sequence. *)
Definition second3 (b0 b1 : N) : bool :=
  (if b0 =? 224 then (160 <=? b1) && (b1 <=? 191)
   else if b0 =? 237 then (128 <=? b1) && (b1 <=? 159)
   else is_cont b1)%N.

(** Admissible second byte after the lead byte of a 4-byte sequence. *)
Definition second4 (b0 b1 : N) : bool :=
  (if b0 =? 240 then (144 <=? b1) && (b1 <=? 191)
   else if b0 =? 244 then (128 <=? b1) && (b1 <=? 143)
   else is_cont b1)%N.

(** [bs.decode('utf-8', errors='ignore')]: a malformed or truncated sequence
    is dropped up to the byte that breaks it, and decoding resumes there. *)
Fixpoint decode_ignore (bs : bytes) : str :=
  match bs with
  | [] => []
  | b0 :: r0 =>
      if (b0 <? 128)%N then b0 :: decode_ignore r0
      else if ((194 <=? b0) && (b0 <=? 223))%N then
        match r0 with
        | [] => []
        | b1 :: r1 =>
            if is_cont b1
            then ((b0 - 192) * 64 + (b1 - 128))%N :: decode_ignore r1
            else decode_ignore r0
        end
      else if ((224 <=? b0) && (b0 <=? 239))%N then
        match r0 with
        | [] => []
        | b1 :: r1 =>
            if second3 b0 b1 then
              match r1 with
              | [] => []
              | b2 :: r2 =>
                  if is_cont b2
                  then ((b0 - 224) * 4096 + (b1 - 128) * 64 + (b2 - 128))%N
                       :: decode_ignore r2
                  else decode_ignore r1
              end
            else decode_ignore r0
        end
      else if ((240 <=? b0) && (b0 <=? 244))%N then
        match r0 with
        | [] => []
        | b1 :: r1 =>
            if second4 b0 b1 then
              match r1 with
              | [] => []
              | b2 :: r2 =>
                  if is_cont b2 then
                    match r2 with
                    | [] => []
                    | b3 :: r3 =>
                        if is_cont b3
                        then ((b0 - 240) * 262144 + (b1 - 128) * 4096
                              + (b2 - 128) * 64 + (b3 - 128))%N
                             :: decode_ignore r3
                        else decode_ignore r2
                    end
                  else decode_ignore r1
              end
            else decode_ignore r0
        end
      else decode_ignore r0
  end.

(** [bs.decode('utf-8')], strict: [None] where Python raises
    [UnicodeDecodeError]. *)
Fixpoint decode_strict (bs : bytes) : option str :=
  match bs with
  | [] => Some []
  | b0 :: r0 =>
      let cons c r := match decode_strict r with
                      | Some s => Some (c :: s)
                      | None => None
                      end in
      if (b0 <? 128)%N then cons b0 r0
      else if ((194 <=? b0) && (b0 <=? 223))%N then
        match r0 with
        | b1 :: r1 =>
            if is_cont b1 then cons ((b0 - 192) * 64 + (b1 - 128))%N r1 else None
        | [] => None
        end
      else if ((224 <=? b0) && (b0 <=? 239))%N then
        match r0 with
        | b1 :: b2 :: r2 =>
            if second3 b0 b1 && is_cont b2
            then cons ((b0 - 224) * 4096 + (b1 - 128) * 64 + (b2 - 128))%N r2
            else None
        | _ => None
        end
      else if ((240 <=? b0) && (b0 <=? 244))%N then
        match r0 with
        | b1 :: b2 :: b3 :: r3 =>
            if second4 b0 b1 && is_cont b2 && is_cont b3
            then cons ((b0 - 240) * 262144 + (b1 - 128) * 4096
                       + (b2 - 128) * 64 + (b3 - 128))%N r3
            else None
        | _ => None
        end
      else None
  end.

(** [s.encode('utf-8')] *)
Definition encode_cp (c : N) : bytes :=
  (if c <? 128 then [c]
   else if c <? 2048 then [192 + c / 64; 128 + c mod 64]
   else if c <? 65536 then [224 + c / 4096; 128 + (c / 64) mod 64; 128 + c mod 64]
   else [240 + c / 262144; 128 + (c / 4096) mod 64; 128 + (c / 64) mod 64;
         128 + c mod 64])%N.

Definition encode (s : str) : bytes := flat_map encode_cp s.

(** The JSON library: whether [json.loads(s)] returns (rather than raising
    [JSONDecodeError]).  The other ways [json.loads] can fail (the recursion
    limit, the limit on the digits of an integer) are left out. *)
Class Json := { json_loads : str -> bool }.

(** ** A recogniser for the texts [json.loads] takes

    One pass over the text with a stack of the open containers. *)
Module JsonText.
Inductive frame := InArray | InObject.

Inductive state :=
| Value                     (* a value must start here *)
| FirstElem                 (* after an opening bracket: a value or the closing one *)
| FirstKey                  (* after an opening brace: a key or the closing one *)
| Key                       (* after a comma in an object *)
| Colon                     (* after a key *)
| Done                      (* after a complete value *)
| InString (key : bool)
| Escape (key : bool)
| Hex (key : bool) (left : nat)
| Literal (rest : str)      (* what is left of true, false, null, NaN, Infinity *)
| Minus
| Zero
| IntDigits
| FracStart
| FracDigits
| ExpStart
| ExpSign
| ExpDigits
| Bad.

Definition is_ws (c : N) : bool := ((c =? 32) || (c =? 9) || (c =? 10) || (c =? 13))%N.
Definition is_digit (c : N) : bool := ((48 <=? c) && (c <=? 57))%N.
Definition is_hex (c : N) : bool :=
  (is_digit c || ((65 <=? c) && (c <=? 70)) || ((97 <=? c) && (c <=? 102)))%N.
Definition is_escape (c : N) : bool :=
  ((c =? 34) || (c =? 92) || (c =? 47) || (c =? 98) || (c =? 102) || (c =? 110)
   || (c =? 114) || (c =? 116))%N.

Definition config : Type := state * list frame.

Definition after_value (stack : list frame) (c : N) : config :=
  if is_ws c then (Done, stack)
  else if (c =? 44)%N then                       (* , *)
    match stack with
    | InArray :: _ => (Value, stack)
    | InObject :: _ => (Key, stack)
    | [] => (Bad, stack)
    end
  else if (c =? 93)%N then                       (* ] *)
    match stack with
    | InArray :: st => (Done, st)
    | _ => (Bad, stack)
    end
  else if (c =? 125)%N then                      (* } *)
    match stack with
    | InObject :: st => (Done, st)
    | _ => (Bad, stack)
    end
  else (Bad, stack).

Definition start_value (stack : list frame) (c : N) : config :=
  if is_ws c then (Value, stack)
  else if (c =? 34)%N then (InString false, stack)
  else if (c =? 123)%N then (FirstKey, InObject :: stack)
  else if (c =? 91)%N then (FirstElem, InArray :: stack)
  else if (c =? 45)%N then (Minus, stack)
  else if (c =? 48)%N then (Zero, stack)
  else if is_digit c then (IntDigits, stack)
  else if (c =? 116)%N then (Literal (lit "rue"), stack)
  else if (c =? 102)%N then (Literal (lit "alse"), stack)
  else if (c =? 110)%N then (Literal (lit "ull"), stack)
  else if (c =? 78)%N then (Literal (lit "aN"), stack)
  else if (c =? 73)%N then (Literal (lit "nfinity"), stack)
  else (Bad, stack).

Definition step (cf : config) (c : N) : config :=
  let '(st, stack) := cf in
  match st with
  | Value => start_value stack c
  | FirstElem =>
      if is_ws c then (FirstElem, stack)
      else if (c =? 93)%N then (Done, tl stack)
      else start_value stack c
  | FirstKey =>
      if is_ws c then (FirstKey, stack)
      else if (c =? 125)%N then (Done, tl stack)
      else if (c =? 34)%N then (InString true, stack)
      else (Bad, stack)
  | Key =>
      if is_ws c then (Key, stack)
      else if (c =? 34)%N then (InString true, stack)
      else (Bad, stack)
  | Colon =>
      if is_ws c then (Colon, stack)
      else if (c =? 58)%N then (Value, stack)
      else (Bad, stack)
  | Done => after_value stack c
  | InString k =>
      if (c =? 34)%N then (if k then Colon else Done, stack)
      else if (c =? 92)%N then (Escape k, stack)
      else if (c <? 32)%N then (Bad, stack)
      else (InString k, stack)
  | Escape k =>
      if is_escape c then (InString k, stack)
      else if (c =? 117)%N then (Hex k 4, stack)
      else (Bad, stack)
  | Hex k n =>
      if is_hex c then
        match n with
        | S (S m) => (Hex k (S m), stack)
        | _ => (InString k, stack)
        end
      else (Bad, stack)
  | Literal rest =>
      match rest with
      | x :: r =>
          if (c =? x)%N
          then match r with [] => (Done, stack) | _ => (Literal r, stack) end
          else (Bad, stack)
      | [] => (Bad, stack)
      end
  | Minus =>
      if (c =? 48)%N then (Zero, stack)
      else if is_digit c then (IntDigits, stack)
      else if (c =? 73)%N then (Literal (lit "nfinity"), stack)
      else (Bad, stack)
  | Zero =>
      if (c =? 46)%N then (FracStart, stack)
      else if ((c =? 101) || (c =? 69))%N then (ExpStart, stack)
      else after_value stack c
  | IntDigits =>
      if is_digit c then (IntDigits, stack)
      else if (c =? 46)%N then (FracStart, stack)
      else if ((c =? 101) || (c =? 69))%N then (ExpStart, stack)
      else after_value stack c
  | FracStart => if is_digit c then (FracDigits, stack) else (Bad, stack)
  | FracDigits =>
      if is_digit c then (FracDigits, stack)
      else if ((c =? 101) || (c =? 69))%N then (ExpStart, stack)
      else after_value stack c
  | ExpStart =>
      if ((c =? 43) || (c =? 45))%N then (ExpSign, stack)
      else if is_digit c then (ExpDigits, stack)
      else (Bad, stack)
  | ExpSign => if is_digit c then (ExpDigits, stack) else (Bad, stack)
  | ExpDigits => if is_digit c then (ExpDigits, stack) else after_value stack c
  | Bad => (Bad, stack)
  end.

Definition accepting (cf : config) : bool :=
  match cf with
  | (Done, []) | (Zero, []) | (IntDigits, []) | (FracDigits, []) | (ExpDigits, []) => true
  | _ => false
  end.

Definition loads (s : str) : bool := accepting (fold_left step s (Value, [])).
End JsonText.

Definition python_json : Json := {| json_loads := JsonText.loads |}.

(* ===================================================================== *)
(** * blender_mcp_filter.py *)
(* ===================================================================== *)

(** [len(b)] *)
Definition len (b : bytes) : N := N.of_nat (List.length b).

Section Filter.
Context `{Json}.

(** [s.startswith(('{', '['))] *)
Definition starts_json (s : str) : bool :=
  startswith s (lit "{") || startswith s (lit "[").

(** [text.strip()] parses: the test guarding every write. *)
Definition parses (json_str : str) : bool :=
  starts_json json_str && json_loads json_str.

(** [start_idx]: the first opening brace, or else the first opening
    bracket; [None] when both searches return -1. *)
Definition find_start (text : str) : option nat :=
  match find 123%N text with
  | Some i => Some i
  | None => find 91%N text
  end.

(** The body of [_extract_json_from_buffer]: the units written (each one a
    [write] followed by [flush]) and the buffer it leaves; [again] is the
    recursive call on the shortened buffer. *)
Definition extract_once (again : bytes -> option (list bytes * bytes))
    (buffer : bytes) : option (list bytes * bytes) :=
  match buffer with
  | [] => Some ([], buffer)
  | _ :: _ =>
      let text := decode_ignore buffer in
      match find_start text with
      | None =>
          if (1000 <? len buffer)%N then Some ([], [])
          else Some ([], buffer)
      | Some start_idx =>
          (* del buffer[:start_idx]; text = text[start_idx:] *)
          let buffer := skipn start_idx buffer in
          let text := skipn start_idx text in
          let whole :=
            let json_str := strip text in
            if parses json_str then Some ([encode json_str], [])
            else Some ([], buffer) in
          match find LF text with
          | Some newline_idx =>
              let json_str := strip (firstn newline_idx text) in
              if parses json_str then
                match again (skipn (S newline_idx) buffer) with
                | Some (out, rest) => Some (encode (json_str ++ [LF]) :: out, rest)
                | None => None
                end
              else whole
          | None => whole
          end
      end
  end.

(** [fuel] bounds the depth of the recursion; [None] when it is used up,
    where Python ends the call with [RecursionError]. *)
Fixpoint extract (fuel : nat) : bytes -> option (list bytes * bytes) :=
  match fuel with
  | O => fun _ => None
  | S fuel' => extract_once (extract fuel')
  end.

(** The call when the recursion limit is not reached: a depth of the length
    of the buffer plus one is always enough. *)
Definition _extract_json_from_buffer (buffer : bytes) : list bytes * bytes :=
  match extract (S (List.length buffer)) buffer with
  | Some r => r
  | None => ([], buffer)
  end.

(** One turn of the loop in [filter_stdout] is decided by what
    [process.stdout.read(4096)] returned and, when that was empty, by
    whether [process.poll()] reports the process ended. *)
Record read_event := { data : bytes; exited : bool }.

(** The written units of one turn, and the buffer for the next one
    ([None] when the loop breaks). *)
Definition turn (buffer : bytes) (ev : read_event) : list bytes * option bytes :=
  match data ev with
  | [] =>
      if exited ev then
        match buffer with
        | [] => ([], None)
        | _ :: _ =>
            let text := strip (decode_ignore buffer) in
            if parses text then ([buffer], None) else ([], None)
        end
      else
        let '(out, buffer) := _extract_json_from_buffer buffer in
        (out, Some buffer)
  | d =>
      let '(out, buffer) := _extract_json_from_buffer (buffer ++ d) in
      (out, Some (if (100000 <? len buffer)%N then [] else buffer))
  end.

(** [filter_stdout] over the successive reads, from a given buffer: all
    units written, in order, and the buffer held when the reads run out
    ([None] once the loop has ended). *)
Fixpoint run (buffer : bytes) (events : list read_event) : list bytes * option bytes :=
  match events with
  | [] => ([], Some buffer)
  | ev :: rest =>
      match turn buffer ev with
      | (out, Some buffer') =>
          let '(out', final) := run buffer' rest in (out ++ out', final)
      | (out, None) => (out, None)
      end
  end.

Definition filter_stdout (events : list read_event) : list bytes :=
  fst (run [] events).
End Filter.

(** A read that returned [d]. *)
Definition Read (d : bytes) : read_event := {| data := d; exited := false |}.
(** An empty read while the process is still running. *)
Definition Idle : read_event := {| data := []; exited := false |}.
(** An empty read after the process ended. *)
Definition Exit : read_event := {| data := []; exited := true |}.

(** A document as its bytes, with [']  written for the double quote. *)
Definition ascii_bytes (s : string) : bytes :=
  map (fun c => if (c =? 39)%N then dquote else c) (lit s).

(* ===================================================================== *)
(** * Instances for running the model *)
(* ===================================================================== *)

(** A runtime exact on ASCII text and on floats of integer value (a float
    with another value is shown as its exact fraction). *)
Definition ascii_upper (s : str) : str :=
  map (fun c => if ((97 <=? c) && (c <=? 122))%N then (c - 32)%N else c) s.
Definition ascii_lower (s : str) : str :=
  map (fun c => if ((65 <=? c) && (c <=? 90))%N then (c + 32)%N else c) s.

Definition repr_simple (v : float) : str :=
  match v with
  | Finite q =>
      match Qden q with
      | xH => str_of_Z (Qnum q) ++ lit ".0"
      | d => str_of_Z (Qnum q) ++ lit "/" ++ str_of_Z (Zpos d)
      end
  | PInf => lit "inf"
  | NInf => lit "-inf"
  | NaN => lit "nan"
  end.

Definition simple_runtime : PyRuntime :=
  {| repr_float := repr_simple; str_upper := ascii_upper; str_lower := ascii_lower |}.

(** The messages of pydantic 2 for the constraints of [models.py]; the
    context appended to a line is reduced to nothing. *)
Definition plural (n : nat) (word : string) : str :=
  str_of_nat n ++ lit " " ++ lit word ++ (if (n =? 1)%nat then [] else lit "s").

Definition v2_message (e : error_type) : str :=
  match e with
  | string_too_short n => lit "String should have at least " ++ plural n "character"
  | string_too_long n => lit "String should have at most " ++ plural n "character"
  | greater_than b => lit "Input should be greater than " ++ repr_simple b
  | greater_than_equal b => lit "Input should be greater than or equal to " ++ repr_simple b
  | less_than_equal b => lit "Input should be less than or equal to " ++ repr_simple b
  | int_greater_than_equal b => lit "Input should be greater than or equal to " ++ str_of_Z b
  | int_less_than_equal b => lit "Input should be less than or equal to " ++ str_of_Z b
  | literal_error expected => lit "Input should be " ++ join (lit ", ") expected
  | value_error msg => msg
  end.

Definition pydantic_v2 : PydanticCore :=
  {| core_message := v2_message; line_context := fun _ => [] |}.

(** ** A document held in memory

    A stand-in for Blender: objects with identity, the materials, the
    active object and the scene camera.  [available = false] is an
    interpreter without the [bpy] module. *)
Module Scene.
Record entity := {
  id : nat; name : str; type : str;
  location : vec3; rotation : vec3; scale : vec3;
  selected : bool; slots : list str; energy : float
}.

Record t := {
  available : bool;
  entities : list entity;
  materials : list str;
  active : option nat;
  camera : option nat;
  next : nat;
  filepath : str;
  files : list str;
  output : Z * Z * str
}.

Definition empty : t :=
  {| available := true; entities := []; materials := []; active := None;
     camera := None; next := 0; filepath := []; files := [];
     output := (1920%Z, 1080%Z, []) |}.

Definition no_bpy : t :=
  {| available := false; entities := []; materials := []; active := None;
     camera := None; next := 0; filepath := []; files := [];
     output := (1920%Z, 1080%Z, []) |}.

Definition with_entities (h : t) (es : list entity) (act : option nat) (n : nat) : t :=
  {| available := available h; entities := es; materials := materials h;
     active := act; camera := camera h; next := n; filepath := filepath h;
     files := files h; output := output h |}.

Definition with_materials (h : t) (ms : list str) : t :=
  {| available := available h; entities := entities h; materials := ms;
     active := active h; camera := camera h; next := next h;
     filepath := filepath h; files := files h; output := output h |}.

Definition with_camera (h : t) (c : option nat) : t :=
  {| available := available h; entities := entities h; materials := materials h;
     active := active h; camera := c; next := next h; filepath := filepath h;
     files := files h; output := output h |}.

Definition with_files (h : t) (path : str) (fs : list str) : t :=
  {| available := available h; entities := entities h; materials := materials h;
     active := active h; camera := camera h; next := next h; filepath := path;
     files := fs; output := output h |}.

Definition with_output (h : t) (o : Z * Z * str) : t :=
  {| available := available h; entities := entities h; materials := materials h;
     active := active h; camera := camera h; next := next h;
     filepath := filepath h; files := files h; output := o |}.

Definition origin : vec3 := (f0_0, f0_0, f0_0).
Definition unit_scale : vec3 := (f1_0, f1_0, f1_0).

Definition removed {A} : outcome A :=
  Raise (Exception (lit "StructRNA of type Object has been removed")).

Definition lookup (h : t) (o : nat) : option entity :=
  List.find (fun e => (id e =? o)%nat) (entities h).

Definition attr {A} (g : entity -> A) (o : nat) (h : t) : outcome A :=
  match lookup h o with
  | Some e => Return (g e)
  | None => removed
  end.

Definition modify (f : entity -> entity) (o : nat) : M t unit := fun h =>
  match lookup h o with
  | Some _ =>
      (Return tt,
       with_entities h (map (fun e => if (id e =? o)%nat then f e else e) (entities h))
         (active h) (next h))
  | None => (removed, h)
  end.

Definition add (kind default_name : str) (loc rot scl : vec3) : M t unit := fun h =>
  let e := {| id := next h; name := default_name; type := kind; location := loc;
              rotation := rot; scale := scl; selected := true; slots := [];
              energy := f0_0 |} in
  (Return tt, with_entities h (entities h ++ [e]) (Some (next h)) (S (next h))).

Definition rename (n : str) (e : entity) : entity :=
  {| id := id e; name := n; type := type e; location := location e;
     rotation := rotation e; scale := scale e; selected := selected e;
     slots := slots e; energy := energy e |}.

Definition place (loc rot scl : vec3) (e : entity) : entity :=
  {| id := id e; name := name e; type := type e; location := loc;
     rotation := rot; scale := scl; selected := selected e;
     slots := slots e; energy := energy e |}.

Definition mark (sel : bool) (sl : list str) (en : float) (e : entity) : entity :=
  {| id := id e; name := name e; type := type e; location := location e;
     rotation := rotation e; scale := scale e; selected := sel;
     slots := sl; energy := en |}.

Definition unit_ok : M t unit := fun h => (Return tt, h).

Definition host : Bpy t nat str nat :=
  {| import_bpy := fun h =>
       if available h then Return tt
       else Raise (ImportError (lit "No module named 'bpy'"));
     primitive_cube_add := fun _ loc => add (lit "MESH") (lit "Cube") loc origin unit_scale;
     primitive_uv_sphere_add := fun _ _ _ _ _ _ loc rot scl =>
       add (lit "MESH") (lit "Sphere") loc rot scl;
     primitive_cylinder_add := fun _ _ loc _ =>
       add (lit "MESH") (lit "Cylinder") loc origin unit_scale;
     primitive_plane_add := fun _ loc => add (lit "MESH") (lit "Plane") loc origin unit_scale;
     camera_add := fun loc rot => add (lit "CAMERA") (lit "Camera") loc rot unit_scale;
     light_add := fun _ loc => add (lit "LIGHT") (lit "Light") loc origin unit_scale;
     select_all := fun action h =>
       (Return tt,
        with_entities h
          (map (fun e => mark (str_eqb action (lit "SELECT")) (slots e) (energy e) e)
             (entities h))
          (active h) (next h));
     object_delete := fun h =>
       (Return tt,
        with_entities h (filter (fun e => negb (selected e)) (entities h)) None (next h));
     object_duplicate := fun h =>
       match active h with
       | Some o =>
           match lookup h o with
           | Some e =>
               add (type e) (name e ++ lit ".001") (location e) (rotation e) (scale e) h
           | None => (removed, h)
           end
       | None => (Raise (Exception (lit "Operator bpy.ops.object.duplicate.poll() failed, context is incorrect")), h)
       end;
     active_object := fun h => Return (active h);
     set_active := fun o h => (Return tt, with_entities h (entities h) (Some o) (next h));
     scene_camera := fun h => Return (camera h);
     set_scene_camera := fun o h => (Return tt, with_camera h (Some o));
     set_resolution_x := fun x h =>
       let '(_, y, p) := output h in (Return tt, with_output h (x, y, p));
     set_resolution_y := fun y h =>
       let '(x, _, p) := output h in (Return tt, with_output h (x, y, p));
     set_render_filepath := fun p h =>
       let '(x, y, _) := output h in (Return tt, with_output h (x, y, p));
     render := fun _ h =>
       let '(_, _, p) := output h in
       (Return tt, with_files h (filepath h) (p :: files h));
     objects := fun h => Return (map id (entities h));
     objects_get := fun n h =>
       Return (option_map id (List.find (fun e => str_eqb (name e) n) (entities h)));
     objects_remove := fun o h =>
       (Return tt,
        with_entities h (filter (fun e => negb (id e =? o)%nat) (entities h))
          (active h) (next h));
     get_name := attr name;
     get_type := attr type;
     get_location := attr location;
     get_rotation_euler := attr rotation;
     get_scale := attr scale;
     has_data := attr (fun _ => true);
     vertices_len := attr (fun _ => 8%nat);
     polygons_len := attr (fun _ => 6%nat);
     set_name := fun o n => modify (rename n) o;
     set_location := fun o l => modify (fun e => place l (rotation e) (scale e) e) o;
     set_rotation_euler := fun o r => modify (fun e => place (location e) r (scale e) e) o;
     set_scale := fun o s => modify (fun e => place (location e) (rotation e) s e) o;
     select_set := fun o b => modify (fun e => mark b (slots e) (energy e) e) o;
     set_energy := fun o en => modify (fun e => mark (selected e) (slots e) en e) o;
     slots_nonempty := attr (fun e => match slots e with [] => false | _ => true end);
     slot_set_first := fun o m =>
       modify (fun e => mark (selected e) (m :: tl (slots e)) (energy e) e) o;
     slot_append := fun o m =>
       modify (fun e => mark (selected e) (slots e ++ [m]) (energy e) e) o;
     materials_contains := fun n h => Return (existsb (str_eqb n) (materials h));
     materials_get := fun n h => Return (List.find (str_eqb n) (materials h));
     materials_new := fun n h => (Return n, with_materials h (materials h ++ [n]));
     has_node_tree := fun _ _ => Return true;
     nodes_get := fun _ _ _ => Return (Some 0%nat);
     set_base_color := fun _ _ => unit_ok;
     data_filepath := fun h => Return (filepath h);
     save_as_mainfile := fun p h => (Return tt, with_files h p (p :: files h));
     open_mainfile := fun p h => (Return tt, with_files h p (files h));
     path_exists := fun p h => Return (existsb (str_eqb p) (files h));
     makedirs := fun p h => (Return tt, with_files h (filepath h) (p :: files h)) |}.
End Scene.

(* ===================================================================== *)
(** * Notions used in the statements *)
(* ===================================================================== *)

(** The line errors of a construction. *)
Definition verrors {A} (v : V A) : list line_error :=
  match v with inl es => es | inr _ => [] end.

(** The line error a field contributes. *)
Definition field_errors {A} (l : str) (r : fres A) : list line_error :=
  match r with inl e => [{| loc := l; err := e |}] | inr _ => [] end.

(** The field named [l] is not among the line errors. *)
Definition accepts {A} (l : str) (v : V A) : bool :=
  negb (existsb (fun e => str_eqb (loc e) l) (verrors v)).

(** [1 <= len(n) <= 63] *)
Definition len_ok (n : str) : bool :=
  ((1 <=? List.length n) && (List.length n <=? 63))%nat.

(** None of the nine characters occurs in [n]. *)
Definition chars_ok (n : str) : bool :=
  negb (existsb (fun c => contains c n) invalid_chars).

(** Each component within [-limit, limit]. *)
Definition within (limit : float) (v : vec3) : bool :=
  all_between (float_neg limit) limit v.

(** In a model with bounds [gt=0.001, le=1000.0] on a float field. *)
Definition in_0_001_1000 (v : float) : bool := float_gt v f0_001 && float_le v f1000_0.

(** [ge=0.0, le=1000.0] *)
Definition in_0_1000 (v : float) : bool := float_ge v f0_0 && float_le v f1000_0.

(** The ranges as sets of doubles: [lo < v <= hi] and [lo <= v <= hi]
    hold of finite values only. *)
Definition gt_le (lo hi : Q) (v : float) : Prop :=
  match v with Finite q => (lo < q /\ q <= hi)%Q | _ => False end.

Definition ge_le (lo hi : Q) (v : float) : Prop :=
  match v with Finite q => (lo <= q /\ q <= hi)%Q | _ => False end.

(** Every component of [v] lies in [-limit, limit]. *)
Definition each_within (limit : Q) (v : vec3) : Prop :=
  let '(x, y, z) := v in
  ge_le (- limit) limit x /\ ge_le (- limit) limit y /\ ge_le (- limit) limit z.

(** A name field with the length bound, the character check and the trim. *)
Definition checked_and_stripped {A} (l : str) (get : A -> str) (n : str) (v : V A)
    : Prop :=
  accepts l v = len_ok n && chars_ok n /\ forall i, v = inr i -> get i = strip n.

(** A name field with the length bound only, kept as given. *)
Definition length_checked {A} (l : str) (get : A -> str) (n : str) (v : V A) : Prop :=
  accepts l v = len_ok n /\ forall i, v = inr i -> get i = n.

(** The [ValidationError] of a failed construction of the model [title]. *)
Definition failure {A} (title : string) (v : V A) : option (str * list line_error) :=
  match v with
  | inl errors => Some (lit title, errors)
  | inr _ => None
  end.

(** What the construction of the input model of a call raises: the model
    name and the line errors; [None] when it succeeds, or when the tool
    takes no argument. *)
Definition validation `{PyRuntime} (c : tool_call) : option (str * list line_error) :=
  match c with
  | CreateCube n s l => failure "CreateCubeInput" (CreateCubeInput.new n s l)
  | CreateSphere n sg rc r cu ee al l ro sc =>
      failure "CreateSphereInput" (CreateSphereInput.new n sg rc r cu ee al l ro sc)
  | MoveObject n l => failure "MoveObjectInput" (MoveObjectInput.new n l)
  | DeleteObject n => failure "DeleteObjectInput" (DeleteObjectInput.new n)
  | SelectObject n => failure "SelectObjectInput" (SelectObjectInput.new n)
  | CreateMaterial n c => failure "CreateMaterialInput" (CreateMaterialInput.new n c)
  | AssignMaterial o m => failure "AssignMaterialInput" (AssignMaterialInput.new o m)
  | RotateObject n r => failure "RotateObjectInput" (RotateObjectInput.new n r)
  | ScaleObject n s => failure "ScaleObjectInput" (ScaleObjectInput.new n s)
  | GetObjectInfo n => failure "GetObjectInfoInput" (GetObjectInfoInput.new n)
  | CreateCamera n l r => failure "CreateCameraInput" (CreateCameraInput.new n l r)
  | CreateLight n t l e => failure "CreateLightInput" (CreateLightInput.new n t l e)
  | RenderScene f x y => failure "RenderSceneInput" (RenderSceneInput.new f x y)
  | DuplicateObject n nn l =>
      failure "DuplicateObjectInput" (DuplicateObjectInput.new n nn l)
  | SetActiveCamera n => failure "SetActiveCameraInput" (SetActiveCameraInput.new n)
  | CreateCylinder n r d l v =>
      failure "CreateCylinderInput" (CreateCylinderInput.new n r d l v)
  | CreatePlane n s l => failure "CreatePlaneInput" (CreatePlaneInput.new n s l)
  | SaveFile f => failure "SaveFileInput" (SaveFileInput.new f)
  | OpenFile f => failure "OpenFileInput" (OpenFileInput.new f)
  | ListObjects | ClearScene | GetSceneFilepath => None
  end.

(** Handlers that count their invocations beside doing their work. *)
Definition tick {W A} (h : M W A) : M (W * nat) A := fun wk =>
  let '(r, w') := h (fst wk) in (r, (w', S (snd wk))).

Definition counted {W} (ops : handlers W) : handlers (W * nat) :=
  {| h_create_cube := fun i => tick (h_create_cube ops i);
     h_create_sphere := fun i => tick (h_create_sphere ops i);
     h_move_object := fun i => tick (h_move_object ops i);
     h_list_objects := tick (h_list_objects ops);
     h_delete_object := fun i => tick (h_delete_object ops i);
     h_select_object := fun i => tick (h_select_object ops i);
     h_create_material := fun i => tick (h_create_material ops i);
     h_assign_material := fun i => tick (h_assign_material ops i);
     h_rotate_object := fun i => tick (h_rotate_object ops i);
     h_scale_object := fun i => tick (h_scale_object ops i);
     h_get_object_info := fun i => tick (h_get_object_info ops i);
     h_create_camera := fun i => tick (h_create_camera ops i);
     h_create_light := fun i => tick (h_create_light ops i);
     h_render_scene := fun i => tick (h_render_scene ops i);
     h_clear_scene := tick (h_clear_scene ops);
     h_duplicate_object := fun i => tick (h_duplicate_object ops i);
     h_set_active_camera := fun i => tick (h_set_active_camera ops i);
     h_create_cylinder := fun i => tick (h_create_cylinder ops i);
     h_create_plane := fun i => tick (h_create_plane ops i);
     h_get_scene_filepath := tick (h_get_scene_filepath ops);
     h_save_file := fun i => tick (h_save_file ops i);
     h_open_file := fun i => tick (h_open_file ops i) |}.

(** The handlers of [operations.py] on the in-memory scene. *)
Definition scene_operations : handlers Scene.t :=
  @operations _ _ _ _ simple_runtime pydantic_v2 Scene.host.

(** Every byte (or code point) is below 128. *)
Definition is_ascii (b : bytes) : bool := forallb (fun c => (c <? 128)%N) b.

(** A one-line ASCII JSON object of at most 100000 bytes, as the parser sees
    it: the whole text parses and none of its proper prefixes does. *)
Definition complete_object `{Json} (j : bytes) : bool :=
  is_ascii j
  && match j with c :: _ => (c =? 123)%N | [] => false end
  && negb (existsb (N.eqb LF) j)
  && str_eqb (strip j) j
  && json_loads j
  && forallb (fun k => negb (json_loads (strip (firstn k j))))
       (seq 1 (List.length j - 1))
  && (len j <=? 100000)%N.


(** A unit that is the UTF-8 encoding of a text accepted by the parser,
    possibly followed by a newline. *)
Definition json_unit `{Json} (u : bytes) : Prop :=
  exists s, parses s = true /\ (u = encode s \/ u = encode (s ++ [LF])).

(** The stream of the first scenario and the frame inside it. *)
Definition frame : bytes := ascii_bytes "{'jsonrpc':'2.0','id':1,'result':42}".

Definition banner_stream : bytes :=
  ascii_bytes "Blender 4.0 startup banner" ++ [LF]
  ++ frame ++ [LF] ++ ascii_bytes "more junk" ++ [LF].








(* ===================================================================== *)
(** * Further notions used in the statements *)
(* ===================================================================== *)

(** A property of each component of a vector. *)
Definition each (P : float -> Prop) (v : vec3) : Prop :=
  let '(x, y, z) := v in P x /\ P y /\ P z.

(** [lo <= v <= hi] for an [int] *)
Definition int_between (lo hi v : Z) : Prop := (lo <= v /\ v <= hi)%Z.

(** The operation label each handler puts in its error message. *)
Definition label (c : tool_call) : str :=
  match c with
  | CreateCube _ _ _ => lit "Create Cube"
  | CreateSphere _ _ _ _ _ _ _ _ _ _ => lit "Create Sphere"
  | MoveObject _ _ => lit "Move Object"
  | ListObjects => lit "List Objects"
  | DeleteObject _ => lit "Delete Object"
  | SelectObject _ => lit "Select Object"
  | CreateMaterial _ _ => lit "Create Material"
  | AssignMaterial _ _ => lit "Assign Material"
  | RotateObject _ _ => lit "Rotate Object"
  | ScaleObject _ _ => lit "Scale Object"
  | GetObjectInfo _ => lit "Get Object Info"
  | CreateCamera _ _ _ => lit "Create Camera"
  | CreateLight _ _ _ _ => lit "Create Light"
  | RenderScene _ _ _ => lit "Render Scene"
  | ClearScene => lit "Clear Scene"
  | DuplicateObject _ _ _ => lit "Duplicate Object"
  | SetActiveCamera _ => lit "Set Active Camera"
  | CreateCylinder _ _ _ _ _ => lit "Create Cylinder"
  | CreatePlane _ _ _ => lit "Create Plane"
  | GetSceneFilepath => lit "Get Scene Filepath"
  | SaveFile _ => lit "Save File"
  | OpenFile _ => lit "Open File"
  end.

(** A computation that leaves the state as it found it. *)
Definition read_only {W A} (c : M W A) : Prop := forall w, snd (c w) = w.

(** ** The default arguments of the tool signatures in [tools.py] *)
Module Defaults.
Definition f0_8 : float := Finite (3602879701896397 # 4503599627370496).
Definition zero : vec3 := (f0_0, f0_0, f0_0).
Definition ones : vec3 := (f1_0, f1_0, f1_0).

(** Each tool called with its required arguments only. *)
Definition create_cube (name : str) : tool_call := CreateCube name f2_0 zero.
Definition create_sphere (name : str) : tool_call :=
  CreateSphere name 32 16 f1_0 true false (lit "WORLD") zero zero ones.
Definition create_material (name : str) : tool_call :=
  CreateMaterial name (f0_8, f0_8, f0_8).
Definition create_camera (name : str) : tool_call :=
  CreateCamera name (f0_0, f0_0, Finite 5) zero.
Definition create_light (name : str) : tool_call :=
  CreateLight name (lit "SUN") (f0_0, f0_0, Finite 10) f1_0.
Definition render_scene (filepath : str) : tool_call := RenderScene filepath 1920 1080.
Definition duplicate_object (name new_name : str) : tool_call :=
  DuplicateObject name new_name None.
Definition create_cylinder (name : str) : tool_call :=
  CreateCylinder name f1_0 f2_0 zero 32.
Definition create_plane (name : str) : tool_call := CreatePlane name f2_0 zero.
End Defaults.

(* ===================================================================== *)
(** * blender_mcp_filter.py, the remaining functions *)
(* ===================================================================== *)

(** [is_json_line] *)
Definition is_json_line `{Json} (line_bytes : bytes) : bool :=
  let line := strip (decode_ignore line_bytes) in
  match line with
  | [] => false
  | _ :: _ => if starts_json line then json_loads line else false
  end.

(** [forward_stderr] over the successive reads of the error stream: the
    chunks written to [sys.stderr.buffer], in order. *)
Fixpoint forward_stderr (events : list read_event) : list bytes :=
  match events with
  | [] => []
  | ev :: rest =>
      match data ev with
      | [] => if exited ev then [] else forward_stderr rest
      | d => d :: forward_stderr rest
      end
  end.

(** The reads made before the loop of a reader ends: those before the
    first empty read that finds the process ended. *)
Fixpoint until_exit (events : list read_event) : list read_event :=
  match events with
  | [] => []
  | ev :: rest =>
      match data ev with
      | [] => if exited ev then [] else ev :: until_exit rest
      | _ => ev :: until_exit rest
      end
  end.

(** [b] ends with [s]. *)
Definition suffix_of (s b : bytes) : Prop := exists pre, b = pre ++ s.

(** A Unicode scalar value: a code point that is not a surrogate. *)
Definition is_scalar (c : N) : bool :=
  ((c <? 55296) || ((57344 <=? c) && (c <? 1114112)))%N.

(** Text that [str.encode('utf-8')] accepts. *)
Definition well_formed (s : str) : bool := forallb is_scalar s.

(** Text of characters that take two bytes each in UTF-8. *)
Definition two_byte (s : str) : Prop := Forall (fun c => (128 <= c < 2048)%N) s.

(* ===================================================================== *)
(** * Properties of the input models *)
(* ===================================================================== *)

Lemma vap_errors {A B} (vf : V (A -> B)) (l : str) (r : fres A) :
  verrors (vf <*> (l, r)) = verrors vf ++ field_errors l r.
Proof.
  destruct vf as [es|g], r as [e|a]; simpl; auto using app_nil_r.
Qed.

Lemma str_field_name (n : str) :
  str_field (Some 1%nat) (Some 63%nat) n
  = if len_ok n then inr n else
      inl (if (1 <=? List.length n)%nat then string_too_long 63 else string_too_short 1).
Proof.
  unfold str_field, bound, len_ok.
  destruct (1 <=? List.length n)%nat, (List.length n <=? 63)%nat; reflexivity.
Qed.

Lemma lstrip_spaces (n : str) : forallb py_isspace n = true -> lstrip n = [].
Proof.
  induction n as [|c r IH]; simpl; auto.
  intros E. apply andb_true_iff in E as [Ec Er]. rewrite Ec. auto.
Qed.

Lemma strip_spaces (n : str) : forallb py_isspace n = true -> strip n = [].
Proof.
  intros E. unfold strip. rewrite (lstrip_spaces n E). reflexivity.
Qed.

Lemma space_not_invalid (c : N) :
  py_isspace c = true -> existsb (N.eqb c) invalid_chars = false.
Proof.
  unfold py_isspace, invalid_chars. simpl. intros E.
  repeat match goal with
         | |- context [(c =? ?k)%N] =>
             destruct (N.eqb_spec c k) as [->|_]; [discriminate E|]
         end.
  reflexivity.
Qed.

Lemma spaces_chars_ok (n : str) : forallb py_isspace n = true -> chars_ok n = true.
Proof.
  intros E. unfold chars_ok. apply negb_true_iff.
  apply not_true_is_false. intros Hex.
  apply existsb_exists in Hex as (c & Hc & Hin).
  unfold contains in Hin. apply existsb_exists in Hin as (x & Hx & Hcx).
  apply N.eqb_eq in Hcx. subst x.
  rewrite forallb_forall in E. specialize (E c Hx).
  pose proof (space_not_invalid c E) as Hn.
  assert (existsb (N.eqb c) invalid_chars = true) as Ht.
  { apply existsb_exists. exists c. split; [exact Hc | apply N.eqb_refl]. }
  congruence.
Qed.

Ltac case_fields :=
  repeat match goal with
         | |- context [after ?r ?f] =>
             let x := fresh "r" in
             generalize (after r f); intros x; destruct x
         | |- context [str_field ?a ?b ?n] =>
             let x := fresh "r" in
             generalize (str_field a b n); intros x; destruct x
         | |- context [int_field ?a ?b ?n] =>
             let x := fresh "r" in
             generalize (int_field a b n); intros x; destruct x
         | |- context [literal_field ?a ?n] =>
             let x := fresh "r" in
             generalize (literal_field a n); intros x; destruct x
         end.

Lemma float_field_gt_le (v : float) :
  float_field (Some f0_001) None (Some f1000_0) v
  = if in_0_001_1000 v then inr v
    else inl (if float_le v f1000_0 then greater_than f0_001 else less_than_equal f1000_0).
Proof.
  unfold float_field, bound, in_0_001_1000.
  destruct (float_le v f1000_0), (float_gt v f0_001); reflexivity.
Qed.

Lemma float_field_ge_le (v : float) :
  float_field None (Some f0_0) (Some f1000_0) v
  = if in_0_1000 v then inr v
    else inl (if float_le v f1000_0 then greater_than_equal f0_0
              else less_than_equal f1000_0).
Proof.
  unfold float_field, bound, in_0_1000.
  destruct (float_le v f1000_0), (float_ge v f0_0); reflexivity.
Qed.

Ltac by_compare :=
  simpl;
  repeat match goal with
         | |- context [(?a ?= ?b)%Q] => destruct (Qcompare_spec a b)
         end;
  unfold q0_001, q6_28318 in *; simpl;
  split; intros; try discriminate; try tauto;
  try (repeat split; lra); try (exfalso; lra).

Lemma in_0_001_1000_spec (v : float) :
  in_0_001_1000 v = true <-> gt_le q0_001 1000 v.
Proof.
  unfold in_0_001_1000, float_gt, float_le, gt_le.
  destruct v as [q| | |]; by_compare.
Qed.

Lemma in_0_1000_spec (v : float) : in_0_1000 v = true <-> ge_le 0 1000 v.
Proof.
  unfold in_0_1000, float_ge, float_le, ge_le.
  destruct v as [q| | |]; by_compare.
Qed.

(** C7, as the code has it: the size of a cube and of a plane and the
    radius and depth of a cylinder are accepted exactly when
    0.001 < v <= 1000.0; the radius of a sphere is accepted exactly when
    0.0 <= v <= 1000.0. *)
Theorem size_radius_depth_bounds (v : float) :
  (forall n l,
      accepts (lit "size") (CreateCubeInput.new n v l) = true <-> gt_le q0_001 1000 v)
  /\ (forall n l,
      accepts (lit "size") (CreatePlaneInput.new n v l) = true <-> gt_le q0_001 1000 v)
  /\ (forall n d l k,
      accepts (lit "radius") (CreateCylinderInput.new n v d l k) = true
      <-> gt_le q0_001 1000 v)
  /\ (forall n r l k,
      accepts (lit "depth") (CreateCylinderInput.new n r v l k) = true
      <-> gt_le q0_001 1000 v)
  /\ (forall n sg rc cu ee al l ro sc,
      accepts (lit "radius") (CreateSphereInput.new n sg rc v cu ee al l ro sc) = true
      <-> ge_le 0 1000 v).
Proof.
  repeat match goal with |- _ /\ _ => split end; intros;
    rewrite <- ?in_0_001_1000_spec, <- ?in_0_1000_spec;
    unfold CreateCubeInput.new, CreatePlaneInput.new, CreateCylinderInput.new,
      CreateSphereInput.new;
    rewrite ?float_field_gt_le, ?float_field_ge_le;
    case_fields;
    repeat match goal with
           | |- context [in_0_001_1000 ?x] => destruct (in_0_001_1000 x)
           | |- context [in_0_1000 ?x] => destruct (in_0_1000 x)
           end;
    split; intro X; vm_compute in X |- *; congruence.
Qed.

(** C7 as the specification states it fails for the sphere: radius 0.0 is
    accepted, although it is not above 0.001. *)
Lemma sphere_radius_zero_accepted :
  CreateSphereInput.new (lit "Ball") 32 16 f0_0 true false (lit "WORLD")
    Scene.origin Scene.origin Scene.unit_scale
  = inr (CreateSphereInput.Build_t (lit "Ball") 32 16 f0_0 true false (lit "WORLD")
           Scene.origin Scene.origin Scene.unit_scale)
  /\ ~ gt_le q0_001 1000 f0_0.
Proof.
  split; [vm_compute; reflexivity|].
  unfold gt_le, f0_0, q0_001. intros [L _]. lra.
Qed.

Lemma between_spec (lo hi : Q) (c : float) :
  float_le (Finite lo) c = true /\ float_le c (Finite hi) = true <-> ge_le lo hi c.
Proof.
  unfold float_le, ge_le. destruct c as [q| | |]; by_compare.
Qed.

Lemma within_spec (limit : Q) (v : vec3) :
  within (Finite limit) v = true <-> each_within limit v.
Proof.
  destruct v as [[x y] z]. unfold within, all_between, each_within. simpl.
  rewrite !andb_true_iff, <- !between_spec. tauto.
Qed.

(** C8, as the code has it: rotate accepts a rotation exactly when each
    component is within [-6.28318, 6.28318]; the sphere applies the bound
    10000.0 of its vector validator instead; the camera leaves its rotation
    unchecked. *)
Theorem rotation_bounds (r : vec3) :
  (forall n,
      accepts (lit "rotation") (RotateObjectInput.new n r) = true
      <-> each_within q6_28318 r)
  /\ (forall n sg rc ra cu ee al l sc,
      accepts (lit "rotation") (CreateSphereInput.new n sg rc ra cu ee al l r sc) = true
      <-> each_within 10000 r)
  /\ (forall n l, accepts (lit "rotation") (CreateCameraInput.new n l r) = true).
Proof.
  repeat match goal with |- _ /\ _ => split end; intros;
    rewrite <- ?within_spec.
  - change (Finite q6_28318) with f6_28318.
    unfold RotateObjectInput.new, RotateObjectInput.validate_rotation, after, plain.
    cbv zeta. fold (within f6_28318 r).
    generalize (str_field (Some 1%nat) (Some 63%nat) n); intros [e|a];
      destruct (within f6_28318 r); split; intro X; vm_compute in X |- *; congruence.
  - change (Finite 10000) with f10000_0.
    unfold CreateSphereInput.new, CreateSphereInput.validate_vector3.
    unfold after at 3. unfold plain at 4. cbv zeta. fold (within f10000_0 r).
    case_fields;
      repeat match goal with
             | |- context [float_field ?a ?b ?c ?x] =>
                 generalize (float_field a b c x); intros [?|?]
             end;
      destruct (within f10000_0 r); split; intro X; vm_compute in X |- *; congruence.
  - unfold CreateCameraInput.new. case_fields; reflexivity.
Qed.

(** C8 as the specification states it fails for the sphere and for the
    camera: a rotation of 100 radians passes both. *)
Lemma rotation_beyond_2pi_accepted :
  CreateSphereInput.new (lit "Ball") 32 16 f1_0 true false (lit "WORLD")
    Scene.origin (Finite 100, f0_0, f0_0) Scene.unit_scale
  = inr (CreateSphereInput.Build_t (lit "Ball") 32 16 f1_0 true false (lit "WORLD")
           Scene.origin (Finite 100, f0_0, f0_0) Scene.unit_scale)
  /\ CreateCameraInput.new (lit "Cam") Scene.origin (Finite 100, f0_0, f0_0)
     = inr (CreateCameraInput.Build_t (lit "Cam") Scene.origin (Finite 100, f0_0, f0_0))
  /\ ~ each_within q6_28318 (Finite 100, f0_0, f0_0).
Proof.
  split; [vm_compute; reflexivity|]. split; [vm_compute; reflexivity|].
  unfold each_within, ge_le, q6_28318. intros [[_ L] _]. lra.
Qed.

Lemma checked_name_field (f : str -> fres str) (n : str) :
  (forall v, f v = if existsb (fun char => contains char v) invalid_chars
                   then ValueError name_message else inr (strip v)) ->
  after (str_field (Some 1%nat) (Some 63%nat) n) f
  = if len_ok n && chars_ok n then inr (strip n)
    else inl (if len_ok n then value_error name_message
              else if (1 <=? List.length n)%nat then string_too_long 63
                   else string_too_short 1).
Proof.
  intros Hf. rewrite str_field_name. unfold after, chars_ok.
  destruct (len_ok n); [|reflexivity]. rewrite Hf.
  destruct (existsb _ invalid_chars); reflexivity.
Qed.

Ltac name_fields n :=
  intros; unfold checked_and_stripped, length_checked;
  rewrite ?str_field_name;
  destruct (len_ok n); try destruct (chars_ok n);
  repeat match goal with
         | |- context [float_field ?a ?b ?c ?x] =>
             generalize (float_field a b c x); intros [?|?]
         end;
  case_fields;
  (split; [reflexivity | intros i Hi; try discriminate Hi; inversion Hi; reflexivity]).

(** C9, as the code has it: every name is accepted only with a length in
    [1,63]; the names given to new objects (primitives, camera, light, and the
    new name of a duplicate) are moreover refused when they contain one of the
    nine characters, and stored trimmed; the names that refer to an existing
    object or material, and the name of a new material, get neither the
    character check nor the trim. *)
Theorem name_fields_checked (n : str) :
  (forall s l, checked_and_stripped (lit "name") CreateCubeInput.name n
                 (CreateCubeInput.new n s l))
  /\ (forall sg rc ra cu ee al l ro sc,
        checked_and_stripped (lit "name") CreateSphereInput.name n
          (CreateSphereInput.new n sg rc ra cu ee al l ro sc))
  /\ (forall r d l k, checked_and_stripped (lit "name") CreateCylinderInput.name n
                        (CreateCylinderInput.new n r d l k))
  /\ (forall s l, checked_and_stripped (lit "name") CreatePlaneInput.name n
                    (CreatePlaneInput.new n s l))
  /\ (forall l r, checked_and_stripped (lit "name") CreateCameraInput.name n
                    (CreateCameraInput.new n l r))
  /\ (forall rt t l e, checked_and_stripped (lit "name") CreateLightInput.name n
                         (@CreateLightInput.new rt n t l e))
  /\ (forall m l, checked_and_stripped (lit "new_name") DuplicateObjectInput.new_name n
                    (DuplicateObjectInput.new m n l))
  /\ (forall m l, length_checked (lit "name") DuplicateObjectInput.name n
                    (DuplicateObjectInput.new n m l))
  /\ (forall l, length_checked (lit "name") MoveObjectInput.name n
                  (MoveObjectInput.new n l))
  /\ length_checked (lit "name") DeleteObjectInput.name n (DeleteObjectInput.new n)
  /\ length_checked (lit "name") SelectObjectInput.name n (SelectObjectInput.new n)
  /\ (forall r, length_checked (lit "name") RotateObjectInput.name n
                  (RotateObjectInput.new n r))
  /\ (forall s, length_checked (lit "name") ScaleObjectInput.name n
                  (ScaleObjectInput.new n s))
  /\ (forall c, length_checked (lit "name") CreateMaterialInput.name n
                  (CreateMaterialInput.new n c))
  /\ (forall m, length_checked (lit "object_name") AssignMaterialInput.object_name n
                  (AssignMaterialInput.new n m))
  /\ (forall o, length_checked (lit "material_name") AssignMaterialInput.material_name n
                  (AssignMaterialInput.new o n)).
Proof.
  repeat match goal with |- _ /\ _ => split end.
  - unfold CreateCubeInput.new.
    rewrite (checked_name_field CreateCubeInput.validate_name n (fun _ => eq_refl)).
    name_fields n.
  - unfold CreateSphereInput.new.
    rewrite (checked_name_field CreateSphereInput.validate_name n (fun _ => eq_refl)).
    name_fields n.
  - unfold CreateCylinderInput.new.
    rewrite (checked_name_field CreateCylinderInput.validate_name n (fun _ => eq_refl)).
    name_fields n.
  - unfold CreatePlaneInput.new.
    rewrite (checked_name_field CreatePlaneInput.validate_name n (fun _ => eq_refl)).
    name_fields n.
  - unfold CreateCameraInput.new.
    rewrite (checked_name_field CreateCameraInput.validate_name n (fun _ => eq_refl)).
    name_fields n.
  - intros rt t l e. unfold CreateLightInput.new.
    rewrite (checked_name_field CreateLightInput.validate_name n (fun _ => eq_refl)).
    name_fields n.
  - intros m l. unfold DuplicateObjectInput.new.
    rewrite (checked_name_field DuplicateObjectInput.validate_name n (fun _ => eq_refl)).
    generalize (str_field (Some 1%nat) (Some 63%nat) m); intros [?|?]; name_fields n.
  - intros m l. unfold DuplicateObjectInput.new.
    rewrite (str_field_name n).
    generalize (after (str_field (Some 1%nat) (Some 63%nat) m)
                  DuplicateObjectInput.validate_name); intros [?|?]; name_fields n.
  - unfold MoveObjectInput.new. name_fields n.
  - unfold DeleteObjectInput.new. name_fields n.
  - unfold SelectObjectInput.new. name_fields n.
  - unfold RotateObjectInput.new. name_fields n.
  - unfold ScaleObjectInput.new. name_fields n.
  - unfold CreateMaterialInput.new. name_fields n.
  - intros m. unfold AssignMaterialInput.new. rewrite (str_field_name n).
    generalize (str_field (Some 1%nat) (Some 63%nat) m); intros [?|?]; name_fields n.
  - intros o. unfold AssignMaterialInput.new. rewrite (str_field_name n).
    generalize (str_field (Some 1%nat) (Some 63%nat) o); intros [?|?]; name_fields n.
Qed.

(** C9 as the specification states it fails for the tools that refer to an
    existing object: move takes a name with a slash and keeps its
    surrounding blanks. *)
Lemma move_keeps_slash_and_blanks :
  MoveObjectInput.new (lit " a/b ") Scene.origin
  = inr (MoveObjectInput.Build_t (lit " a/b ") Scene.origin)
  /\ chars_ok (lit " a/b ") = false
  /\ strip (lit " a/b ") <> lit " a/b ".
Proof.
  split; [vm_compute; reflexivity|]. split; [vm_compute; reflexivity|].
  vm_compute. discriminate.
Qed.

(** C10: a name made of 1 to 63 whitespace characters passes validation
    and the model holds the empty name; on any host whose operator, lookup
    of the active object and assignment of the name go through, the tool
    then assigns the empty string as the name of the new cube and reports
    the cube under that name. *)
Theorem whitespace_name_accepted (n : str) :
  (1 <= List.length n <= 63)%nat ->
  forallb py_isspace n = true ->
  (forall s l, accepts (lit "name") (CreateCubeInput.new n s l) = true)
  /\ CreateCubeInput.new n f2_0 Scene.origin
     = inr (CreateCubeInput.Build_t [] f2_0 Scene.origin)
  /\ (forall (H Obj Mat Node : Type) (rt : PyRuntime) (pc : PydanticCore)
             (bpy : Bpy H Obj Mat Node) (h h1 h2 : H) (cube : Obj),
        import_bpy h = Return tt ->
        primitive_cube_add f2_0 Scene.origin h = (Return tt, h1) ->
        active_object h1 = Return (Some cube) ->
        set_name cube [] h1 = (Return tt, h2) ->
        invoke operations (CreateCube n f2_0 Scene.origin) h
        = (Return (lit "Successfully created cube '' with size " ++ repr_float f2_0
                   ++ lit " at location " ++ str_vec3 Scene.origin), h2)).
Proof.
  intros [Hlo Hhi] Hsp.
  assert (len_ok n = true) as Hlen.
  { unfold len_ok. apply andb_true_iff. split; apply Nat.leb_le; assumption. }
  assert (after (str_field (Some 1%nat) (Some 63%nat) n) CreateCubeInput.validate_name
          = inr []) as Hname.
  { rewrite (checked_name_field CreateCubeInput.validate_name n (fun _ => eq_refl)).
    rewrite Hlen, (spaces_chars_ok n Hsp), (strip_spaces n Hsp). reflexivity. }
  assert (CreateCubeInput.new n f2_0 Scene.origin
          = inr (CreateCubeInput.Build_t [] f2_0 Scene.origin)) as Hnew.
  { unfold CreateCubeInput.new. rewrite Hname. vm_compute. reflexivity. }
  split; [|split].
  - intros s l. unfold CreateCubeInput.new. rewrite Hname.
    generalize (float_field (Some f0_001) None (Some f1000_0) s); intros [?|?];
      case_fields; reflexivity.
  - exact Hnew.
  - intros H Obj Mat Node rt pc bpy h h1 h2 cube Hi Ha Ho Hs.
    unfold invoke, create_cube_tool. rewrite Hnew.
    unfold try_tool, construct, bind, ret, operations, h_create_cube, create_cube,
      try_bpy, bind, read, ret.
    cbn [CreateCubeInput.name CreateCubeInput.size CreateCubeInput.location].
    rewrite Hi, Ha, Ho, Hs. reflexivity.
Qed.

Lemma whitespace_name_accepted_witness :
  CreateCubeInput.new (lit "   ") f2_0 Scene.origin
  = inr (CreateCubeInput.Build_t [] f2_0 Scene.origin).
Proof.
  apply (whitespace_name_accepted (lit "   ")).
  - simpl. lia.
  - reflexivity.
Defined.

(* ===================================================================== *)
(** * Properties of the tools *)
(* ===================================================================== *)

Section ToolFacts.
Context {W : Type} {rt : PyRuntime} {pc : PydanticCore}.
Variable ops : handlers W.

Lemma try_tool_invalid {A} (title : string) (v : V A) (handler : A -> M W str)
    (t : str) (errors : list line_error) (w : W) :
  failure title v = Some (t, errors) ->
  try_tool (input_model <- construct (lit title) v ;; handler input_model) w
  = (Return (lit "Error: " ++ ValidationError_str t errors), w).
Proof.
  destruct v as [es|a]; simpl; [|discriminate].
  intros E. injection E as <- <-. reflexivity.
Qed.

Lemma try_tool_returns (body : M W str) (w : W) :
  exists s w', try_tool body w = (Return s, w').
Proof.
  unfold try_tool. destruct (body w) as [[s|e] w']; eauto.
Qed.

Lemma invalid_call (c : tool_call) (title : str) (errors : list line_error) (w : W) :
  validation c = Some (title, errors) ->
  invoke ops c w = (Return (lit "Error: " ++ ValidationError_str title errors), w).
Proof.
  destruct c; simpl; intros E; try discriminate E;
    eapply try_tool_invalid; exact E.
Qed.
End ToolFacts.

(** C1: when the construction of the input model fails, the tool returns
    the string "Error: " followed by the text of the validation error, and
    it does so whatever handlers it is linked with and without touching the
    state: the handler is not invoked. *)
Theorem rejected_call_never_reaches_handler
    (W : Type) (rt : PyRuntime) (pc : PydanticCore) (ops : handlers W)
    (c : tool_call) (title : str) (errors : list line_error) (w : W) :
  validation c = Some (title, errors) ->
  invoke ops c w = (Return (lit "Error: " ++ ValidationError_str title errors), w).
Proof.
  apply invalid_call.
Qed.

(** [create_cube(name="ok", size=0.0)] with counting handlers: the size is
    reported and the counter stays at 0. *)
Lemma rejected_call_never_reaches_handler_witness :
  @validation simple_runtime (CreateCube (lit "ok") f0_0 Scene.origin)
  = Some (lit "CreateCubeInput", [{| loc := lit "size"; err := greater_than f0_001 |}])
  /\ @invoke _ simple_runtime pydantic_v2 (counted scene_operations)
       (CreateCube (lit "ok") f0_0 Scene.origin) (Scene.empty, 0%nat)
     = (Return (lit "Error: "
                ++ @ValidationError_str pydantic_v2 (lit "CreateCubeInput")
                     [{| loc := lit "size"; err := greater_than f0_001 |}]),
        (Scene.empty, 0%nat)).
Proof.
  split; [reflexivity|].
  apply (@rejected_call_never_reaches_handler _ simple_runtime pydantic_v2).
  reflexivity.
Defined.

Section HandlerFacts.
Context {H Obj Mat Node : Type} {rt : PyRuntime} {pc : PydanticCore}
  {bpy : Bpy H Obj Mat Node}.

Lemma try_bpy_returns (label : str) (body : M H str) (h : H) :
  exists s h', try_bpy label body h = (Return s, h').
Proof.
  unfold try_bpy. destruct (body h) as [[s|e] h']; eauto.
  destruct (is_ImportError e); eauto.
Qed.

(** A handler whose lookup of [n] finds nothing, after a successful import. *)
Lemma lookup_none (label n kind : str) (k : Obj -> M H str) (h : H) :
  import_bpy h = Return tt ->
  objects_get n h = Return None ->
  try_bpy label
    (read import_bpy ;;;
     obj <- read (objects_get n) ;;
     match obj with
     | None => ret (not_found kind n)
     | Some obj => k obj
     end) h
  = (Return (not_found kind n), h).
Proof.
  intros Hi Hg. unfold try_bpy, bind, read, ret. rewrite Hi, Hg. reflexivity.
Qed.
End HandlerFacts.

(** C2: every tool call returns a string, whatever the arguments and however
    the host behaves (each access to it may raise, the import included). *)
Theorem every_tool_returns
    (H Obj Mat Node : Type) (rt : PyRuntime) (pc : PydanticCore)
    (bpy : Bpy H Obj Mat Node) (c : tool_call) (h : H) :
  exists (s : str) (h' : H), invoke operations c h = (Return s, h').
Proof.
  destruct c; simpl; try apply try_tool_returns.
  unfold get_scene_filepath_tool. simpl. apply try_bpy_returns.
Qed.

(** C5: after a successful import, an operation whose object (or camera, or
    material) lookup finds nothing returns "Error: <Kind> '<name>' not
    found" and leaves the document as it was. *)
Theorem missing_name_short_circuits
    (H Obj Mat Node : Type) (rt : PyRuntime) (pc : PydanticCore)
    (bpy : Bpy H Obj Mat Node) (h : H) :
  import_bpy h = Return tt ->
  (forall n, objects_get n h = Return None ->
     (forall l, move_object (MoveObjectInput.Build_t n l) h
                = (Return (lit "Error: Object '" ++ n ++ lit "' not found"), h))
     /\ delete_object (DeleteObjectInput.Build_t n) h
        = (Return (lit "Error: Object '" ++ n ++ lit "' not found"), h)
     /\ select_object (SelectObjectInput.Build_t n) h
        = (Return (lit "Error: Object '" ++ n ++ lit "' not found"), h)
     /\ (forall r, rotate_object (RotateObjectInput.Build_t n r) h
                   = (Return (lit "Error: Object '" ++ n ++ lit "' not found"), h))
     /\ (forall s, scale_object (ScaleObjectInput.Build_t n s) h
                   = (Return (lit "Error: Object '" ++ n ++ lit "' not found"), h))
     /\ get_object_info (GetObjectInfoInput.Build_t n) h
        = (Return (lit "Error: Object '" ++ n ++ lit "' not found"), h)
     /\ (forall nn l, duplicate_object (DuplicateObjectInput.Build_t n nn l) h
                      = (Return (lit "Error: Object '" ++ n ++ lit "' not found"), h))
     /\ (forall m, assign_material (AssignMaterialInput.Build_t n m) h
                   = (Return (lit "Error: Object '" ++ n ++ lit "' not found"), h))
     /\ set_active_camera (SetActiveCameraInput.Build_t n) h
        = (Return (lit "Error: Camera '" ++ n ++ lit "' not found"), h))
  /\ (forall o m obj,
        objects_get o h = Return (Some obj) ->
        materials_get m h = Return None ->
        assign_material (AssignMaterialInput.Build_t o m) h
        = (Return (lit "Error: Material '" ++ m ++ lit "' not found"), h))
  /\ (objects_get (lit "Ghost") h = Return None ->
      invoke operations (MoveObject (lit "Ghost") (Finite 1, Finite 2, Finite 3)) h
      = (Return (lit "Error: Object 'Ghost' not found"), h)).
Proof.
  intros Hi. split; [|split].
  - intros n Hg.
    repeat match goal with |- _ /\ _ => split end; intros;
      first [ exact (lookup_none _ n (lit "Object") _ h Hi Hg)
            | exact (lookup_none _ n (lit "Camera") _ h Hi Hg) ].
  - intros o m obj Ho Hm.
    unfold assign_material, try_bpy, bind, read, ret. simpl.
    rewrite Hi, Ho, Hm. reflexivity.
  - intros Hg.
    assert (move_object
              (MoveObjectInput.Build_t (lit "Ghost") (Finite 1, Finite 2, Finite 3)) h
            = (Return (not_found (lit "Object") (lit "Ghost")), h)) as X
      by exact (lookup_none _ (lit "Ghost") (lit "Object") _ h Hi Hg).
    change (try_tool
              (input_model <- construct (lit "MoveObjectInput")
                                (MoveObjectInput.new (lit "Ghost")
                                   (Finite 1, Finite 2, Finite 3)) ;;
               move_object input_model) h
            = (Return (lit "Error: Object 'Ghost' not found"), h)).
    replace (MoveObjectInput.new (lit "Ghost") (Finite 1, Finite 2, Finite 3))
      with (@inr (list line_error) _
              (MoveObjectInput.Build_t (lit "Ghost") (Finite 1, Finite 2, Finite 3)))
      by (vm_compute; reflexivity).
    unfold try_tool, bind, construct, ret. rewrite X. reflexivity.
Qed.

Lemma missing_name_short_circuits_witness :
  @invoke _ simple_runtime pydantic_v2 scene_operations
    (MoveObject (lit "Ghost") (Finite 1, Finite 2, Finite 3)) Scene.empty
  = (Return (lit "Error: Object 'Ghost' not found"), Scene.empty).
Proof.
  apply (@missing_name_short_circuits _ _ _ _ simple_runtime pydantic_v2
           Scene.host Scene.empty); reflexivity.
Defined.

Lemma cube_errors (n : str) (s : float) (l : vec3) :
  verrors (CreateCubeInput.new n s l)
  = field_errors (lit "name")
      (after (str_field (Some 1%nat) (Some 63%nat) n) CreateCubeInput.validate_name)
    ++ field_errors (lit "size") (float_field (Some f0_001) None (Some f1000_0) s)
    ++ field_errors (lit "location") (after (plain l) CreateCubeInput.validate_location).
Proof.
  unfold CreateCubeInput.new. rewrite !vap_errors. simpl. rewrite app_assoc. reflexivity.
Qed.

(** C6, as the code has it: a failed construction reports every violated
    field, not the first one only.  The result is "Error: " followed by the
    header "<N> validation error(s) for <Model>" and, for each violated
    field in declaration order, a line with its name and a line with the
    message of the constraint it violates (the first one, within a field). *)
Theorem validation_error_lists_every_field :
  (forall (W : Type) (rt : PyRuntime) (pc : PydanticCore) (ops : handlers W)
          (c : tool_call) (title : str) (errors : list line_error) (w : W),
      validation c = Some (title, errors) ->
      invoke ops c w
      = (Return (lit "Error: "
                 ++ str_of_nat (List.length errors) ++ lit " validation error"
                 ++ (if (List.length errors =? 1)%nat then [] else lit "s")
                 ++ lit " for " ++ title
                 ++ List.concat
                      (map (fun e => [LF] ++ loc e ++ [LF] ++ lit "  "
                                     ++ message (err e) ++ line_context e)
                         errors)),
         w))
  /\ (forall (A B : Type) (vf : V (A -> B)) (l : str) (r : fres A),
        verrors (vf <*> (l, r)) = verrors vf ++ field_errors l r)
  /\ (forall n s l,
        verrors (CreateCubeInput.new n s l)
        = field_errors (lit "name")
            (after (str_field (Some 1%nat) (Some 63%nat) n)
               CreateCubeInput.validate_name)
          ++ field_errors (lit "size")
               (float_field (Some f0_001) None (Some f1000_0) s)
          ++ field_errors (lit "location")
               (after (plain l) CreateCubeInput.validate_location)).
Proof.
  split; [|split].
  - intros. apply invalid_call. assumption.
  - intros. apply vap_errors.
  - apply cube_errors.
Qed.

Lemma validation_error_lists_every_field_witness :
  @invoke _ simple_runtime pydantic_v2 scene_operations
    (CreateCube [] f0_0 Scene.origin) Scene.empty
  = (Return (lit "Error: 2 validation errors for CreateCubeInput" ++ [LF]
             ++ lit "name" ++ [LF]
             ++ lit "  String should have at least 1 character" ++ [LF]
             ++ lit "size" ++ [LF]
             ++ lit "  Input should be greater than " ++ repr_simple f0_001),
     Scene.empty).
Proof.
  exact (proj1 validation_error_lists_every_field _ simple_runtime pydantic_v2
           scene_operations (CreateCube [] f0_0 Scene.origin) (lit "CreateCubeInput")
           [{| loc := lit "name"; err := string_too_short 1 |};
            {| loc := lit "size"; err := greater_than f0_001 |}]
           Scene.empty eq_refl).
Defined.

(** C6 as the specification states it fails: with an empty name and size
    0.0 both fields are reported, and whatever wording pydantic uses the
    result is not "Error: " followed by the message of the first violated
    constraint alone. *)
Lemma both_violations_reported :
  verrors (CreateCubeInput.new [] f0_0 Scene.origin)
  = [{| loc := lit "name"; err := string_too_short 1 |};
     {| loc := lit "size"; err := greater_than f0_001 |}]
  /\ forall (rt : PyRuntime) (pc : PydanticCore),
       fst (@invoke _ rt pc (@operations _ _ _ _ rt pc Scene.host)
              (CreateCube [] f0_0 Scene.origin) Scene.empty)
       <> Return (lit "Error: " ++ message (string_too_short 1)).
Proof.
  split; [reflexivity|].
  intros rt pc.
  rewrite (@invalid_call _ rt pc _ (CreateCube [] f0_0 Scene.origin)
             (lit "CreateCubeInput")
             [{| loc := lit "name"; err := string_too_short 1 |};
              {| loc := lit "size"; err := greater_than f0_001 |}]
             Scene.empty eq_refl).
  simpl fst. intros E. injection E as E.
  apply (f_equal (@List.length N)) in E.
  unfold ValidationError_str, render_line in E. simpl in E.
  rewrite !length_app in E. simpl in E. rewrite !length_app in E. simpl in E. lia.
Qed.

(* ===================================================================== *)
(** * Properties of the stdout filter *)
(* ===================================================================== *)

Lemma decode_ascii (p : bytes) : is_ascii p = true -> decode_ignore p = p.
Proof.
  induction p as [|b r IH]; [reflexivity|].
  intros E. apply andb_true_iff in E as [Eb Er].
  simpl. rewrite Eb, (IH Er). reflexivity.
Qed.

Lemma encode_ascii (s : str) : is_ascii s = true -> encode s = s.
Proof.
  induction s as [|c r IH]; [reflexivity|].
  intros E. apply andb_true_iff in E as [Ec Er].
  unfold encode in *. simpl. unfold encode_cp at 1. rewrite Ec, (IH Er). reflexivity.
Qed.


Lemma find_app_fresh (c : N) (s t : str) :
  ~ In c s -> find c (s ++ c :: t) = Some (List.length s).
Proof.
  induction s as [|a r IH]; simpl; intros Hn.
  - rewrite N.eqb_refl. reflexivity.
  - destruct (N.eqb_spec a c) as [->|_]; [exfalso; auto|].
    rewrite IH by tauto. reflexivity.
Qed.

Lemma lstrip_incl (x : N) (s : str) : In x (lstrip s) -> In x s.
Proof.
  induction s as [|c r IH]; simpl; auto.
  destruct (py_isspace c); simpl; auto.
Qed.

Lemma strip_incl (x : N) (s : str) : In x (strip s) -> In x s.
Proof.
  unfold strip, rstrip. intros X.
  apply in_rev in X. apply lstrip_incl in X. apply in_rev in X.
  apply lstrip_incl. exact X.
Qed.




Section FilterFacts.
Context {J : Json}.

Lemma extract_enough (fuel : nat) :
  forall buffer, (List.length buffer < fuel)%nat ->
                 exists r, extract fuel buffer = Some r.
Proof.
  induction fuel as [|fuel IH]; intros buffer Hlen; [lia|].
  cbn [extract]. unfold extract_once.
  destruct buffer as [|b bs]; [eauto|].
  destruct (find_start (decode_ignore (b :: bs))) as [start_idx|].
  - cbv zeta.
    destruct (find LF (skipn start_idx (decode_ignore (b :: bs)))) as [nl|].
    + destruct (parses (strip (firstn nl _))).
      * destruct (IH (skipn (S nl) (skipn start_idx (b :: bs)))) as [[out rest] E].
        { rewrite !length_skipn. cbn [List.length] in *. lia. }
        rewrite E. eauto.
      * destruct (parses _); eauto.
    + destruct (parses _); eauto.
  - destruct (1000 <? len (b :: bs))%N; eauto.
Qed.

(** The fuel [_extract_json_from_buffer] starts with is never used up. *)
Lemma extract_defined (buffer : bytes) :
  exists r, extract (S (List.length buffer)) buffer = Some r
            /\ _extract_json_from_buffer buffer = r.
Proof.
  destruct (@extract_enough (S (List.length buffer)) buffer (Nat.lt_succ_diag_r _))
    as [r E].
  exists r. split; [exact E|]. unfold _extract_json_from_buffer. rewrite E. reflexivity.
Qed.






End FilterFacts.

Unset Implicit Arguments.

Lemma str_eqb_eq (a : str) : forall b, str_eqb a b = true -> a = b.
Proof.
  induction a as [|x a IH]; intros [|y b] E; simpl in E; try discriminate; auto.
  apply andb_true_iff in E as [Exy Eab].
  apply N.eqb_eq in Exy. rewrite (IH b Eab). congruence.
Qed.

Section SplitFacts.
Context {J : Json}.
Variable j : bytes.
Hypothesis Hj : complete_object j = true.

Lemma object_facts :
  is_ascii j = true
  /\ (exists r, j = 123%N :: r)
  /\ ~ In LF j
  /\ strip j = j
  /\ json_loads j = true
  /\ (forall k, (1 <= k < List.length j)%nat ->
                json_loads (strip (firstn k j)) = false)
  /\ (len j <= 100000)%N.
Proof.
  unfold complete_object in Hj.
  repeat match type of Hj with
         | (_ && _)%bool = true =>
             let X := fresh "X" in apply andb_true_iff in Hj as [Hj X]
         end.
  repeat split; try assumption.
  - destruct j as [|c r]; [discriminate|].
    apply N.eqb_eq in X4. subst c. eauto.
  - intros Hin. apply negb_true_iff in X3.
    assert (existsb (N.eqb LF) j = true) as E
        by (apply existsb_exists; exists LF; split; [assumption | apply N.eqb_refl]).
    congruence.
  - apply str_eqb_eq. assumption.
  - intros k Hk. rewrite forallb_forall in X0.
    apply negb_true_iff, X0, in_seq. lia.
  - apply N.leb_le. assumption.
Qed.









End SplitFacts.

(** Whatever [_extract_json_from_buffer] writes was parsed first, and is
    the encoding of the parsed text. *)
Lemma extracted_units_are_json {J : Json} (fuel : nat) :
  forall buffer out rest,
    extract fuel buffer = Some (out, rest) -> Forall json_unit out.
Proof.
  induction fuel as [|fuel IH]; intros buffer out rest E; [discriminate|].
  cbn [extract] in E. unfold extract_once in E.
  destruct buffer as [|b bs]; [injection E as <- _; constructor|].
  destruct (find_start (decode_ignore (b :: bs))) as [start_idx|].
  - cbv zeta in E.
    assert (forall t buf,
               (if parses (strip t) then Some ([encode (strip t)], [])
                else Some ([], buf)) = Some (out, rest) ->
               Forall json_unit out) as Hwhole.
    { intros t buf X. destruct (parses (strip t)) eqn:Ep; injection X as <- _.
      - constructor; [|constructor]. exists (strip t). auto.
      - constructor. }
    destruct (find LF (skipn start_idx (decode_ignore (b :: bs)))) as [nl|];
      [|exact (Hwhole _ _ E)].
    destruct (parses (strip (firstn nl _))) eqn:Ep; [|exact (Hwhole _ _ E)].
    destruct (extract fuel _) as [[out' rest']|] eqn:Er; [|discriminate].
    injection E as <- _. constructor; [|exact (IH _ _ _ Er)].
    eexists. split; [exact Ep | right; reflexivity].
  - destruct (1000 <? len (b :: bs))%N; injection E as <- _; constructor.
Qed.

Lemma firstn_exact (j rest : bytes) : firstn (List.length j) (j ++ rest) = j.
Proof.
  induction j as [|x j IH]; [reflexivity|]. cbn [List.length firstn app]. now rewrite IH.
Qed.

Lemma skipn_exact (a b : bytes) : skipn (List.length a) (a ++ b) = b.
Proof.
  induction a as [|x a IH]; [reflexivity | exact IH].
Qed.










(** The same stream over two reads: the result is the same wherever the
    boundary falls, except right after the closing brace, where the frame
    goes out without its newline. *)
Lemma banner_split_in_two (k : nat) :
  @filter_stdout python_json
    [Read (firstn k banner_stream); Read (skipn k banner_stream); Exit]
  = if (k =? 63)%nat then [frame] else [frame ++ [LF]].
Proof.
  do 75 (destruct k as [|k]; [vm_compute; reflexivity|]).
  rewrite firstn_all2, skipn_all2
    by (change (List.length banner_stream) with 74%nat; lia).
  vm_compute. reflexivity.
Qed.

(** C4, at the input where the code departs from it: a stream holding
    invalid bytes around a bracketed object, then the end of the process.
    The exit path validates the decoded, stripped text but writes the raw
    buffer, so the unit written is not UTF-8 and no JSON text. *)
Theorem exit_flush_writes_raw_buffer :
  @filter_stdout python_json [Read [255; 91; 123; 125; 255; 93]%N; Exit]
  = [[91; 123; 125; 255; 93]%N]
  /\ decode_strict [91; 123; 125; 255; 93]%N = None
  /\ @parses python_json (strip (decode_ignore [91; 123; 125; 255; 93]%N)) = true.
Proof.
  repeat split; vm_compute; reflexivity.
Qed.

(* ===================================================================== *)
(** * Further properties of the input models *)
(* ===================================================================== *)

Lemma after_plain_within (f : vec3 -> fres vec3) (limit : float) (msg : str) (l : vec3) :
  (forall v, f v = if negb (within limit v) then ValueError msg else inr v) ->
  after (plain l) f = if within limit l then inr l else inl (value_error msg).
Proof.
  intros Hf. unfold after, plain. rewrite Hf. destruct (within limit l); reflexivity.
Qed.

Lemma after_plain_within_opt (f : option vec3 -> fres (option vec3)) (limit : float)
    (msg : str) (l : vec3) :
  (forall v, f (Some v) = if negb (within limit v) then ValueError msg else inr (Some v)) ->
  after (plain (Some l)) f
  = if within limit l then inr (Some l) else inl (value_error msg).
Proof.
  intros Hf. unfold after, plain. rewrite Hf. destruct (within limit l); reflexivity.
Qed.

Ltac other_fields :=
  repeat match goal with
         | |- context [float_field ?a ?b ?c ?x] =>
             generalize (float_field a b c x); intros [?|?]
         end;
  case_fields.

Ltac decide_field b :=
  other_fields; destruct b; split;
  (let X := fresh "X" in intro X; vm_compute in X |- *; congruence).

(** X1: the location of every model that has one is accepted exactly when
    each coordinate lies in [-10000.0, 10000.0]; a duplicate without a
    location is accepted. *)
Theorem location_bounds (l : vec3) :
  (forall n s, accepts (lit "location") (CreateCubeInput.new n s l) = true
               <-> each_within 10000 l)
  /\ (forall n sg rc ra cu ee al ro sc,
        accepts (lit "location") (CreateSphereInput.new n sg rc ra cu ee al l ro sc) = true
        <-> each_within 10000 l)
  /\ (forall n, accepts (lit "location") (MoveObjectInput.new n l) = true
                <-> each_within 10000 l)
  /\ (forall n r, accepts (lit "location") (CreateCameraInput.new n l r) = true
                  <-> each_within 10000 l)
  /\ (forall rt n t e, accepts (lit "location") (@CreateLightInput.new rt n t l e) = true
                       <-> each_within 10000 l)
  /\ (forall n r d k, accepts (lit "location") (CreateCylinderInput.new n r d l k) = true
                      <-> each_within 10000 l)
  /\ (forall n s, accepts (lit "location") (CreatePlaneInput.new n s l) = true
                  <-> each_within 10000 l)
  /\ (forall n m, accepts (lit "location") (DuplicateObjectInput.new n m (Some l)) = true
                  <-> each_within 10000 l)
  /\ (forall n m, accepts (lit "location") (DuplicateObjectInput.new n m None) = true).
Proof.
  repeat match goal with |- _ /\ _ => split end; intros;
    rewrite <- ?within_spec; change (Finite 10000) with f10000_0.
  - unfold CreateCubeInput.new.
    rewrite (@after_plain_within CreateCubeInput.validate_location f10000_0 _ l
               (fun _ => eq_refl)).
    decide_field (within f10000_0 l).
  - unfold CreateSphereInput.new.
    rewrite (@after_plain_within CreateSphereInput.validate_vector3 f10000_0 _ l
               (fun _ => eq_refl)).
    decide_field (within f10000_0 l).
  - unfold MoveObjectInput.new.
    rewrite (@after_plain_within MoveObjectInput.validate_location f10000_0 _ l
               (fun _ => eq_refl)).
    decide_field (within f10000_0 l).
  - unfold CreateCameraInput.new.
    rewrite (@after_plain_within CreateCameraInput.validate_location f10000_0 _ l
               (fun _ => eq_refl)).
    decide_field (within f10000_0 l).
  - unfold CreateLightInput.new.
    rewrite (@after_plain_within CreateLightInput.validate_location f10000_0 _ l
               (fun _ => eq_refl)).
    decide_field (within f10000_0 l).
  - unfold CreateCylinderInput.new.
    rewrite (@after_plain_within CreateCylinderInput.validate_location f10000_0 _ l
               (fun _ => eq_refl)).
    decide_field (within f10000_0 l).
  - unfold CreatePlaneInput.new.
    rewrite (@after_plain_within CreatePlaneInput.validate_location f10000_0 _ l
               (fun _ => eq_refl)).
    decide_field (within f10000_0 l).
  - unfold DuplicateObjectInput.new.
    rewrite (@after_plain_within_opt DuplicateObjectInput.validate_location f10000_0 _ l
               (fun _ => eq_refl)).
    decide_field (within f10000_0 l).
  - unfold DuplicateObjectInput.new.
    change (after (plain None) DuplicateObjectInput.validate_location)
      with (@inr error_type (option vec3) None).
    other_fields; reflexivity.
Qed.

Lemma after_plain_test (f : vec3 -> fres vec3) (test : vec3 -> bool) (msg : str)
    (l : vec3) :
  (forall v, f v = if negb (test v) then ValueError msg else inr v) ->
  after (plain l) f = if test l then inr l else inl (value_error msg).
Proof.
  intros Hf. unfold after, plain. rewrite Hf. destruct (test l); reflexivity.
Qed.

Lemma after_plain_two_tests (f : vec3 -> fres vec3) (t1 t2 : vec3 -> bool)
    (m1 m2 : str) (l : vec3) :
  (forall v, f v = if negb (t1 v) then ValueError m1
                   else if negb (t2 v) then ValueError m2 else inr v) ->
  after (plain l) f
  = if t1 l && t2 l then inr l
    else inl (value_error (if t1 l then m2 else m1)).
Proof.
  intros Hf. unfold after, plain. rewrite Hf. destruct (t1 l), (t2 l); reflexivity.
Qed.

Lemma all3_spec (p : float -> bool) (v : vec3) :
  all3 p v = true <-> each (fun c => p c = true) v.
Proof.
  destruct v as [[x y] z]. unfold all3, each. cbn [forallb].
  rewrite !andb_true_iff. tauto.
Qed.

Lemma gt0_le1000_spec (c : float) :
  float_gt c f0_0 = true /\ float_le c f1000_0 = true <-> gt_le 0 1000 c.
Proof.
  unfold float_gt, float_le, gt_le. destruct c as [q| | |]; by_compare.
Qed.

Lemma ge0_le1000_spec (c : float) :
  float_ge c f0_0 = true /\ float_le c f1000_0 = true <-> ge_le 0 1000 c.
Proof.
  unfold float_ge, float_le, ge_le. destruct c as [q| | |]; by_compare.
Qed.

Lemma unit_interval_spec (v : vec3) :
  all_between f0_0 f1_0 v = true <-> each (ge_le 0 1) v.
Proof.
  destruct v as [[x y] z]. unfold all_between, each. cbn [forallb].
  rewrite !andb_true_iff. unfold f0_0, f1_0. rewrite <- !between_spec. tauto.
Qed.

(** X2: the scale of a new sphere is accepted exactly when each component
    lies in [0.0, 1000.0]; the scale given to an existing object exactly
    when each component lies in (0.0, 1000.0]. *)
Theorem scale_bounds (sc : vec3) :
  (forall n sg rc ra cu ee al l ro,
      accepts (lit "scale") (CreateSphereInput.new n sg rc ra cu ee al l ro sc) = true
      <-> each (ge_le 0 1000) sc)
  /\ (forall n, accepts (lit "scale") (ScaleObjectInput.new n sc) = true
                <-> each (gt_le 0 1000) sc).
Proof.
  split; intros.
  - unfold CreateSphereInput.new.
    rewrite (@after_plain_two_tests CreateSphereInput.validate_scale
               (all3 (fun c => float_ge c f0_0)) (all3 (fun c => float_le c f1000_0))
               _ _ sc (fun _ => eq_refl)).
    assert (all3 (fun c => float_ge c f0_0) sc && all3 (fun c => float_le c f1000_0) sc
            = true <-> each (ge_le 0 1000) sc) as <-.
    { rewrite andb_true_iff, !all3_spec. destruct sc as [[x y] z]. unfold each.
      rewrite <- !ge0_le1000_spec. tauto. }
    decide_field (all3 (fun c => float_ge c f0_0) sc
                  && all3 (fun c => float_le c f1000_0) sc).
  - unfold ScaleObjectInput.new.
    rewrite (@after_plain_two_tests ScaleObjectInput.validate_scale
               (all3 (fun c => float_gt c f0_0)) (all3 (fun c => float_le c f1000_0))
               _ _ sc (fun _ => eq_refl)).
    assert (all3 (fun c => float_gt c f0_0) sc && all3 (fun c => float_le c f1000_0) sc
            = true <-> each (gt_le 0 1000) sc) as <-.
    { rewrite andb_true_iff, !all3_spec. destruct sc as [[x y] z]. unfold each.
      rewrite <- !gt0_le1000_spec. tauto. }
    decide_field (all3 (fun c => float_gt c f0_0) sc
                  && all3 (fun c => float_le c f1000_0) sc).
Qed.

(** X3: the colour of a new material is accepted exactly when each of its
    three values lies in [0.0, 1.0]; the energy of a new light exactly when
    it lies in [0.0, 1000.0]. *)
Theorem color_and_energy_bounds :
  (forall n c, accepts (lit "color") (CreateMaterialInput.new n c) = true
               <-> each (ge_le 0 1) c)
  /\ (forall rt n t l e, accepts (lit "energy") (@CreateLightInput.new rt n t l e) = true
                         <-> ge_le 0 1000 e).
Proof.
  split; intros.
  - rewrite <- unit_interval_spec. unfold CreateMaterialInput.new.
    rewrite (@after_plain_test CreateMaterialInput.validate_color
               (all_between f0_0 f1_0) _ c (fun _ => eq_refl)).
    decide_field (all_between f0_0 f1_0 c).
  - rewrite <- in_0_1000_spec. unfold CreateLightInput.new.
    rewrite float_field_ge_le.
    decide_field (in_0_1000 e).
Qed.

Lemma int_field_spec (lo hi v : Z) :
  int_field lo hi v
  = if ((lo <=? v) && (v <=? hi))%Z then inr v
    else inl (if (v <=? hi)%Z then int_greater_than_equal lo else int_less_than_equal hi).
Proof.
  unfold int_field. destruct (v <=? hi)%Z, (lo <=? v)%Z; reflexivity.
Qed.

Lemma int_between_spec (lo hi v : Z) :
  ((lo <=? v) && (v <=? hi))%Z = true <-> int_between lo hi v.
Proof.
  unfold int_between. rewrite andb_true_iff, !Z.leb_le. tauto.
Qed.

Ltac decide_int lo hi v :=
  rewrite <- int_between_spec; rewrite (int_field_spec lo hi v);
  other_fields;
  repeat match goal with
         | |- context [int_field ?a ?b ?x] =>
             generalize (int_field a b x); intros [?|?]
         end;
  destruct ((lo <=? v) && (v <=? hi))%Z; split;
  (let X := fresh "X" in intro X; vm_compute in X |- *; congruence).

(** X4: the integer fields: segments and rings of a sphere are accepted
    exactly in [3, 100000], the vertices of a cylinder exactly in [3, 256],
    each resolution of a render exactly in [1, 10000]. *)
Theorem integer_bounds (v : Z) :
  (forall n rc ra cu ee al l ro sc,
      accepts (lit "segments") (CreateSphereInput.new n v rc ra cu ee al l ro sc) = true
      <-> int_between 3 100000 v)
  /\ (forall n sg ra cu ee al l ro sc,
      accepts (lit "ring_count") (CreateSphereInput.new n sg v ra cu ee al l ro sc) = true
      <-> int_between 3 100000 v)
  /\ (forall n r d l,
      accepts (lit "vertices") (CreateCylinderInput.new n r d l v) = true
      <-> int_between 3 256 v)
  /\ (forall rt f y,
      accepts (lit "resolution_x") (@RenderSceneInput.new rt f v y) = true
      <-> int_between 1 10000 v)
  /\ (forall rt f x,
      accepts (lit "resolution_y") (@RenderSceneInput.new rt f x v) = true
      <-> int_between 1 10000 v).
Proof.
  repeat match goal with |- _ /\ _ => split end; intros.
  - unfold CreateSphereInput.new. decide_int 3%Z 100000%Z v.
  - unfold CreateSphereInput.new. decide_int 3%Z 100000%Z v.
  - unfold CreateCylinderInput.new. decide_int 3%Z 256%Z v.
  - unfold RenderSceneInput.new. decide_int 1%Z 10000%Z v.
  - unfold RenderSceneInput.new. decide_int 1%Z 10000%Z v.
Qed.

Lemma str_eqb_refl (a : str) : str_eqb a a = true.
Proof.
  induction a as [|x a IH]; [reflexivity|].
  cbn [str_eqb]. rewrite N.eqb_refl, IH. reflexivity.
Qed.

Lemma existsb_str_In (x : str) (l : list str) :
  existsb (str_eqb x) l = true <-> In x l.
Proof.
  rewrite existsb_exists. split.
  - intros (y & Hy & E). apply str_eqb_eq in E. subst y. exact Hy.
  - intros Hx. exists x. split; [exact Hx | apply str_eqb_refl].
Qed.

Lemma light_type_field (rt : PyRuntime) (t : str) :
  after (plain t) CreateLightInput.validate_light_type
  = if existsb (str_eqb (str_upper t)) CreateLightInput.valid_types
    then inr (str_upper t)
    else inl (value_error (lit "Light type must be one of: "
                           ++ join (lit ", ") CreateLightInput.valid_types)).
Proof.
  unfold after, plain, CreateLightInput.validate_light_type.
  destruct (existsb _ CreateLightInput.valid_types); reflexivity.
Qed.

(** X5: a light type is accepted exactly when its upper-cased form is one of
    SUN, POINT, SPOT, AREA, and it is stored upper-cased; the alignment of a
    sphere is accepted exactly when it is one of WORLD, VIEW, CURSOR as
    written (no case folding). *)
Theorem enumerated_fields :
  (forall rt n t l e,
      (accepts (lit "light_type") (@CreateLightInput.new rt n t l e) = true
       <-> In (str_upper t) [lit "SUN"; lit "POINT"; lit "SPOT"; lit "AREA"])
      /\ forall i, @CreateLightInput.new rt n t l e = inr i ->
                   CreateLightInput.light_type i = str_upper t)
  /\ (forall n sg rc ra cu ee al l ro sc,
        accepts (lit "align") (CreateSphereInput.new n sg rc ra cu ee al l ro sc) = true
        <-> In al [lit "WORLD"; lit "VIEW"; lit "CURSOR"]).
Proof.
  split; intros.
  - rewrite <- existsb_str_In.
    unfold CreateLightInput.new. rewrite !light_type_field.
    change [lit "SUN"; lit "POINT"; lit "SPOT"; lit "AREA"]
      with CreateLightInput.valid_types.
    destruct (existsb (str_eqb (str_upper t)) CreateLightInput.valid_types);
      other_fields;
      (split; [split; (let X := fresh "X" in
                       intro X; vm_compute in X |- *; congruence)
              | intros i Hi; try discriminate Hi; inversion Hi; reflexivity]).
  - rewrite <- existsb_str_In.
    unfold CreateSphereInput.new, literal_field.
    destruct (existsb (str_eqb al) [lit "WORLD"; lit "VIEW"; lit "CURSOR"]);
      other_fields; split;
      (let X := fresh "X" in intro X; vm_compute in X |- *; congruence).
Qed.

Lemma str_field_nonempty (f : str) :
  str_field (Some 1%nat) None f
  = if (1 <=? List.length f)%nat then inr f else inl (string_too_short 1).
Proof.
  unfold str_field, bound. destruct (1 <=? List.length f)%nat; reflexivity.
Qed.

(** X6: the output path of a render is accepted exactly when it is not
    empty and its lower-cased form ends with .png, .jpg, .jpeg, .bmp, .tiff
    or .exr, and it is kept as given; the path of save and of open is
    accepted exactly when it is not empty and its lower-cased form ends with
    .blend, and it is stored trimmed. *)
Theorem filepath_fields (rt : PyRuntime) (f : str) :
  (forall x y,
      accepts (lit "filepath") (RenderSceneInput.new f x y)
      = (1 <=? List.length f)%nat
        && existsb (fun ext => endswith (str_lower f) ext)
             [lit ".png"; lit ".jpg"; lit ".jpeg"; lit ".bmp"; lit ".tiff"; lit ".exr"]
      /\ forall i, RenderSceneInput.new f x y = inr i -> RenderSceneInput.filepath i = f)
  /\ (accepts (lit "filepath") (SaveFileInput.new f)
      = (1 <=? List.length f)%nat && endswith (str_lower f) (lit ".blend")
      /\ forall i, SaveFileInput.new f = inr i -> SaveFileInput.filepath i = strip f)
  /\ (accepts (lit "filepath") (OpenFileInput.new f)
      = (1 <=? List.length f)%nat && endswith (str_lower f) (lit ".blend")
      /\ forall i, OpenFileInput.new f = inr i -> OpenFileInput.filepath i = strip f).
Proof.
  repeat match goal with
         | |- _ /\ _ => split
         | |- forall _, _ => intro
         end;
    unfold RenderSceneInput.new, SaveFileInput.new, OpenFileInput.new in *;
    rewrite str_field_nonempty in *;
    unfold after, RenderSceneInput.validate_filepath, SaveFileInput.validate_filepath,
      OpenFileInput.validate_filepath in *;
    fold RenderSceneInput.valid_extensions in *;
    change [lit ".png"; lit ".jpg"; lit ".jpeg"; lit ".bmp"; lit ".tiff"; lit ".exr"]
      with RenderSceneInput.valid_extensions in *;
    repeat match goal with
           | |- context [int_field ?a ?b ?v] =>
               generalize (int_field a b v); intros [?|?]
           | H : context [int_field ?a ?b ?v] |- _ =>
               revert H; generalize (int_field a b v); intros [?|?] H
           end;
    destruct (1 <=? List.length f)%nat;
    try destruct (existsb _ RenderSceneInput.valid_extensions);
    try destruct (endswith (str_lower f) (lit ".blend"));
    try reflexivity;
    try discriminate;
    match goal with H : _ = inr _ |- _ => inversion H; reflexivity end.
Qed.

Lemma lstrip_app_nonspace (s : str) (c : N) :
  py_isspace c = false -> lstrip (s ++ [c]) = lstrip s ++ [c].
Proof.
  intros Hc. induction s as [|a r IH]; cbn [lstrip app].
  - rewrite Hc. reflexivity.
  - destruct (py_isspace a); [exact IH | reflexivity].
Qed.

Lemma rstrip_cons_nonspace (c : N) (m : str) :
  py_isspace c = false -> rstrip (c :: m) = c :: rstrip m.
Proof.
  intros Hc. unfold rstrip. cbn [rev].
  rewrite (lstrip_app_nonspace _ c Hc), rev_app_distr. reflexivity.
Qed.

Lemma lstrip_idem (s : str) : lstrip (lstrip s) = lstrip s.
Proof.
  induction s as [|a r IH]; [reflexivity|]. cbn [lstrip].
  destruct (py_isspace a) eqn:Ea; [exact IH|]. cbn [lstrip]. rewrite Ea. reflexivity.
Qed.

Lemma rstrip_idem (s : str) : rstrip (rstrip s) = rstrip s.
Proof.
  unfold rstrip. rewrite rev_involutive, lstrip_idem. reflexivity.
Qed.

Lemma lstrip_head (s : str) (c : N) (m : str) :
  lstrip s = c :: m -> py_isspace c = false.
Proof.
  induction s as [|a r IH]; cbn [lstrip]; [discriminate|].
  destruct (py_isspace a) eqn:Ea; [exact IH|]. intros E. injection E as <- _. exact Ea.
Qed.

(** Trimming twice is trimming once. *)
Lemma strip_idem (s : str) : strip (strip s) = strip s.
Proof.
  unfold strip at 2 3. destruct (lstrip s) as [|c m] eqn:E; [reflexivity|].
  pose proof (lstrip_head s c m E) as Hc.
  rewrite (rstrip_cons_nonspace c m Hc). unfold strip. cbn [lstrip]. rewrite Hc.
  rewrite (rstrip_cons_nonspace c _ Hc), rstrip_idem. reflexivity.
Qed.

Lemma length_lstrip (s : str) : (List.length (lstrip s) <= List.length s)%nat.
Proof.
  induction s as [|a r IH]; cbn [lstrip]; [lia|].
  destruct (py_isspace a); cbn [List.length]; lia.
Qed.

Lemma length_strip (s : str) : (List.length (strip s) <= List.length s)%nat.
Proof.
  unfold strip, rstrip. rewrite length_rev.
  pose proof (length_lstrip (rev (lstrip s))) as H1. rewrite length_rev in H1.
  pose proof (length_lstrip s). lia.
Qed.

Lemma chars_ok_strip (s : str) : chars_ok s = true -> chars_ok (strip s) = true.
Proof.
  unfold chars_ok. rewrite !negb_true_iff. intros Hs.
  apply not_true_is_false. intros Hex. apply existsb_exists in Hex as (c & Hc & Hin).
  unfold contains in Hin. apply existsb_exists in Hin as (x & Hx & Hcx).
  apply strip_incl in Hx.
  assert (existsb (fun c => contains c s) invalid_chars = true) as Ht.
  { apply existsb_exists. exists c. split; [exact Hc|].
    unfold contains. apply existsb_exists. exists x. split; assumption. }
  congruence.
Qed.

(** The name field of the creation models, applied to a name it already
    produced: nothing changes, provided the name is not empty. *)
Lemma checked_name_again (f : str -> fres str) (n : str) :
  (forall v, f v = if existsb (fun char => contains char v) invalid_chars
                   then ValueError name_message else inr (strip v)) ->
  len_ok n && chars_ok n = true ->
  strip n <> [] ->
  after (str_field (Some 1%nat) (Some 63%nat) (strip n)) f = inr (strip n).
Proof.
  intros Hf E Hne. apply andb_true_iff in E as [El Ec].
  rewrite (checked_name_field f (strip n) Hf), (chars_ok_strip n Ec), strip_idem.
  assert (len_ok (strip n) = true) as ->; [|reflexivity].
  unfold len_ok in *. apply andb_true_iff in El as [_ Hhi].
  apply Nat.leb_le in Hhi. pose proof (length_strip n).
  apply andb_true_iff. split; apply Nat.leb_le; [|lia].
  destruct (strip n); [contradiction | cbn [List.length]; lia].
Qed.

(** X7: validation is idempotent on what it accepts, as long as the
    accepted name is not empty: building the cube (or plane) model again
    from the fields of a validated model yields the same model. *)
Theorem revalidation_is_identity :
  (forall n s l i,
      CreateCubeInput.new n s l = inr i ->
      CreateCubeInput.name i <> [] ->
      CreateCubeInput.new (CreateCubeInput.name i) (CreateCubeInput.size i)
        (CreateCubeInput.location i) = inr i)
  /\ (forall n s l i,
      CreatePlaneInput.new n s l = inr i ->
      CreatePlaneInput.name i <> [] ->
      CreatePlaneInput.new (CreatePlaneInput.name i) (CreatePlaneInput.size i)
        (CreatePlaneInput.location i) = inr i).
Proof.
  split; intros n s l i Hi Hne.
  - revert Hi. unfold CreateCubeInput.new.
    rewrite (checked_name_field CreateCubeInput.validate_name n (fun _ => eq_refl)).
    rewrite float_field_gt_le.
    rewrite (@after_plain_within CreateCubeInput.validate_location f10000_0 _ l
               (fun _ => eq_refl)).
    destruct (len_ok n && chars_ok n) eqn:En, (in_0_001_1000 s) eqn:Es,
      (within f10000_0 l) eqn:El; intros Hi; try discriminate Hi.
    injection Hi as <-. cbn [CreateCubeInput.name CreateCubeInput.size
                               CreateCubeInput.location] in *.
    rewrite (checked_name_again CreateCubeInput.validate_name n (fun _ => eq_refl) En Hne).
    rewrite float_field_gt_le, Es.
    rewrite (@after_plain_within CreateCubeInput.validate_location f10000_0 _ l
               (fun _ => eq_refl)), El.
    reflexivity.
  - revert Hi. unfold CreatePlaneInput.new.
    rewrite (checked_name_field CreatePlaneInput.validate_name n (fun _ => eq_refl)).
    rewrite float_field_gt_le.
    rewrite (@after_plain_within CreatePlaneInput.validate_location f10000_0 _ l
               (fun _ => eq_refl)).
    destruct (len_ok n && chars_ok n) eqn:En, (in_0_001_1000 s) eqn:Es,
      (within f10000_0 l) eqn:El; intros Hi; try discriminate Hi.
    injection Hi as <-. cbn [CreatePlaneInput.name CreatePlaneInput.size
                               CreatePlaneInput.location] in *.
    rewrite (checked_name_again CreatePlaneInput.validate_name n (fun _ => eq_refl) En Hne).
    rewrite float_field_gt_le, Es.
    rewrite (@after_plain_within CreatePlaneInput.validate_location f10000_0 _ l
               (fun _ => eq_refl)), El.
    reflexivity.
Qed.

Lemma revalidation_is_identity_witness :
  CreateCubeInput.new (lit "Table") f2_0 Scene.origin
  = inr (CreateCubeInput.Build_t (lit "Table") f2_0 Scene.origin).
Proof.
  apply (proj1 revalidation_is_identity (lit " Table ") f2_0 Scene.origin
           (CreateCubeInput.Build_t (lit "Table") f2_0 Scene.origin)).
  - vm_compute. reflexivity.
  - discriminate.
Defined.

(* ===================================================================== *)
(** * Further properties of the handlers and tools *)
(* ===================================================================== *)

Section MoreToolFacts.
Context {W : Type} {rt : PyRuntime} {pc : PydanticCore}.
Variable ops : handlers W.

Lemma failure_none {A} (title : string) (v : V A) :
  failure title v = None -> exists i, v = inr i.
Proof.
  destruct v as [es|i]; [discriminate | eauto].
Qed.

Lemma try_tool_valid {A} (title : str) (v : V A) (handler : A -> M W str) (w : W) :
  forall i, v = inr i ->
  try_tool (input_model <- construct title v ;; handler input_model) w
  = try_tool (handler i) w.
Proof.
  intros i ->. reflexivity.
Qed.
End MoreToolFacts.

Section MoreHandlerFacts.
Context {H Obj Mat Node : Type} {rt : PyRuntime} {pc : PydanticCore}
  {bpy : Bpy H Obj Mat Node}.

Lemma import_fails (label : str) (k : M H str) (h : H) (e : exn) :
  import_bpy h = Raise e ->
  try_bpy label (read import_bpy ;;; k) h
  = (Return (if is_ImportError e then bpy_not_found
             else lit "Error [" ++ label ++ lit "]: " ++ exn_str e), h).
Proof.
  intros Hi. unfold try_bpy, bind, read. rewrite Hi.
  destruct (is_ImportError e); reflexivity.
Qed.

Lemma try_tool_of_return (body : M H str) (h : H) (s : str) (h' : H) :
  body h = (Return s, h') -> try_tool body h = (Return s, h').
Proof.
  intros E. unfold try_tool. rewrite E. reflexivity.
Qed.

(** What a valid call returns when the import raises [e]. *)
Lemma invoke_import_fails (c : tool_call) (h : H) (e : exn) :
  import_bpy h = Raise e ->
  validation c = None ->
  invoke operations c h
  = (Return (if is_ImportError e then bpy_not_found
             else lit "Error [" ++ label c ++ lit "]: " ++ exn_str e), h).
Proof.
  intros Hi Hv.
  destruct c; cbn [invoke validation label] in *;
    try (apply try_tool_of_return);
    try (apply failure_none in Hv as [i Hv]; rewrite Hv);
    exact (import_fails _ _ h e Hi).
Qed.
End MoreHandlerFacts.

(** X8: without the [bpy] module (its import raises ImportError) every tool
    whose arguments validate returns the fixed message and leaves the state
    alone. *)
Theorem without_bpy_every_tool_reports_it
    (H Obj Mat Node : Type) (rt : PyRuntime) (pc : PydanticCore)
    (bpy : Bpy H Obj Mat Node) (c : tool_call) (h : H) (m : str) :
  import_bpy h = Raise (ImportError m) ->
  validation c = None ->
  invoke operations c h
  = (Return (lit "Error: bpy module not found. Tool must run in Blender environment."),
     h).
Proof.
  intros Hi Hv. exact (invoke_import_fails c h (ImportError m) Hi Hv).
Qed.

Lemma without_bpy_every_tool_reports_it_witness :
  @invoke _ simple_runtime pydantic_v2 scene_operations ListObjects Scene.no_bpy
  = (Return (lit "Error: bpy module not found. Tool must run in Blender environment."),
     Scene.no_bpy).
Proof.
  apply (@without_bpy_every_tool_reports_it _ _ _ _ simple_runtime pydantic_v2
           Scene.host ListObjects Scene.no_bpy (lit "No module named 'bpy'"));
    reflexivity.
Defined.

(** X9: an exception other than ImportError met when a handler starts is
    reported under the label of the operation: the tool returns
    "Error [<Label>]: <text of the exception>". *)
Theorem host_failure_is_labelled
    (H Obj Mat Node : Type) (rt : PyRuntime) (pc : PydanticCore)
    (bpy : Bpy H Obj Mat Node) (c : tool_call) (h : H) (m : str) :
  import_bpy h = Raise (Exception m) ->
  validation c = None ->
  invoke operations c h
  = (Return (lit "Error [" ++ label c ++ lit "]: " ++ m), h).
Proof.
  intros Hi Hv. exact (invoke_import_fails c h (Exception m) Hi Hv).
Qed.

(** A scene whose [bpy] raises a RuntimeError on import. *)
Lemma host_failure_is_labelled_witness :
  let broken : Bpy unit nat str nat :=
    {| import_bpy := fun _ => Raise (Exception (lit "boom"));
       primitive_cube_add := fun _ _ => ret tt;
       primitive_uv_sphere_add := fun _ _ _ _ _ _ _ _ _ => ret tt;
       primitive_cylinder_add := fun _ _ _ _ => ret tt;
       primitive_plane_add := fun _ _ => ret tt;
       camera_add := fun _ _ => ret tt;
       light_add := fun _ _ => ret tt;
       select_all := fun _ => ret tt;
       object_delete := ret tt;
       object_duplicate := ret tt;
       active_object := fun _ => Return None;
       set_active := fun _ => ret tt;
       scene_camera := fun _ => Return None;
       set_scene_camera := fun _ => ret tt;
       set_resolution_x := fun _ => ret tt;
       set_resolution_y := fun _ => ret tt;
       set_render_filepath := fun _ => ret tt;
       render := fun _ => ret tt;
       objects := fun _ => Return [];
       objects_get := fun _ _ => Return None;
       objects_remove := fun _ => ret tt;
       get_name := fun _ _ => Return [];
       get_type := fun _ _ => Return [];
       get_location := fun _ _ => Return Scene.origin;
       get_rotation_euler := fun _ _ => Return Scene.origin;
       get_scale := fun _ _ => Return Scene.origin;
       has_data := fun _ _ => Return false;
       vertices_len := fun _ _ => Return 0%nat;
       polygons_len := fun _ _ => Return 0%nat;
       set_name := fun _ _ => ret tt;
       set_location := fun _ _ => ret tt;
       set_rotation_euler := fun _ _ => ret tt;
       set_scale := fun _ _ => ret tt;
       select_set := fun _ _ => ret tt;
       set_energy := fun _ _ => ret tt;
       slots_nonempty := fun _ _ => Return false;
       slot_set_first := fun _ _ => ret tt;
       slot_append := fun _ _ => ret tt;
       materials_contains := fun _ _ => Return false;
       materials_get := fun _ _ => Return None;
       materials_new := fun n => ret n;
       has_node_tree := fun _ _ => Return false;
       nodes_get := fun _ _ _ => Return None;
       set_base_color := fun _ _ => ret tt;
       data_filepath := fun _ => Return [];
       save_as_mainfile := fun _ => ret tt;
       open_mainfile := fun _ => ret tt;
       path_exists := fun _ _ => Return false;
       makedirs := fun _ => ret tt |} in
  @invoke _ simple_runtime pydantic_v2
    (@operations _ _ _ _ simple_runtime pydantic_v2 broken) ClearScene tt
  = (Return (lit "Error [Clear Scene]: boom"), tt).
Proof.
  intros broken.
  apply (@host_failure_is_labelled _ _ _ _ simple_runtime pydantic_v2 broken
           ClearScene tt (lit "boom")); reflexivity.
Defined.

(** X10: the handlers check their precondition before changing anything:
    with the import done, a render without an active camera, clearing an
    empty scene, creating a material whose name exists, opening a missing
    file, making a non-camera the active camera, listing an empty scene and
    asking the path of an unsaved file each return their message and leave
    the document as it was. *)
Theorem precondition_failures_change_nothing
    (H Obj Mat Node : Type) (rt : PyRuntime) (pc : PydanticCore)
    (bpy : Bpy H Obj Mat Node) (h : H) :
  import_bpy h = Return tt ->
  (forall i, scene_camera h = Return None ->
             render_scene i h
             = (Return (lit "Error [Render Scene]: No active camera found. Create a camera before rendering."), h))
  /\ (objects h = Return [] ->
      clear_scene h = (Return (lit "Scene was already empty"), h))
  /\ (forall n c, materials_contains n h = Return true ->
                  create_material (CreateMaterialInput.Build_t n c) h
                  = (Return (lit "Error: Material '" ++ n ++ lit "' already exists"), h))
  /\ (forall p, path_exists p h = Return false ->
                open_file (OpenFileInput.Build_t p) h
                = (Return (lit "Error [Open File]: File not found: '" ++ p ++ lit "'"), h))
  /\ (forall n o t, objects_get n h = Return (Some o) ->
                    get_type o h = Return t ->
                    t <> lit "CAMERA" ->
                    set_active_camera (SetActiveCameraInput.Build_t n) h
                    = (Return (lit "Error: Object '" ++ n
                               ++ lit "' is not a camera (type: " ++ t ++ lit ")"), h))
  /\ (objects h = Return [] ->
      list_objects h = (Return (lit "Scene is empty - no objects found"), h))
  /\ (data_filepath h = Return [] ->
      get_scene_filepath h = (Return (lit "File not saved yet (unsaved file)"), h)).
Proof.
  intros Hi.
  repeat match goal with |- _ /\ _ => split end.
  - intros i E. unfold render_scene, try_bpy, bind, read, ret.
    rewrite Hi, E. reflexivity.
  - intros E. unfold clear_scene, try_bpy, bind, read, ret.
    rewrite Hi, E. reflexivity.
  - intros n c E. unfold create_material, try_bpy, bind, read, ret.
    cbn [CreateMaterialInput.name]. rewrite Hi, E. reflexivity.
  - intros p E. unfold open_file, try_bpy, bind, read, ret.
    cbn [OpenFileInput.filepath]. rewrite Hi, E. reflexivity.
  - intros n o t Eo Et Hne. unfold set_active_camera, try_bpy, bind, read, ret.
    cbn [SetActiveCameraInput.camera_name]. rewrite Hi, Eo, Et.
    assert (str_eqb t (lit "CAMERA") = false) as ->.
    { apply not_true_is_false. intros E. apply str_eqb_eq in E. contradiction. }
    cbn [negb]. rewrite Et. reflexivity.
  - intros E. unfold list_objects, try_bpy, bind, read, ret.
    rewrite Hi, E. reflexivity.
  - intros E. unfold get_scene_filepath, try_bpy, bind, read, ret.
    rewrite Hi, E. reflexivity.
Qed.

Lemma precondition_failures_change_nothing_witness :
  @render_scene _ _ _ _ pydantic_v2 Scene.host
    (RenderSceneInput.Build_t (lit "/tmp/out.png") 1920 1080) Scene.empty
  = (Return (lit "Error [Render Scene]: No active camera found. Create a camera before rendering."), Scene.empty).
Proof.
  apply (@precondition_failures_change_nothing _ _ _ _ simple_runtime pydantic_v2
           Scene.host Scene.empty); reflexivity.
Defined.

Section ReadOnly.
Context {W : Type}.

Lemma ro_ret {A} (a : A) : read_only (@ret W A a).
Proof. intros w. reflexivity. Qed.

Lemma ro_read {A} (f : W -> outcome A) : read_only (read f).
Proof. intros w. reflexivity. Qed.

Lemma ro_bind {A B} (c : M W A) (k : A -> M W B) :
  read_only c -> (forall a, read_only (k a)) -> read_only (bind c k).
Proof.
  intros Hc Hk w. unfold bind. specialize (Hc w).
  destruct (c w) as [[a|e] w']; cbn [snd] in *; subst w'; [apply Hk | reflexivity].
Qed.

Lemma ro_mapM {A B} (f : A -> M W B) (xs : list A) :
  (forall x, read_only (f x)) -> read_only (mapM f xs).
Proof.
  intros Hf. induction xs as [|x r IH]; cbn [mapM].
  - apply ro_ret.
  - apply ro_bind; [apply Hf | intros y].
    apply ro_bind; [exact IH | intros ys; apply ro_ret].
Qed.
End ReadOnly.

Lemma ro_try_bpy {H} {pc : PydanticCore} (label : str) (body : M H str) :
  read_only body -> read_only (try_bpy label body).
Proof.
  intros Hb h. unfold try_bpy. specialize (Hb h).
  destruct (body h) as [[s|e] h']; cbn [snd] in *; subst h'; [reflexivity|].
  destruct (is_ImportError e); reflexivity.
Qed.

Lemma ro_try_tool {W} {pc : PydanticCore} (body : M W str) :
  read_only body -> read_only (try_tool body).
Proof.
  intros Hb w. unfold try_tool. specialize (Hb w).
  destruct (body w) as [[s|e] w']; cbn [snd] in *; subst w'; reflexivity.
Qed.

Lemma ro_construct {W A} (title : str) (v : V A) : read_only (@construct W A title v).
Proof. intros w. destruct v; reflexivity. Qed.

Ltac read_only_steps :=
  repeat first
    [ apply ro_try_bpy
    | apply ro_try_tool
    | apply ro_construct
    | apply ro_ret
    | apply ro_read
    | apply ro_mapM; intros
    | apply ro_bind; [|intros]
    | match goal with
      | |- read_only (match ?x with _ => _ end) => destruct x
      end ].

(** X11: listing the objects, asking about an object and asking the file
    path never change the document, whatever the host answers and whether
    or not the name passes validation. *)
Theorem inspection_changes_nothing
    (H Obj Mat Node : Type) (rt : PyRuntime) (pc : PydanticCore)
    (bpy : Bpy H Obj Mat Node) (h : H) :
  snd (invoke operations ListObjects h) = h
  /\ (forall n, snd (invoke operations (GetObjectInfo n) h) = h)
  /\ snd (invoke operations GetSceneFilepath h) = h.
Proof.
  repeat match goal with |- _ /\ _ => split end; intros;
    match goal with |- snd (?c h) = h => assert (read_only c) as R; [|apply R] end;
    cbn [invoke]; unfold list_objects_tool, get_object_info_tool,
      get_scene_filepath_tool; cbn [h_list_objects h_get_object_info
                                    h_get_scene_filepath operations];
    unfold list_objects, get_object_info, get_scene_filepath;
    read_only_steps.
Qed.

(** X12: a render that fails does not undo the settings made for it: the
    resolution and the output path stay as the handler set them, and the
    failure is reported under the label of the operation; a render that
    succeeds reports the path and the resolution. *)
Theorem render_keeps_its_settings
    (H Obj Mat Node : Type) (rt : PyRuntime) (pc : PydanticCore)
    (bpy : Bpy H Obj Mat Node) (f : str) (x y : Z) (cam : Obj)
    (h h1 h2 h3 h4 : H) (r : outcome unit) :
  import_bpy h = Return tt ->
  scene_camera h = Return (Some cam) ->
  set_resolution_x x h = (Return tt, h1) ->
  set_resolution_y y h1 = (Return tt, h2) ->
  set_render_filepath f h2 = (Return tt, h3) ->
  render true h3 = (r, h4) ->
  render_scene (RenderSceneInput.Build_t f x y) h
  = (Return match r with
            | Return _ => lit "Successfully rendered scene to '" ++ f
                          ++ lit "' at resolution " ++ str_of_Z x ++ lit "x"
                          ++ str_of_Z y
            | Raise (Exception m) => lit "Error [Render Scene]: " ++ m
            | Raise (ImportError _) =>
                lit "Error: bpy module not found. Tool must run in Blender environment."
            | Raise (ValidationError t es) =>
                lit "Error [Render Scene]: " ++ ValidationError_str t es
            end, h4).
Proof.
  intros Hi Hc Hx Hy Hf Hr.
  unfold render_scene, try_bpy, bind, read, ret.
  cbn [RenderSceneInput.filepath RenderSceneInput.resolution_x
       RenderSceneInput.resolution_y].
  rewrite Hi, Hc, Hx, Hy, Hf, Hr.
  destruct r as [[]|[m|t es|m]]; reflexivity.
Qed.

Lemma render_keeps_its_settings_witness :
  let h := Scene.with_camera Scene.empty (Some 0%nat) in
  @render_scene _ _ _ _ pydantic_v2 Scene.host
    (RenderSceneInput.Build_t (lit "/tmp/out.png") 640 480) h
  = (Return (lit "Successfully rendered scene to '/tmp/out.png' at resolution 640x480"),
     Scene.with_files
       (Scene.with_output h (640%Z, 480%Z, lit "/tmp/out.png")) [] [lit "/tmp/out.png"]).
Proof.
  intros h.
  apply (@render_keeps_its_settings _ _ _ _ simple_runtime pydantic_v2 Scene.host
           (lit "/tmp/out.png") 640 480 0%nat h
           (Scene.with_output h (640%Z, 1080%Z, []))
           (Scene.with_output h (640%Z, 480%Z, []))
           (Scene.with_output h (640%Z, 480%Z, lit "/tmp/out.png"))
           _ (Return tt)); reflexivity.
Defined.

(** X13: the tools guard themselves against their handlers: linked with any
    handlers at all, every tool but [get_scene_filepath_tool] returns a
    string; that one has no guard and passes on what its handler raises. *)
Theorem only_the_filepath_tool_can_raise
    (W : Type) (rt : PyRuntime) (pc : PydanticCore) (ops : handlers W) (w : W) :
  (forall c, c <> GetSceneFilepath ->
             exists s w', invoke ops c w = (Return s, w'))
  /\ (forall e w', h_get_scene_filepath ops w = (Raise e, w') ->
                   invoke ops GetSceneFilepath w = (Raise e, w')).
Proof.
  split.
  - intros c Hc. destruct c; cbn [invoke]; try apply try_tool_returns.
    contradiction Hc. reflexivity.
  - intros e w' E. exact E.
Qed.

Lemma only_the_filepath_tool_can_raise_witness :
  let failing : handlers unit :=
    Build_handlers
      (fun _ => raise (Exception [])) (fun _ => raise (Exception []))
      (fun _ => raise (Exception [])) (raise (Exception []))
      (fun _ => raise (Exception [])) (fun _ => raise (Exception []))
      (fun _ => raise (Exception [])) (fun _ => raise (Exception []))
      (fun _ => raise (Exception [])) (fun _ => raise (Exception []))
      (fun _ => raise (Exception [])) (fun _ => raise (Exception []))
      (fun _ => raise (Exception [])) (fun _ => raise (Exception []))
      (raise (Exception [])) (fun _ => raise (Exception []))
      (fun _ => raise (Exception [])) (fun _ => raise (Exception []))
      (fun _ => raise (Exception [])) (raise (Exception []))
      (fun _ => raise (Exception [])) (fun _ => raise (Exception [])) in
  @invoke _ simple_runtime pydantic_v2 failing GetSceneFilepath tt
  = (Raise (Exception []), tt)
  /\ exists s w', @invoke _ simple_runtime pydantic_v2 failing ListObjects tt
                  = (Return s, w').
Proof.
  intros failing. split.
  - apply (proj2 (@only_the_filepath_tool_can_raise _ simple_runtime pydantic_v2
                    failing tt)). reflexivity.
  - apply (proj1 (@only_the_filepath_tool_can_raise _ simple_runtime pydantic_v2
                    failing tt)). discriminate.
Defined.

(** X14: the defaults of the tool signatures pass validation: a tool called
    with its required arguments only is rejected only for those arguments.
    (For the light this needs the upper-casing to leave SUN as it is.) *)
Theorem defaults_are_valid (rt : PyRuntime) :
  (forall n, validation (Defaults.create_cube n) = None
             <-> len_ok n && chars_ok n = true)
  /\ (forall n, validation (Defaults.create_sphere n) = None
                <-> len_ok n && chars_ok n = true)
  /\ (forall n, validation (Defaults.create_cylinder n) = None
                <-> len_ok n && chars_ok n = true)
  /\ (forall n, validation (Defaults.create_plane n) = None
                <-> len_ok n && chars_ok n = true)
  /\ (forall n, validation (Defaults.create_camera n) = None
                <-> len_ok n && chars_ok n = true)
  /\ (forall n, validation (Defaults.create_material n) = None
                <-> len_ok n = true)
  /\ (forall n m, validation (Defaults.duplicate_object n m) = None
                  <-> len_ok n = true /\ len_ok m && chars_ok m = true)
  /\ (forall f, validation (Defaults.render_scene f) = None
                <-> accepts (lit "filepath") (RenderSceneInput.new f 1920 1080) = true)
  /\ (str_upper (lit "SUN") = lit "SUN" ->
      forall n, validation (Defaults.create_light n) = None
                <-> len_ok n && chars_ok n = true).
Proof.
  repeat match goal with |- _ /\ _ => split end; intros;
    cbn [validation Defaults.create_cube Defaults.create_sphere
         Defaults.create_cylinder Defaults.create_plane Defaults.create_camera
         Defaults.create_material Defaults.duplicate_object Defaults.render_scene
         Defaults.create_light].
  - unfold CreateCubeInput.new.
    rewrite (checked_name_field CreateCubeInput.validate_name n (fun _ => eq_refl)).
    destruct (len_ok n && chars_ok n); vm_compute; split; congruence.
  - unfold CreateSphereInput.new.
    rewrite (checked_name_field CreateSphereInput.validate_name n (fun _ => eq_refl)).
    destruct (len_ok n && chars_ok n); vm_compute; split; congruence.
  - unfold CreateCylinderInput.new.
    rewrite (checked_name_field CreateCylinderInput.validate_name n (fun _ => eq_refl)).
    destruct (len_ok n && chars_ok n); vm_compute; split; congruence.
  - unfold CreatePlaneInput.new.
    rewrite (checked_name_field CreatePlaneInput.validate_name n (fun _ => eq_refl)).
    destruct (len_ok n && chars_ok n); vm_compute; split; congruence.
  - unfold CreateCameraInput.new.
    rewrite (checked_name_field CreateCameraInput.validate_name n (fun _ => eq_refl)).
    destruct (len_ok n && chars_ok n); vm_compute; split; congruence.
  - unfold CreateMaterialInput.new. rewrite str_field_name.
    destruct (len_ok n); vm_compute; split; congruence.
  - unfold DuplicateObjectInput.new. rewrite str_field_name.
    rewrite (checked_name_field DuplicateObjectInput.validate_name m (fun _ => eq_refl)).
    destruct (len_ok n), (len_ok m && chars_ok m); vm_compute;
      split; try congruence; try tauto; intros [? ?]; congruence.
  - unfold RenderSceneInput.new.
    generalize (after (str_field (Some 1%nat) None f) RenderSceneInput.validate_filepath).
    intros [e|a]; vm_compute; split; congruence.
  - unfold CreateLightInput.new.
    rewrite (checked_name_field CreateLightInput.validate_name n (fun _ => eq_refl)).
    rewrite light_type_field.
    match goal with E : str_upper _ = _ |- _ => rewrite E end.
    destruct (len_ok n && chars_ok n); vm_compute; split; congruence.
Qed.

Lemma defaults_are_valid_witness :
  @validation simple_runtime (Defaults.create_light (lit "Sun")) = None.
Proof.
  apply (proj2 (proj2 (proj2 (proj2 (proj2 (proj2 (proj2 (proj2
           (defaults_are_valid simple_runtime))))))))); reflexivity.
Defined.

Lemma light_dispatch {H Obj Mat Node : Type} {bpy : Bpy H Obj Mat Node}
    (ty : str) (at_ : vec3) :
  In ty CreateLightInput.valid_types ->
  (if str_eqb ty (lit "SUN") then light_add (lit "SUN") at_
   else if str_eqb ty (lit "POINT") then light_add (lit "POINT") at_
   else if str_eqb ty (lit "SPOT") then light_add (lit "SPOT") at_
   else if str_eqb ty (lit "AREA") then light_add (lit "AREA") at_
   else ret tt)
  = light_add ty at_.
Proof.
  intros [<-|[<-|[<-|[<-|[]]]]]; reflexivity.
Qed.

(** X15: for a light type that passed validation the handler always calls
    the light operator, with that type and the given location: whatever the
    operator does decides the result, and its failure is reported. *)
Theorem validated_light_is_added
    (H Obj Mat Node : Type) (rt : PyRuntime) (pc : PydanticCore)
    (bpy : Bpy H Obj Mat Node) (i : CreateLightInput.t) (h h' : H) (m : str) :
  In (CreateLightInput.light_type i) [lit "SUN"; lit "POINT"; lit "SPOT"; lit "AREA"] ->
  import_bpy h = Return tt ->
  light_add (CreateLightInput.light_type i) (CreateLightInput.location i) h
  = (Raise (Exception m), h') ->
  create_light i h = (Return (lit "Error [Create Light]: " ++ m), h').
Proof.
  intros Hin Hi Hadd. unfold create_light, try_bpy, bind, read. rewrite Hi.
  cbv zeta. rewrite (light_dispatch _ _ Hin), Hadd. reflexivity.
Qed.

Lemma validated_light_is_added_witness :
  let refusing : Bpy unit nat str nat :=
    {| import_bpy := fun _ => Return tt;
       primitive_cube_add := fun _ _ => ret tt;
       primitive_uv_sphere_add := fun _ _ _ _ _ _ _ _ _ => ret tt;
       primitive_cylinder_add := fun _ _ _ _ => ret tt;
       primitive_plane_add := fun _ _ => ret tt;
       camera_add := fun _ _ => ret tt;
       light_add := fun _ _ => raise (Exception (lit "no lights today"));
       select_all := fun _ => ret tt;
       object_delete := ret tt;
       object_duplicate := ret tt;
       active_object := fun _ => Return None;
       set_active := fun _ => ret tt;
       scene_camera := fun _ => Return None;
       set_scene_camera := fun _ => ret tt;
       set_resolution_x := fun _ => ret tt;
       set_resolution_y := fun _ => ret tt;
       set_render_filepath := fun _ => ret tt;
       render := fun _ => ret tt;
       objects := fun _ => Return [];
       objects_get := fun _ _ => Return None;
       objects_remove := fun _ => ret tt;
       get_name := fun _ _ => Return [];
       get_type := fun _ _ => Return [];
       get_location := fun _ _ => Return Scene.origin;
       get_rotation_euler := fun _ _ => Return Scene.origin;
       get_scale := fun _ _ => Return Scene.origin;
       has_data := fun _ _ => Return false;
       vertices_len := fun _ _ => Return 0%nat;
       polygons_len := fun _ _ => Return 0%nat;
       set_name := fun _ _ => ret tt;
       set_location := fun _ _ => ret tt;
       set_rotation_euler := fun _ _ => ret tt;
       set_scale := fun _ _ => ret tt;
       select_set := fun _ _ => ret tt;
       set_energy := fun _ _ => ret tt;
       slots_nonempty := fun _ _ => Return false;
       slot_set_first := fun _ _ => ret tt;
       slot_append := fun _ _ => ret tt;
       materials_contains := fun _ _ => Return false;
       materials_get := fun _ _ => Return None;
       materials_new := fun n => ret n;
       has_node_tree := fun _ _ => Return false;
       nodes_get := fun _ _ _ => Return None;
       set_base_color := fun _ _ => ret tt;
       data_filepath := fun _ => Return [];
       save_as_mainfile := fun _ => ret tt;
       open_mainfile := fun _ => ret tt;
       path_exists := fun _ _ => Return false;
       makedirs := fun _ => ret tt |} in
  @create_light _ _ _ _ simple_runtime pydantic_v2 refusing
    (CreateLightInput.Build_t (lit "Lamp") (lit "SPOT") Scene.origin f1_0) tt
  = (Return (lit "Error [Create Light]: no lights today"), tt).
Proof.
  intros refusing.
  apply (@validated_light_is_added _ _ _ _ simple_runtime pydantic_v2 refusing
           (CreateLightInput.Build_t (lit "Lamp") (lit "SPOT") Scene.origin f1_0)
           tt tt (lit "no lights today")).
  - simpl. tauto.
  - reflexivity.
  - reflexivity.
Defined.

(* ===================================================================== *)
(** * Further properties of the stdout filter *)
(* ===================================================================== *)

Section MoreFilterFacts.
Context {J : Json}.

Lemma suffix_refl (b : bytes) : suffix_of b b.
Proof. exists []. reflexivity. Qed.

Lemma suffix_nil (b : bytes) : suffix_of [] b.
Proof. exists b. symmetry. apply app_nil_r. Qed.

Lemma suffix_skipn (n : nat) (s b : bytes) : suffix_of s (skipn n b) -> suffix_of s b.
Proof.
  intros [pre E]. exists (firstn n b ++ pre).
  rewrite <- app_assoc, <- E. symmetry. apply firstn_skipn.
Qed.

Lemma suffix_length (s b : bytes) : suffix_of s b -> (len s <= len b)%N.
Proof.
  intros [pre ->]. unfold len. rewrite length_app. lia.
Qed.

(** What is left in the buffer is a tail of what was there. *)
Lemma extract_suffix (fuel : nat) :
  forall buffer out rest,
    extract fuel buffer = Some (out, rest) -> suffix_of rest buffer.
Proof.
  induction fuel as [|fuel IH]; intros buffer out rest E; [discriminate|].
  cbn [extract] in E. unfold extract_once in E.
  destruct buffer as [|b bs]; [injection E as _ <-; apply suffix_refl|].
  destruct (find_start (decode_ignore (b :: bs))) as [start_idx|].
  - cbv zeta in E.
    assert (forall t,
               (if parses (strip t) then Some ([encode (strip t)], [])
                else Some ([], skipn start_idx (b :: bs))) = Some (out, rest) ->
               suffix_of rest (b :: bs)) as Hwhole.
    { intros t X. destruct (parses (strip t)); injection X as _ <-.
      - apply suffix_nil.
      - apply (suffix_skipn start_idx), suffix_refl. }
    destruct (find LF (skipn start_idx (decode_ignore (b :: bs)))) as [nl|];
      [|exact (Hwhole _ E)].
    destruct (parses (strip (firstn nl _))); [|exact (Hwhole _ E)].
    destruct (extract fuel _) as [[out' rest']|] eqn:Er; [|discriminate].
    injection E as _ <-.
    apply (suffix_skipn start_idx), (suffix_skipn (S nl)). exact (IH _ _ _ Er).
  - destruct (1000 <? len (b :: bs))%N; injection E as _ <-;
      [apply suffix_nil | apply suffix_refl].
Qed.

(** The recursion goes one level deeper per unit written: any fuel above
    the number of units gives the same result. *)
Lemma extract_depth (fuel : nat) :
  forall buffer out rest,
    extract fuel buffer = Some (out, rest) ->
    forall fuel', (List.length out < fuel')%nat ->
                  extract fuel' buffer = Some (out, rest).
Proof.
  induction fuel as [|fuel IH]; intros buffer out rest E fuel' Hf; [discriminate|].
  destruct fuel' as [|fuel']; [lia|].
  cbn [extract] in *. unfold extract_once in *.
  destruct buffer as [|b bs]; [exact E|].
  destruct (find_start (decode_ignore (b :: bs))) as [start_idx|]; [|exact E].
  cbv zeta in *.
  destruct (find LF (skipn start_idx (decode_ignore (b :: bs)))) as [nl|];
    [|exact E].
  destruct (parses (strip (firstn nl _))); [|exact E].
  destruct (extract fuel _) as [[out' rest']|] eqn:Er; [|discriminate].
  injection E as <- <-. cbn [List.length] in Hf.
  rewrite (IH _ _ _ Er fuel') by lia. reflexivity.
Qed.
(** More room for the recursion changes nothing. *)
Lemma extract_more_fuel (fuel : nat) :
  forall buffer out rest,
    extract fuel buffer = Some (out, rest) ->
    forall fuel', (fuel <= fuel')%nat -> extract fuel' buffer = Some (out, rest).
Proof.
  induction fuel as [|fuel IH]; intros buffer out rest E fuel' Hf; [discriminate|].
  destruct fuel' as [|fuel']; [lia|].
  cbn [extract] in *. unfold extract_once in *.
  destruct buffer as [|b bs]; [exact E|].
  destruct (find_start (decode_ignore (b :: bs))) as [start_idx|]; [|exact E].
  cbv zeta in *.
  destruct (find LF (skipn start_idx (decode_ignore (b :: bs)))) as [nl|];
    [|exact E].
  destruct (parses (strip (firstn nl _))); [|exact E].
  destruct (extract fuel _) as [[out' rest']|] eqn:Er; [|discriminate].
  injection E as <- <-.
  rewrite (IH _ _ _ Er fuel') by lia. reflexivity.
Qed.

(** Every unit written costs a level of the recursion at most once. *)
Lemma extract_units_bound (fuel : nat) :
  forall buffer out rest,
    extract fuel buffer = Some (out, rest) -> (List.length out <= fuel)%nat.
Proof.
  induction fuel as [|fuel IH]; intros buffer out rest E; [discriminate|].
  cbn [extract] in E. unfold extract_once in E.
  destruct buffer as [|b bs]; [injection E as <- _; cbn [List.length]; lia|].
  destruct (find_start (decode_ignore (b :: bs))) as [start_idx|].
  - cbv zeta in E.
    assert (forall t buf,
               (if parses (strip t) then Some ([encode (strip t)], [])
                else Some ([], buf)) = Some (out, rest) ->
               (List.length out <= S fuel)%nat) as Hwhole.
    { intros t buf X. destruct (parses (strip t)); injection X as <- _;
        cbn [List.length]; lia. }
    destruct (find LF (skipn start_idx (decode_ignore (b :: bs)))) as [nl|];
      [|exact (Hwhole _ _ E)].
    destruct (parses (strip (firstn nl _))); [|exact (Hwhole _ _ E)].
    destruct (extract fuel _) as [[out' rest']|] eqn:Er; [|discriminate].
    injection E as <- _. cbn [List.length]. specialize (IH _ _ _ Er). lia.
  - destruct (1000 <? len (b :: bs))%N; injection E as <- _; cbn [List.length]; lia.
Qed.
End MoreFilterFacts.

(** X16: the recursion of [_extract_json_from_buffer] costs one level per
    unit written.  Under a bound on the depth of the recursion, a call that
    completes having written [n] units completes with the same units and
    the same remaining buffer under every bound above [n], and does not
    complete under any bound below [n] (the recursion limit is reached
    first). *)
Theorem extraction_depth_is_units_written
    (J : Json) (fuel : nat) (buffer : bytes) (out : list bytes) (rest : bytes) :
  extract fuel buffer = Some (out, rest) ->
  forall fuel',
    ((List.length out < fuel')%nat -> extract fuel' buffer = Some (out, rest))
    /\ ((fuel' < List.length out)%nat -> extract fuel' buffer = None).
Proof.
  intros E fuel'. split; [exact (extract_depth _ _ _ _ E fuel')|].
  intros Hlt. destruct (extract fuel' buffer) as [[out' rest']|] eqn:E'; [|reflexivity].
  pose proof (extract_units_bound _ _ _ _ E') as Hb.
  pose proof (extract_more_fuel _ _ _ _ E (Nat.max fuel fuel') (Nat.le_max_l _ _)) as X.
  pose proof (extract_more_fuel _ _ _ _ E' (Nat.max fuel fuel') (Nat.le_max_r _ _)) as Y.
  rewrite X in Y. injection Y as <- _. lia.
Qed.

Lemma extraction_depth_is_units_written_witness :
  @extract python_json 2 banner_stream
  = Some ([frame ++ [LF]], ascii_bytes "more junk" ++ [LF])
  /\ @extract python_json 0 banner_stream = None.
Proof.
  pose proof (extraction_depth_is_units_written python_json 5 banner_stream
                [frame ++ [LF]] (ascii_bytes "more junk" ++ [LF])
                ltac:(vm_compute; reflexivity)) as H.
  split.
  - apply (proj1 (H 2%nat)). cbn [List.length]. lia.
  - apply (proj2 (H 0%nat)). cbn [List.length]. lia.
Defined.

(** X17: while the process runs, every unit the filter writes is the UTF-8
    encoding of a text that starts with a brace or bracket and was accepted
    by [json.loads], alone or followed by one newline. *)
Theorem running_filter_writes_only_json (J : Json) (buffer : bytes) (ev : read_event) :
  data ev <> [] \/ exited ev = false ->
  Forall json_unit (fst (turn buffer ev)).
Proof.
  intros Hev. unfold turn.
  assert (forall b, Forall json_unit (fst (_extract_json_from_buffer b))) as Hx.
  { intros b. destruct (extract_defined b) as [[out rest] [E Er]].
    rewrite Er. exact (extracted_units_are_json _ _ _ _ E). }
  destruct (data ev) as [|d0 dr] eqn:Ed.
  - destruct Hev as [Hev|Hev]; [contradiction Hev; reflexivity|]. rewrite Hev.
    specialize (Hx buffer). destruct (_extract_json_from_buffer buffer). exact Hx.
  - specialize (Hx (buffer ++ d0 :: dr)).
    destruct (_extract_json_from_buffer (buffer ++ d0 :: dr)). exact Hx.
Qed.

Lemma running_filter_writes_only_json_witness :
  Forall (@json_unit python_json) (fst (@turn python_json [] (Read banner_stream))).
Proof.
  apply running_filter_writes_only_json. left. discriminate.
Defined.

(** X18: extraction only removes from the front: the buffer it leaves is a
    tail of the buffer it was given, so it never grows or reorders it. *)
Theorem extraction_keeps_a_tail (J : Json) (buffer : bytes) :
  suffix_of (snd (_extract_json_from_buffer buffer)) buffer.
Proof.
  destruct (extract_defined buffer) as [[out rest] [E Er]].
  rewrite Er. exact (extract_suffix _ _ _ _ E).
Qed.

(** X19: between two reads the filter never holds more than 100000 bytes,
    whatever arrives. *)
Theorem buffer_stays_under_the_cap (J : Json) (events : list read_event) :
  forall buffer,
    (len buffer <= 100000)%N ->
    forall b, snd (run buffer events) = Some b -> (len b <= 100000)%N.
Proof.
  induction events as [|ev rest IH]; intros buffer Hb b E.
  - simpl in E. injection E as <-. exact Hb.
  - cbn [run] in E.
    destruct (turn buffer ev) as [out [b1|]] eqn:Et; [|discriminate E].
    assert (len b1 <= 100000)%N as Hb1.
    { unfold turn in Et. destruct (data ev) as [|d0 dr].
      - destruct (exited ev).
        + destruct buffer; [discriminate Et|].
          destruct (parses _); discriminate Et.
        + destruct (extract_defined buffer) as [[o r] [E' Er']].
          rewrite Er' in Et. injection Et as _ <-.
          pose proof (suffix_length _ _ (extract_suffix _ _ _ _ E')) as Hs. lia.
      - destruct (_extract_json_from_buffer (buffer ++ d0 :: dr)) as [o r].
        injection Et as _ <-.
        destruct (100000 <? len r)%N eqn:El; [vm_compute; discriminate|].
        apply N.ltb_ge. exact El. }
    destruct (run b1 rest) as [out' final] eqn:Er. cbn [snd] in E.
    apply (IH b1 Hb1 b). rewrite Er. exact E.
Qed.

Lemma buffer_stays_under_the_cap_witness :
  (len (ascii_bytes "more junk" ++ [LF]) <= 100000)%N.
Proof.
  apply (buffer_stays_under_the_cap python_json [Read banner_stream; Idle] []).
  - vm_compute. discriminate.
  - vm_compute. reflexivity.
Defined.






(* ===================================================================== *)
(** * The codec round trip, and what it gives for the filter *)
(* ===================================================================== *)

Local Open Scope N_scope.

Ltac to_arith :=
  repeat match goal with
         | E : (_ || _)%bool = true |- _ => apply orb_true_iff in E
         | E : (_ || _)%bool = false |- _ => apply orb_false_iff in E as [? ?]
         | E : (_ && _)%bool = true |- _ => apply andb_true_iff in E as [? ?]
         | E : (_ && _)%bool = false |- _ => apply andb_false_iff in E
         | E : (_ <=? _)%N = true |- _ => apply N.leb_le in E
         | E : (_ <=? _)%N = false |- _ => apply N.leb_gt in E
         | E : (_ <? _)%N = true |- _ => apply N.ltb_lt in E
         | E : (_ <? _)%N = false |- _ => apply N.ltb_ge in E
         | E : (_ =? _)%N = true |- _ => apply N.eqb_eq in E
         | E : (_ =? _)%N = false |- _ => apply N.eqb_neq in E
         end.

Lemma ltb_false (a b : N) : b <= a -> (a <? b) = false.
Proof. intros. apply N.ltb_ge. assumption. Qed.

Lemma range_true (lo hi a : N) : lo <= a <= hi -> (lo <=? a) && (a <=? hi) = true.
Proof. intros [X Y]. apply andb_true_iff. split; apply N.leb_le; assumption. Qed.

Lemma range_false (lo hi a : N) : a < lo \/ hi < a -> (lo <=? a) && (a <=? hi) = false.
Proof. intros X. apply andb_false_iff. destruct X; [left|right]; apply N.leb_gt; assumption. Qed.

Lemma is_cont_true (b : N) : 128 <= b <= 191 -> is_cont b = true.
Proof. apply range_true. Qed.

Lemma second3_true (b0 b1 : N) :
  224 <= b0 <= 239 ->
  128 <= b1 <= 191 -> (b0 = 224 -> 160 <= b1) -> (b0 = 237 -> b1 <= 159) ->
  second3 b0 b1 = true.
Proof.
  intros H0 H1 Ha Hb. unfold second3, is_cont.
  destruct (N.eqb_spec b0 224) as [E|_]; [apply range_true; specialize (Ha E); lia|].
  destruct (N.eqb_spec b0 237) as [E|_]; [apply range_true; specialize (Hb E); lia|].
  apply range_true; lia.
Qed.

Lemma second4_true (b0 b1 : N) :
  240 <= b0 <= 244 ->
  128 <= b1 <= 191 -> (b0 = 240 -> 144 <= b1) -> (b0 = 244 -> b1 <= 143) ->
  second4 b0 b1 = true.
Proof.
  intros H0 H1 Ha Hb. unfold second4, is_cont.
  destruct (N.eqb_spec b0 240) as [E|_]; [apply range_true; specialize (Ha E); lia|].
  destruct (N.eqb_spec b0 244) as [E|_]; [apply range_true; specialize (Hb E); lia|].
  apply range_true; lia.
Qed.

(** The three multi-byte shapes, as both decoders read them. *)
Lemma decode_two (b0 b1 : N) (r : bytes) :
  194 <= b0 <= 223 -> is_cont b1 = true ->
  decode_ignore (b0 :: b1 :: r) = ((b0 - 192) * 64 + (b1 - 128)) :: decode_ignore r
  /\ decode_strict (b0 :: b1 :: r)
     = match decode_strict r with
       | Some s => Some (((b0 - 192) * 64 + (b1 - 128)) :: s)
       | None => None
       end.
Proof.
  intros H0 H1. cbn [decode_ignore decode_strict].
  rewrite (ltb_false b0 128) by lia. rewrite (range_true 194 223 b0 H0), H1.
  split; reflexivity.
Qed.

Lemma decode_three (b0 b1 b2 : N) (r : bytes) :
  224 <= b0 <= 239 -> second3 b0 b1 = true -> is_cont b2 = true ->
  decode_ignore (b0 :: b1 :: b2 :: r)
  = ((b0 - 224) * 4096 + (b1 - 128) * 64 + (b2 - 128)) :: decode_ignore r
  /\ decode_strict (b0 :: b1 :: b2 :: r)
     = match decode_strict r with
       | Some s => Some (((b0 - 224) * 4096 + (b1 - 128) * 64 + (b2 - 128)) :: s)
       | None => None
       end.
Proof.
  intros H0 H1 H2. cbn [decode_ignore decode_strict].
  rewrite (ltb_false b0 128) by lia. rewrite (range_false 194 223 b0) by lia.
  rewrite (range_true 224 239 b0 H0), H1, H2.
  split; reflexivity.
Qed.

Lemma decode_four (b0 b1 b2 b3 : N) (r : bytes) :
  240 <= b0 <= 244 -> second4 b0 b1 = true -> is_cont b2 = true -> is_cont b3 = true ->
  decode_ignore (b0 :: b1 :: b2 :: b3 :: r)
  = ((b0 - 240) * 262144 + (b1 - 128) * 4096 + (b2 - 128) * 64 + (b3 - 128))
      :: decode_ignore r
  /\ decode_strict (b0 :: b1 :: b2 :: b3 :: r)
     = match decode_strict r with
       | Some s => Some (((b0 - 240) * 262144 + (b1 - 128) * 4096
                          + (b2 - 128) * 64 + (b3 - 128)) :: s)
       | None => None
       end.
Proof.
  intros H0 H1 H2 H3. cbn [decode_ignore decode_strict].
  rewrite (ltb_false b0 128) by lia. rewrite (range_false 194 223 b0) by lia.
  rewrite (range_false 224 239 b0) by lia.
  rewrite (range_true 240 244 b0 H0), H1, H2, H3.
  split; reflexivity.
Qed.

(** Base-64 digits of a code point. *)
Lemma digits64 (c : N) :
  exists d0 d1 d2 q,
    c mod 64 = d0 /\ (c / 64) mod 64 = d1 /\ (c / 4096) mod 64 = d2
    /\ c / 64 = d1 + 64 * (c / 4096) /\ c / 4096 = d2 + 64 * q /\ c / 262144 = q
    /\ c = d0 + 64 * d1 + 4096 * d2 + 262144 * q
    /\ d0 < 64 /\ d1 < 64 /\ d2 < 64.
Proof.
  exists (c mod 64), ((c / 64) mod 64), ((c / 4096) mod 64), (c / 262144).
  assert (c / 4096 = c / 64 / 64) as E1 by (rewrite N.Div0.div_div; reflexivity).
  assert (c / 262144 = c / 4096 / 64) as E2 by (rewrite N.Div0.div_div; reflexivity).
  pose proof (N.div_mod c 64 ltac:(lia)) as D0.
  pose proof (N.div_mod (c / 64) 64 ltac:(lia)) as D1.
  pose proof (N.div_mod (c / 4096) 64 ltac:(lia)) as D2.
  pose proof (N.mod_lt c 64 ltac:(lia)).
  pose proof (N.mod_lt (c / 64) 64 ltac:(lia)).
  pose proof (N.mod_lt (c / 4096) 64 ltac:(lia)).
  rewrite <- E1 in D1. rewrite <- E2 in D2.
  repeat split; try assumption; try reflexivity; lia.
Qed.

Lemma decode_encode_cp (c : N) (r : bytes) :
  is_scalar c = true ->
  decode_ignore (encode_cp c ++ r) = c :: decode_ignore r
  /\ decode_strict (encode_cp c ++ r)
     = match decode_strict r with Some s => Some (c :: s) | None => None end.
Proof.
  intros Hc. unfold is_scalar in Hc. apply orb_true_iff in Hc.
  rewrite andb_true_iff, N.ltb_lt, N.leb_le, N.ltb_lt in Hc. unfold encode_cp.
  destruct (digits64 c) as (d0 & d1 & d2 & q & M0 & M1 & M2 & Q1 & Q2 & Q3 & Ec & L0 & L1 & L2).
  destruct (N.ltb_spec c 128) as [E1|E1].
  { cbn [app decode_ignore decode_strict]. apply N.ltb_lt in E1. rewrite E1.
    split; reflexivity. }
  destruct (N.ltb_spec c 2048) as [E2|E2].
  { cbn [app]. rewrite M0, Q1.
    assert (c / 4096 = 0) as Z by lia. rewrite Z.
    destruct (decode_two (192 + (d1 + 64 * 0)) (128 + d0) r) as [A B];
      [lia | apply is_cont_true; lia |].
    rewrite A, B.
    replace ((192 + (d1 + 64 * 0) - 192) * 64 + (128 + d0 - 128)) with c by lia.
    split; reflexivity. }
  destruct (N.ltb_spec c 65536) as [E3|E3].
  { cbn [app]. rewrite M0, M1.
    assert (c / 4096 = d2) as Z by lia. rewrite Z.
    destruct (decode_three (224 + d2) (128 + d1) (128 + d0) r) as [A B];
      [lia | apply second3_true; lia | apply is_cont_true; lia |].
    rewrite A, B.
    replace ((224 + d2 - 224) * 4096 + (128 + d1 - 128) * 64 + (128 + d0 - 128))
      with c by lia.
    split; reflexivity. }
  cbn [app]. rewrite M0, M1, M2, Q3.
  destruct (decode_four (240 + q) (128 + d2) (128 + d1) (128 + d0) r) as [A B];
    [lia | apply second4_true; lia | apply is_cont_true; lia
     | apply is_cont_true; lia |].
  rewrite A, B.
  replace ((240 + q - 240) * 262144 + (128 + d2 - 128) * 4096
           + (128 + d1 - 128) * 64 + (128 + d0 - 128)) with c by lia.
  split; reflexivity.
Qed.

(** Encoding well-formed text and decoding it again gives the text back,
    with either decoder. *)
Lemma decode_encode (s : str) :
  well_formed s = true ->
  decode_ignore (encode s) = s /\ decode_strict (encode s) = Some s.
Proof.
  induction s as [|c s IH]; [split; reflexivity|].
  intros E. apply andb_true_iff in E as [Ec Es].
  destruct (IH Es) as [A B].
  destruct (decode_encode_cp c (encode s) Ec) as [A' B'].
  change (encode (c :: s)) with (encode_cp c ++ encode s).
  rewrite A', B', A, B. split; reflexivity.
Qed.

(** What [decode_ignore] returns is well-formed: no surrogate and nothing
    beyond the last code point. *)
Lemma decode_well_formed (n : nat) :
  forall bs, (List.length bs <= n)%nat -> well_formed (decode_ignore bs) = true.
Proof.
  induction n as [|n IH]; intros bs Hlen.
  - destruct bs; [reflexivity | cbn [List.length] in Hlen; lia].
  - destruct bs as [|b0 r0]; [reflexivity|].
    cbn [List.length] in Hlen. cbn [decode_ignore].
    unfold second3, second4, is_cont.
    repeat match goal with
           | |- context [match ?l with [] => _ | _ :: _ => _ end] =>
               is_var l; destruct l; cbn [List.length] in Hlen
           | |- context [if ?c then _ else _] =>
               lazymatch c with
               | true => fail
               | false => fail
               | _ => destruct c eqn:?
               end
           end;
    try reflexivity;
    try (apply IH; cbn [List.length]; lia);
    (cbn [well_formed forallb]; apply andb_true_iff; split;
     [| apply IH; cbn [List.length]; lia]);
    repeat match goal with
           | E : context [if ?c then _ else _] |- _ =>
               lazymatch c with
               | true => fail
               | false => fail
               | _ => destruct c eqn:?
               end
           end;
    to_arith; unfold is_scalar; apply orb_true_iff;
    rewrite andb_true_iff, N.ltb_lt, N.leb_le, N.ltb_lt; lia.
Qed.

Lemma strip_head (t : str) (c : N) (m : str) :
  strip t = c :: m -> py_isspace c = false /\ rstrip m = m.
Proof.
  unfold strip. destruct (lstrip t) as [|a r] eqn:E; [discriminate|].
  pose proof (lstrip_head t a r E) as Ha.
  rewrite (rstrip_cons_nonspace a r Ha). intros X. injection X as <- <-.
  split; [exact Ha | apply rstrip_idem].
Qed.

(** Trimming removes the newline appended to a trimmed, non-empty text. *)
Lemma strip_line (t : str) :
  strip t <> [] -> strip (strip t ++ [LF]) = strip t.
Proof.
  destruct (strip t) as [|c m] eqn:E; [intros X; contradiction X; reflexivity|].
  intros _. destruct (strip_head t c m E) as [Hc Hm].
  unfold strip. cbn [app lstrip]. rewrite Hc.
  rewrite !(rstrip_cons_nonspace c _ Hc). f_equal.
  unfold rstrip. rewrite rev_app_distr. cbn [rev app lstrip].
  change (py_isspace LF) with true. cbv iota.
  exact Hm.
Qed.

Lemma well_formed_incl (s t : str) :
  (forall x, In x s -> In x t) -> well_formed t = true -> well_formed s = true.
Proof.
  unfold well_formed. rewrite !forallb_forall. auto.
Qed.

Lemma firstn_subset (n : nat) (x : N) (s : str) : In x (firstn n s) -> In x s.
Proof.
  intros X. rewrite <- (firstn_skipn n s). apply in_or_app. left. exact X.
Qed.

Lemma skipn_subset (n : nat) (x : N) (s : str) : In x (skipn n s) -> In x s.
Proof.
  intros X. rewrite <- (firstn_skipn n s). apply in_or_app. right. exact X.
Qed.

Section UnitFacts.
Context {J : Json}.

Lemma parses_nonempty (s : str) : parses s = true -> s <> [].
Proof. intros E ->. discriminate E. Qed.

Lemma is_json_line_spec (u : bytes) :
  is_json_line u = parses (strip (decode_ignore u)).
Proof.
  unfold is_json_line, parses. cbv zeta.
  destruct (strip (decode_ignore u)) as [|c m]; [reflexivity|].
  destruct (starts_json (c :: m)); reflexivity.
Qed.

(** A unit written from a parsed piece [t] of the decoded buffer, with or
    without the newline: it is valid UTF-8 and [is_json_line] accepts it. *)
Lemma unit_is_clean (t : str) (u : bytes) :
  well_formed t = true -> parses (strip t) = true ->
  u = encode (strip t) \/ u = encode (strip t ++ [LF]) ->
  decode_strict u <> None /\ is_json_line u = true.
Proof.
  intros Ht Hp Hu.
  assert (well_formed (strip t) = true) as Hs
      by exact (well_formed_incl (strip t) t (fun x => strip_incl x t) Ht).
  rewrite is_json_line_spec. destruct Hu as [-> | ->].
  - destruct (decode_encode (strip t) Hs) as [A B].
    rewrite A, B, strip_idem. split; [discriminate | exact Hp].
  - assert (well_formed (strip t ++ [LF]) = true) as Hl.
    { unfold well_formed in *. rewrite forallb_app, Hs. reflexivity. }
    destruct (decode_encode (strip t ++ [LF]) Hl) as [A B].
    rewrite A, B, (strip_line t (parses_nonempty _ Hp)).
    split; [discriminate | exact Hp].
Qed.

Lemma extracted_units_are_clean (fuel : nat) :
  forall buffer out rest,
    extract fuel buffer = Some (out, rest) ->
    Forall (fun u => decode_strict u <> None /\ is_json_line u = true) out.
Proof.
  induction fuel as [|fuel IH]; intros buffer out rest E; [discriminate|].
  cbn [extract] in E. unfold extract_once in E.
  destruct buffer as [|b bs]; [injection E as <- _; constructor|].
  pose proof (decode_well_formed _ (b :: bs) (le_n _)) as Hw.
  destruct (find_start (decode_ignore (b :: bs))) as [start_idx|].
  - cbv zeta in E.
    assert (well_formed (skipn start_idx (decode_ignore (b :: bs))) = true) as Hw1
        by exact (well_formed_incl _ _ (fun x => skipn_subset start_idx x _) Hw).
    assert (forall t buf,
               well_formed t = true ->
               (if parses (strip t) then Some ([encode (strip t)], [])
                else Some ([], buf)) = Some (out, rest) ->
               Forall (fun u => decode_strict u <> None /\ is_json_line u = true) out)
      as Hwhole.
    { intros t buf Ht X. destruct (parses (strip t)) eqn:Ep; injection X as <- _.
      - constructor; [|constructor]. apply (unit_is_clean t); auto.
      - constructor. }
    destruct (find LF (skipn start_idx (decode_ignore (b :: bs)))) as [nl|];
      [|exact (Hwhole _ _ Hw1 E)].
    destruct (parses (strip (firstn nl _))) eqn:Ep; [|exact (Hwhole _ _ Hw1 E)].
    destruct (extract fuel _) as [[out' rest']|] eqn:Er; [|discriminate].
    injection E as <- _. constructor; [|exact (IH _ _ _ Er)].
    apply (unit_is_clean (firstn nl (skipn start_idx (decode_ignore (b :: bs)))));
      [|exact Ep | right; reflexivity].
    exact (well_formed_incl _ _ (fun x => firstn_subset nl x _) Hw1).
  - destruct (1000 <? len (b :: bs))%N; injection E as <- _; constructor.
Qed.
End UnitFacts.

(** X21: while the process runs, every unit the filter writes is valid
    UTF-8: the text it encodes came out of the lenient decoder, which yields
    neither a surrogate nor a code point beyond the last one, so the strict
    decoder accepts the bytes written. *)
Theorem running_output_is_valid_utf8 (J : Json) (buffer : bytes) (ev : read_event) :
  data ev <> [] \/ exited ev = false ->
  Forall (fun u => decode_strict u <> None) (fst (turn buffer ev)).
Proof.
  intros Hev. unfold turn.
  assert (forall b, Forall (fun u => decode_strict u <> None)
                      (fst (_extract_json_from_buffer b))) as Hx.
  { intros b. destruct (extract_defined b) as [[out rest] [E Er]].
    rewrite Er. apply extracted_units_are_clean in E.
    eapply Forall_impl; [|exact E]. cbn beta. tauto. }
  destruct (data ev) as [|d0 dr] eqn:Ed.
  - destruct Hev as [Hev|Hev]; [contradiction Hev; reflexivity|]. rewrite Hev.
    specialize (Hx buffer). destruct (_extract_json_from_buffer buffer). exact Hx.
  - specialize (Hx (buffer ++ d0 :: dr)).
    destruct (_extract_json_from_buffer (buffer ++ d0 :: dr)). exact Hx.
Qed.

Lemma running_output_is_valid_utf8_witness :
  Forall (fun u => decode_strict u <> None)
    (fst (@turn python_json [] (Read (encode [233; 233] ++ frame ++ [LF])))).
Proof.
  apply running_output_is_valid_utf8. left. discriminate.
Defined.

Lemma turn_units_pass {J : Json} (buffer : bytes) (ev : read_event) :
  Forall (fun u => is_json_line u = true) (fst (turn buffer ev)).
Proof.
  unfold turn.
  assert (forall b, Forall (fun u => is_json_line u = true)
                      (fst (_extract_json_from_buffer b))) as Hx.
  { intros b. destruct (extract_defined b) as [[out rest] [E Er]].
    rewrite Er. apply extracted_units_are_clean in E.
    eapply Forall_impl; [|exact E]. cbn beta. tauto. }
  destruct (data ev) as [|d0 dr] eqn:Ed.
  - destruct (exited ev).
    + destruct buffer as [|b bs]; [constructor|].
      destruct (parses (strip (decode_ignore (b :: bs)))) eqn:Ep; [|constructor].
      constructor; [|constructor]. rewrite is_json_line_spec. exact Ep.
    + specialize (Hx buffer). destruct (_extract_json_from_buffer buffer). exact Hx.
  - specialize (Hx (buffer ++ d0 :: dr)).
    destruct (_extract_json_from_buffer (buffer ++ d0 :: dr)). exact Hx.
Qed.

(** X22: whatever [filter_stdout] writes, in a running turn or at exit,
    over any sequence of reads, is a unit that [is_json_line] accepts. *)
Theorem every_written_unit_is_a_json_line (J : Json) (events : list read_event) :
  Forall (fun u => is_json_line u = true) (filter_stdout events).
Proof.
  unfold filter_stdout. generalize (@nil N) as buffer.
  induction events as [|ev rest IH]; intros buffer; [constructor|].
  cbn [run]. pose proof (turn_units_pass buffer ev) as Ht.
  destruct (turn buffer ev) as [out [b1|]]; [|exact Ht].
  specialize (IH b1). destruct (run b1 rest) as [out' final].
  cbn [fst] in *. apply Forall_app. split; assumption.
Qed.

(** Where the strict decoder succeeds, the lenient one returns the same text. *)
Lemma decode_strict_agrees (n : nat) :
  forall bs t, (List.length bs <= n)%nat ->
               decode_strict bs = Some t -> decode_ignore bs = t.
Proof.
  induction n as [|n IH]; intros bs t Hlen.
  - destruct bs; [intros E; injection E as <-; reflexivity
                 | cbn [List.length] in Hlen; lia].
  - destruct bs as [|b0 r0]; [intros E; injection E as <-; reflexivity|].
    cbn [List.length] in Hlen. cbn [decode_ignore decode_strict]. cbv zeta.
    assert (forall c r,
               (List.length r <= n)%nat ->
               match decode_strict r with
               | Some s => Some (c :: s)
               | None => None
               end = Some t -> c :: decode_ignore r = t) as Hcons.
    { intros c r Hr E. destruct (decode_strict r) as [s|] eqn:Es; [|discriminate].
      injection E as <-. rewrite (IH r s Hr Es). reflexivity. }
    destruct (b0 <? 128); [apply Hcons; lia|].
    destruct ((194 <=? b0) && (b0 <=? 223)).
    { destruct r0 as [|b1 r1]; [discriminate|]. cbn [List.length] in Hlen.
      destruct (is_cont b1); [apply Hcons; lia | discriminate]. }
    destruct ((224 <=? b0) && (b0 <=? 239)).
    { destruct r0 as [|b1 [|b2 r2]]; try discriminate. cbn [List.length] in Hlen.
      destruct (second3 b0 b1), (is_cont b2); cbn [andb]; try discriminate.
      apply Hcons; lia. }
    destruct ((240 <=? b0) && (b0 <=? 244)); [|discriminate].
    destruct r0 as [|b1 [|b2 [|b3 r3]]]; try discriminate. cbn [List.length] in Hlen.
    destruct (second4 b0 b1), (is_cont b2), (is_cont b3); cbn [andb]; try discriminate.
    apply Hcons; lia.
Qed.

(** X23: when the process has ended and the buffer is valid UTF-8, the
    filter writes the whole buffer if its text, trimmed, starts with a brace
    or bracket and parses, writes nothing otherwise, and stops either way. *)
Theorem exit_flush_of_valid_utf8 (J : Json) (buffer : bytes) (t : str) :
  decode_strict buffer = Some t ->
  turn buffer Exit = (if parses (strip t) then [buffer] else [], None).
Proof.
  intros E. rewrite <- (decode_strict_agrees _ buffer t (le_n _) E).
  unfold turn. cbn [data exited Exit].
  destruct buffer as [|b bs]; [reflexivity|].
  destruct (parses (strip (decode_ignore (b :: bs)))); reflexivity.
Qed.

Lemma exit_flush_of_valid_utf8_witness :
  @turn python_json (frame ++ [LF]) Exit = ([frame ++ [LF]], None).
Proof.
  exact (exit_flush_of_valid_utf8 python_json (frame ++ [LF]) (frame ++ [LF])
           ltac:(vm_compute; reflexivity)).
Defined.

Lemma forward_stderr_stream (events : list read_event) :
  List.concat (forward_stderr events) = List.concat (map data (until_exit events)).
Proof.
  induction events as [|ev rest IH]; [reflexivity|].
  cbn [forward_stderr until_exit].
  destruct (data ev) as [|d0 dr] eqn:Ed.
  - destruct (exited ev); [reflexivity|].
    cbn [map List.concat]. rewrite Ed. exact IH.
  - cbn [map List.concat]. rewrite Ed, IH. reflexivity.
Qed.

(** X24: [forward_stderr] passes the error stream through unchanged: the
    bytes it writes are those of all reads made before the empty read that
    finds the process ended, in order, and it never writes an empty chunk. *)
Theorem forward_stderr_is_verbatim (events : list read_event) :
  List.concat (forward_stderr events) = List.concat (map data (until_exit events))
  /\ Forall (fun chunk => chunk <> []) (forward_stderr events).
Proof.
  split; [exact (forward_stderr_stream events)|].
  induction events as [|ev rest IH]; [constructor|].
  cbn [forward_stderr]. destruct (data ev) as [|d0 dr].
  - destruct (exited ev); [constructor | exact IH].
  - constructor; [discriminate | exact IH].
Qed.

Lemma two_byte_well_formed (cs : str) : two_byte cs -> well_formed cs = true.
Proof.
  induction 1 as [|c cs Hc _ IH]; [reflexivity|].
  cbn [well_formed forallb]. fold (well_formed cs). rewrite IH, andb_true_r.
  unfold is_scalar. apply orb_true_iff. left. apply N.ltb_lt. lia.
Qed.

Lemma two_byte_fresh (cs : str) (x : N) : two_byte cs -> x < 128 -> ~ In x cs.
Proof.
  intros Hcs Hx Hin. unfold two_byte in Hcs. rewrite Forall_forall in Hcs.
  specialize (Hcs x Hin). lia.
Qed.

Lemma encode_two_byte (c : N) (cs : str) :
  128 <= c < 2048 ->
  encode (c :: cs) = (192 + c / 64) :: (128 + c mod 64) :: encode cs.
Proof.
  intros Hc. change (encode (c :: cs)) with (encode_cp c ++ encode cs).
  unfold encode_cp. rewrite (ltb_false c 128) by lia.
  replace (c <? 2048) with true by (symmetry; apply N.ltb_lt; lia). reflexivity.
Qed.

Lemma length_encode_two_byte (cs : str) :
  two_byte cs -> List.length (encode cs) = (2 * List.length cs)%nat.
Proof.
  induction 1 as [|c cs Hc _ IH]; [reflexivity|].
  rewrite (encode_two_byte c cs Hc). cbn [List.length]. rewrite IH. lia.
Qed.

Lemma decode_app_encode (s : str) (r : bytes) :
  well_formed s = true -> decode_ignore (encode s ++ r) = s ++ decode_ignore r.
Proof.
  induction s as [|c s IH]; [reflexivity|].
  intros E. apply andb_true_iff in E as [Ec Es].
  change (encode (c :: s)) with (encode_cp c ++ encode s). rewrite <- app_assoc.
  rewrite (proj1 (decode_encode_cp c (encode s ++ r) Ec)), (IH Es). reflexivity.
Qed.

(** A continuation byte where a character should start is dropped. *)
Lemma decode_stray (b : N) (r : bytes) :
  128 <= b <= 191 -> decode_ignore (b :: r) = decode_ignore r.
Proof.
  intros Hb. cbn [decode_ignore].
  rewrite (ltb_false b 128) by lia. rewrite (range_false 194 223 b) by lia.
  rewrite (range_false 224 239 b) by lia. rewrite (range_false 240 244 b) by lia.
  reflexivity.
Qed.

(** The encoding of two-byte text, cut anywhere at the front, still decodes
    to two-byte text. *)
Lemma decode_cut_encoding (cs : str) (Hcs : two_byte cs) :
  forall (m : nat) (r : bytes),
  exists junk,
    decode_ignore (skipn m (encode cs) ++ r) = junk ++ decode_ignore r
    /\ two_byte junk
    /\ (List.length junk <= List.length (skipn m (encode cs)))%nat.
Proof.
  induction Hcs as [|c cs Hc Hcs IH]; intros m r.
  - exists []. rewrite skipn_nil. repeat split; [constructor | apply le_n].
  - rewrite (encode_two_byte c cs Hc).
    destruct m as [|[|m]].
    + exists (c :: cs). rewrite skipn_O, <- (encode_two_byte c cs Hc).
      assert (two_byte (c :: cs)) as H2 by (constructor; assumption).
      rewrite (decode_app_encode _ r (two_byte_well_formed _ H2)).
      repeat split; [exact H2|].
      rewrite (length_encode_two_byte _ H2). lia.
    + exists cs. cbn [skipn app].
      assert (128 <= 128 + c mod 64 <= 191) as Hb.
      { pose proof (N.mod_lt c 64 ltac:(discriminate)) as Hm.
        revert Hm. generalize (c mod 64). intros d Hm. lia. }
      rewrite (decode_stray _ _ Hb).
      rewrite (decode_app_encode _ r (two_byte_well_formed _ Hcs)).
      repeat split; [exact Hcs|].
      cbn [List.length]. rewrite (length_encode_two_byte _ Hcs). lia.
    + cbn [skipn]. exact (IH m r).
Qed.

Section Twice.
Context {J : Json}.
Variable j : bytes.
Hypothesis Hj : complete_object j = true.

(** A line whose object is preceded by text without brace or bracket: the
    object is written, and the buffer loses as many bytes as the text has
    characters, then as many as the line has. *)
Lemma line_after_text (again : bytes -> option (list bytes * bytes))
    (pre : bytes) (text : str) :
  decode_ignore (pre ++ j ++ [LF]) = text ++ j ++ [LF] ->
  two_byte text ->
  extract_once again (pre ++ j ++ [LF])
  = match again (skipn (S (List.length j))
                   (skipn (List.length text) (pre ++ j ++ [LF]))) with
    | Some (out, r) => Some ((j ++ [LF]) :: out, r)
    | None => None
    end.
Proof.
  intros Hd Ht.
  destruct (object_facts j Hj) as (Ha & [r Hr] & Hl & Hs & Hp & _ & _).
  assert (parses j = true) as Hpj.
  { unfold parses. rewrite Hp, Hr. reflexivity. }
  assert (is_ascii (j ++ [LF]) = true) as Hal.
  { unfold is_ascii in *. rewrite forallb_app, Ha. reflexivity. }
  assert (find_start (text ++ j ++ [LF]) = Some (List.length text)) as Hf.
  { unfold find_start. rewrite Hr. cbn [app].
    rewrite (@find_app_fresh 123 text (r ++ [LF]))
      by (apply two_byte_fresh; [assumption | lia]).
    reflexivity. }
  remember (pre ++ j ++ [LF]) as buf eqn:Eb.
  destruct buf as [|n l]; [destruct pre; [destruct j|]; discriminate|].
  unfold extract_once. rewrite Hd, Hf. cbv zeta.
  rewrite skipn_exact.
  rewrite (@find_app_fresh LF j [] Hl).
  rewrite firstn_exact, Hs, Hpj, (@encode_ascii _ Hal). reflexivity.
Qed.
End Twice.

(** X25: [_extract_json_from_buffer] removes bytes by character counts.
    When a one-line object follows a preamble of two-byte characters that
    has more characters than the object has bytes, the object is written
    twice: the bytes removed for the preamble and for the line are all
    taken from the preamble, and the line is still in the buffer at the
    nested call. *)
Theorem frame_after_long_preamble_is_written_twice
    (J : Json) (cs : str) (j : bytes) :
  two_byte cs -> complete_object j = true ->
  (List.length j < List.length cs)%nat ->
  exists out rest,
    _extract_json_from_buffer (encode cs ++ j ++ [LF])
    = ((j ++ [LF]) :: (j ++ [LF]) :: out, rest).
Proof.
  intros Hcs Hj Hlen.
  destruct (object_facts j Hj) as (Ha & _).
  assert (is_ascii (j ++ [LF]) = true) as Hal.
  { unfold is_ascii in *. rewrite forallb_app, Ha. reflexivity. }
  pose proof (length_encode_two_byte cs Hcs) as Le.
  (* the first call: the preamble is [List.length cs] characters long *)
  assert (decode_ignore (encode cs ++ j ++ [LF]) = cs ++ j ++ [LF]) as D1.
  { rewrite (decode_app_encode _ _ (two_byte_well_formed _ Hcs)).
    rewrite (@decode_ascii _ Hal). reflexivity. }
  set (m := (S (List.length j) + List.length cs)%nat).
  assert (skipn (S (List.length j))
            (skipn (List.length cs) (encode cs ++ j ++ [LF]))
          = skipn m (encode cs) ++ j ++ [LF]) as B2.
  { rewrite skipn_skipn. fold m. rewrite skipn_app.
    replace (m - List.length (encode cs))%nat with 0%nat by (unfold m; lia).
    reflexivity. }
  (* the nested call: what is left of the preamble, then the line again *)
  destruct (decode_cut_encoding cs Hcs m (j ++ [LF])) as (junk & D2 & Hjunk & Lj).
  rewrite (@decode_ascii _ Hal) in D2.
  set (b3 := skipn (S (List.length j))
               (skipn (List.length junk) (skipn m (encode cs) ++ j ++ [LF]))).
  destruct (@extract_enough J (S (List.length b3)) b3 (Nat.lt_succ_diag_r _))
    as [[out rest] E3].
  exists out, rest.
  assert (extract (S (S (S (List.length b3)))) (encode cs ++ j ++ [LF])
          = Some ((j ++ [LF]) :: (j ++ [LF]) :: out, rest)) as E.
  { change (extract (S (S (S (List.length b3)))))
      with (extract_once (extract_once (extract (S (List.length b3))))).
    rewrite (line_after_text j Hj _ (encode cs) cs D1 Hcs), B2.
    rewrite (line_after_text j Hj _ (skipn m (encode cs)) junk D2 Hjunk).
    fold b3. rewrite E3. reflexivity. }
  destruct (extract_defined (encode cs ++ j ++ [LF])) as [[out0 rest0] [E0 Er]].
  rewrite Er.
  set (top := Nat.max (S (List.length (encode cs ++ j ++ [LF])))
                (S (S (S (List.length b3))))).
  pose proof (extract_more_fuel _ _ _ _ E0 top (Nat.le_max_l _ _)) as X.
  pose proof (extract_more_fuel _ _ _ _ E top (Nat.le_max_r _ _)) as Y.
  rewrite X in Y. injection Y as -> ->. reflexivity.
Qed.

Lemma frame_after_long_preamble_is_written_twice_witness :
  exists out rest,
    @_extract_json_from_buffer python_json
      (encode [233; 233; 233] ++ [123; 125] ++ [LF])
    = (([123; 125] ++ [LF]) :: ([123; 125] ++ [LF]) :: out, rest).
Proof.
  apply (frame_after_long_preamble_is_written_twice python_json
           [233; 233; 233] [123; 125]).
  - repeat constructor; lia.
  - vm_compute. reflexivity.
  - cbn [List.length]. lia.
Defined.

Local Close Scope N_scope.
